(** * Authentication and authorization core of the academic-records API

    A shallow embedding of the NestJS authentication code:
    - [src/auth/auth.service.ts]      (AuthService: signIn, signOut, refreshTokens)
    - [src/auth/auth.controller.ts]   (AuthController and its route decorators)
    - [src/auth/guards/at.guard.ts]   (AtGuard)
    - [src/auth/guards/roles.guard.ts](RolesGuard)
    - [src/auth/strategies/*.ts]      (AtStrategy, RfStrategy)
    - [src/auth/decorators/*.ts]      (Public, Roles)
    - [src/profiles/entities/profile.entity.ts] (Profile, Role)
    - [src/profiles/profiles.service.ts] (ProfilesService)
    - the route decorators of the courses, departments, students,
      lecturer and profiles controllers
    - [src/students/students.service.ts] (the course functions of
      StudentsService, over the student, course and join tables)

    The profile table is a list of rows threaded through a small
    state-and-exception monad.  Two platforms serve to run the code: a
    symbolic one with tokens in the clear, and one with the compact form
    of the tokens and a hasher that reads 72 bytes, as bcrypt does.  The npm libraries the code calls (bcrypt,
    @nestjs/jwt, passport-jwt) are the fields of the class [Platform]; the
    clock and the entropy they read are explicit inputs. *)

From Stdlib Require Import ZArith List String Ascii Bool Lia DecimalString.
From Stdlib Require Import Permutation.
Import ListNotations.
Local Open Scope Z_scope.
Local Open Scope string_scope.

(* ================================================================== *)
(** ** Strings as the code uses them *)
(* ================================================================== *)

(** Template-literal rendering of a number, [`${id}`], for the integers
    a key column holds: JavaScript prints them in plain decimal form (it
    turns to the exponent form from 10^21 on). *)
Definition show (z : Z) : string := NilZero.string_of_int (Z.to_int z).

Fixpoint drop (n : nat) (s : string) : string :=
  match n, s with
  | O, _ => s
  | S _, EmptyString => EmptyString
  | S n', String _ s' => drop n' s'
  end.

(** [String.prototype.replace(pattern, replacement)] with a string pattern:
    only the first occurrence is replaced. *)
Fixpoint replace (pattern replacement s : string) : string :=
  if String.prefix pattern s
  then replacement ++ drop (String.length pattern) s
  else match s with
       | EmptyString => EmptyString
       | String c s' => String c (replace pattern replacement s')
       end.

(** White space removed by [String.prototype.trim] within ASCII:
    TAB, LF, VT, FF, CR and SPACE. *)
Definition isWhiteSpace (c : ascii) : bool :=
  let n := nat_of_ascii c in
  ((9 <=? n)%nat && (n <=? 13)%nat) || (n =? 32)%nat.

Fixpoint trimStart (s : string) : string :=
  match s with
  | EmptyString => EmptyString
  | String c s' => if isWhiteSpace c then trimStart s' else s
  end.

Fixpoint trimEnd (s : string) : string :=
  match s with
  | EmptyString => EmptyString
  | String c s' =>
      match trimEnd s' with
      | EmptyString => if isWhiteSpace c then EmptyString else String c EmptyString
      | t => String c t
      end
  end.

Definition trim (s : string) : string := trimEnd (trimStart s).

(* ================================================================== *)
(** ** Data model: profile.entity.ts *)
(* ================================================================== *)

Inductive Role : Set := STUDENT | FACULTY | ADMIN | GUEST.

(** The string value of each enum member. *)
Definition Role_value (r : Role) : string :=
  match r with
  | STUDENT => "student"
  | FACULTY => "faculty"
  | ADMIN => "admin"
  | GUEST => "guest"
  end.

(** [a === b] on enum members. *)
Definition Role_eqb (a b : Role) : bool :=
  match a, b with
  | STUDENT, STUDENT | FACULTY, FACULTY | ADMIN, ADMIN | GUEST, GUEST => true
  | _, _ => false
  end.

Module Profile.
(** The columns the authentication core reads or writes.  The time
    stamps and the student/lecturer relations play no part in it. *)
Record t : Type := mk {
  id : Z;
  firstName : string;
  lastName : string;
  email : string;
  password : string;
  role : Role;
  hashedRefreshToken : option string
}.

(** Partial updates [{ hashedRefreshToken: v }] and [{ role: r }]. *)
Definition set_hashedRefreshToken (v : option string) (p : t) : t :=
  mk (id p) (firstName p) (lastName p) (email p) (password p) (role p) v.

Definition set_role (r : Role) (p : t) : t :=
  mk (id p) (firstName p) (lastName p) (email p) (password p) r
     (hashedRefreshToken p).
End Profile.

(** TypeORM's [Repository<Profile>]: the table is the list of its rows. *)
Module Repository.
Definition table : Type := list Profile.t.

Definition whereId (i : Z) (p : Profile.t) : bool := Z.eqb (Profile.id p) i.
Definition whereEmail (e : string) (p : Profile.t) : bool :=
  String.eqb (Profile.email p) e.

(** [findOne({ where })]: the first matching row, or null. *)
Definition findOne (where_ : Profile.t -> bool) (db : table) : option Profile.t :=
  find where_ db.

(** [update(id, partial)]: every row with that id is patched; the result
    reports how many rows matched. *)
Definition affected (i : Z) (db : table) : nat :=
  List.length (filter (whereId i) db).

Definition update (i : Z) (patch : Profile.t -> Profile.t) (db : table) : table :=
  map (fun p => if whereId i p then patch p else p) db.

(** [find({ where })]: every matching row, in table order. *)
Definition findAll (where_ : Profile.t -> bool) (db : table) : list Profile.t :=
  filter where_ db.

(** [delete(id)]: the rows with that id are removed; the result reports
    how many there were, as [affected] does. *)
Definition delete (i : Z) (db : table) : table :=
  filter (fun p => negb (whereId i p)) db.

(** [save(entity)] of an entity that has no row yet: one row is added. *)
Definition insert (p : Profile.t) (db : table) : table := (db ++ [p])%list.
End Repository.

(* ================================================================== *)
(** ** Exceptions and the service monad *)
(* ================================================================== *)

(** The exception classes of @nestjs/common this code raises, each with
    its message; [InternalServerError] stands for a non-HTTP error (such
    as a TypeError), which Nest reports as status 500. *)
Inductive HttpException : Type :=
| NotFoundException (message : string)
| UnauthorizedException (message : string)
| ForbiddenException (message : string)
| InternalServerError (message : string).

Definition getStatus (e : HttpException) : Z :=
  match e with
  | NotFoundException _ => 404
  | UnauthorizedException _ => 401
  | ForbiddenException _ => 403
  | InternalServerError _ => 500
  end.

Definition getMessage (e : HttpException) : string :=
  match e with
  | NotFoundException m | UnauthorizedException m
  | ForbiddenException m | InternalServerError m => m
  end.

Inductive Outcome (A : Type) : Type :=
| Returned (a : A)
| Thrown (e : HttpException).
Arguments Returned {A} a.
Arguments Thrown {A} e.

(** An asynchronous method of the code: it reads and writes the profile
    table and either returns or throws. *)
Definition IO (A : Type) : Type := Repository.table -> Outcome A * Repository.table.

Definition ret {A : Type} (a : A) : IO A := fun db => (Returned a, db).
Definition throw {A : Type} (e : HttpException) : IO A := fun db => (Thrown e, db).
Definition bind {A B : Type} (m : IO A) (k : A -> IO B) : IO B :=
  fun db =>
    match m db with
    | (Returned a, db') => k a db'
    | (Thrown e, db') => (Thrown e, db')
    end.

(** [promise.catch(handler)]. *)
Definition catch {A : Type} (m : IO A) (handler : HttpException -> IO A) : IO A :=
  fun db =>
    match m db with
    | (Returned a, db') => (Returned a, db')
    | (Thrown e, db') => handler e db'
    end.

Declare Scope io_scope.
Delimit Scope io_scope with io.
Notation "x <- m ;; k" := (bind m (fun x => k))
  (at level 61, m at next level, right associativity) : io_scope.
Notation "m ;;; k" := (bind m (fun _ => k))
  (at level 61, right associativity) : io_scope.
Local Open Scope io_scope.

Definition repo_findOne (where_ : Profile.t -> bool) : IO (option Profile.t) :=
  fun db => (Returned (Repository.findOne where_ db), db).

(** The [UpdateResult] is reduced to its [affected] count. *)
Definition repo_update (i : Z) (patch : Profile.t -> Profile.t) : IO nat :=
  fun db => (Returned (Repository.affected i db), Repository.update i patch db).

Definition repo_find (where_ : Profile.t -> bool) : IO (list Profile.t) :=
  fun db => (Returned (Repository.findAll where_ db), db).

(** [delete(id)].  The join column of [Lecturer.profile] declares no
    [onDelete], so the database refuses to delete a profile row that a
    lecturer row refers to, and the query fails with a QueryFailedError,
    which is not an HTTP exception; [lecturerProfiles] lists the profile
    ids that the lecturer rows hold.  ([Student.profile] is declared with
    [onDelete: 'CASCADE']: the student row goes with the profile.)  The
    [DeleteResult] is reduced to its [affected] count. *)
Definition repo_delete (lecturerProfiles : list Z) (i : Z) : IO nat :=
  fun db =>
    if (negb (Nat.eqb (Repository.affected i db) 0)
        && existsb (Z.eqb i) lecturerProfiles)%bool
    then (Thrown (InternalServerError "QueryFailedError"), db)
    else (Returned (Repository.affected i db), Repository.delete i db).

(** The object handed to [save] by [ProfilesService.create]: it has no
    id, and its role is a string. *)
Module NewProfile.
Record t : Type := mk {
  firstName : string;
  lastName : string;
  email : string;
  password : string;
  role : string
}.
End NewProfile.

(** What the enum column [role] accepts: the four values of the enum,
    spelled as the enum spells them. *)
Definition Role_of_value (s : string) : option Role :=
  if String.eqb s "student" then Some STUDENT
  else if String.eqb s "faculty" then Some FACULTY
  else if String.eqb s "admin" then Some ADMIN
  else if String.eqb s "guest" then Some GUEST
  else None.

(** [save(newProfile)] of an object with no id.  The database gives the
    increment column the value [generatedId] and the refresh-token column
    its default, null; it refuses a role that is not a value of the enum,
    and the query fails with a QueryFailedError.  [save] answers with the
    saved entity. *)
Definition repo_save (generatedId : Z) (newProfile : NewProfile.t) : IO Profile.t :=
  match Role_of_value (NewProfile.role newProfile) with
  | None => throw (InternalServerError "QueryFailedError")
  | Some role =>
      fun db =>
        let saved := Profile.mk generatedId (NewProfile.firstName newProfile)
                                (NewProfile.lastName newProfile)
                                (NewProfile.email newProfile)
                                (NewProfile.password newProfile) role None in
        (Returned saved, Repository.insert saved db)
  end.

(* ================================================================== *)
(** ** Tokens, configuration and the libraries *)
(* ================================================================== *)

Module JWTPayload.
Record t : Type := mk { sub : Z; email : string; role : string }.
End JWTPayload.

Record Tokens : Type := mkTokens { accessToken : string; refreshToken : string }.

(** The four keys read with [configService.getOrThrow]; the configuration
    is complete. *)
Record Config : Type := mkConfig {
  JWT_ACCESS_TOKEN_SECRET : string;
  JWT_ACCESS_TOKEN_EXPIRATION_TIME : string;
  JWT_REFRESH_TOKEN_SECRET : string;
  JWT_REFRESH_TOKEN_EXPIRATION_TIME : string
}.

(** What one call reads from outside the table: the clock, in seconds,
    and the entropy behind [Bcrypt.genSalt]. *)
Record Env : Type := mkEnv { clock : Z; entropy : string }.

(** The library calls of the code.
    - [signAsync payload secret expiresIn now]: [jwtService.signAsync];
    - [verify secretOrKey now token]: the signature and expiry check of
      the passport-jwt strategy, giving the decoded payload;
    - [fromAuthHeaderAsBearerToken]: the extractor, applied to the
      Authorization header of the request;
    - [Bcrypt_genSalt], [Bcrypt_hash], [Bcrypt_compare]: bcrypt. *)
Class Platform : Type := {
  signAsync : JWTPayload.t -> string -> string -> Z -> string;
  verify : string -> Z -> string -> option JWTPayload.t;
  fromAuthHeaderAsBearerToken : option string -> option string;
  Bcrypt_genSalt : Z -> string -> string;
  Bcrypt_hash : string -> string -> string;
  Bcrypt_compare : string -> string -> bool
}.

(** An ideal hasher: it accepts exactly the data that was hashed, and a
    hash is never the empty string.  bcrypt itself reads no more than the
    first 72 bytes of the data ([BcryptReads72] below); the two agree on
    equal data and on data of at most 72 bytes. *)
Class BcryptLaws (P : Platform) : Prop := {
  Bcrypt_compare_hash :
    forall data data' salt,
      Bcrypt_compare data (Bcrypt_hash data' salt) = String.eqb data data';
  Bcrypt_hash_nonempty :
    forall data salt, Bcrypt_hash data salt <> EmptyString
}.

(** bcrypt reads the first 72 bytes of the data and ignores the rest. *)
Definition bytes72 (data : string) : string := substring 0 72 data.

(** The hasher as bcrypt is: [compare] accepts the data that agree with
    the hashed data on their first 72 bytes, and no other; a hash is
    never the empty string. *)
Class BcryptReads72 (P : Platform) : Prop := {
  Bcrypt_compare_bytes72 :
    forall data data' salt,
      Bcrypt_compare data (Bcrypt_hash data' salt)
      = String.eqb (bytes72 data) (bytes72 data');
  Bcrypt_hash_is_nonempty :
    forall data salt, Bcrypt_hash data salt <> EmptyString
}.

(** The compact form of a JWT puts the header first, then the payload
    with the claims of the caller before the time stamps that
    [signAsync] adds, then the signature.  The first 72 bytes of a token
    hold the header and the beginning of the caller's claims: they are
    the same whatever the key, the lifetime and the time of issue. *)
Class JwtLayout (P : Platform) : Prop := {
  signAsync_bytes72 :
    forall payload secret secret' expiresIn expiresIn' now now',
      bytes72 (signAsync payload secret expiresIn now)
      = bytes72 (signAsync payload secret' expiresIn' now')
}.

(* ================================================================== *)
(** ** auth.service.ts *)
(* ================================================================== *)

Module CreateAuthDto.
Record t : Type := mk { email : string; password : string }.
End CreateAuthDto.

Module AuthService.
Section Service.
Context {P : Platform} (config : Config) (env : Env).

(** Both tokens carry the same payload; they differ in the secret and
    the lifetime only. *)
Definition getTokens (userId : Z) (email role : string) : Tokens :=
  let payload := JWTPayload.mk userId email role in
  let at_ := signAsync payload (JWT_ACCESS_TOKEN_SECRET config)
               (JWT_ACCESS_TOKEN_EXPIRATION_TIME config) (clock env) in
  let rt := signAsync payload (JWT_REFRESH_TOKEN_SECRET config)
               (JWT_REFRESH_TOKEN_EXPIRATION_TIME config) (clock env) in
  mkTokens at_ rt.

Definition hashData (data : string) : string :=
  let salt := Bcrypt_genSalt 10 (entropy env) in
  Bcrypt_hash data salt.

Definition saveRefreshToken (userId : Z) (refreshToken : string) : IO unit :=
  let hashedRefreshToken := hashData refreshToken in
  repo_update userId (Profile.set_hashedRefreshToken (Some hashedRefreshToken)) ;;;
  ret tt.

Definition signIn (createAuthDto : CreateAuthDto.t) : IO Tokens :=
  foundUser <- repo_findOne
                 (Repository.whereEmail (CreateAuthDto.email createAuthDto)) ;;
  match foundUser with
  | None =>
      throw (NotFoundException
               ("User with email " ++ CreateAuthDto.email createAuthDto
                                   ++ " not found"))
  | Some foundUser =>
      let foundPassword :=
        Bcrypt_compare (CreateAuthDto.password createAuthDto)
                       (Profile.password foundUser) in
      if negb foundPassword
      then throw (NotFoundException "Invalid credentials")
      else
        let tokens := getTokens (Profile.id foundUser) (Profile.email foundUser)
                                (Role_value (Profile.role foundUser)) in
        saveRefreshToken (Profile.id foundUser) (refreshToken tokens) ;;;
        ret tokens
  end.

(** [signOut] for a user id that is a number: the id is the primary-key
    criterion of the update. *)
Definition signOut (userId : Z) : IO string :=
  res <- repo_update userId (Profile.set_hashedRefreshToken None) ;;
  if Nat.eqb res 0
  then throw (NotFoundException ("User with ID " ++ show userId ++ " not found"))
  else ret ("User with id : " ++ show userId ++ " signed out successfully").

(** [signOut(userId: string)] as the sign-out route calls it.  The
    handler takes [@Param('id') id: string] with no ParseIntPipe, so
    [userId] is the text of the path segment, and
    [profileRepository.update(userId, ...)] hands that text to the
    database as the value of the integer key.  [integer_in] is the
    database's reading of a text as an integer; a text it cannot read
    makes the statement fail with a QueryFailedError, which is not an
    HTTP exception. *)
Definition signOutParam (integer_in : string -> option Z) (userId : string)
  : IO string :=
  match integer_in userId with
  | None => throw (InternalServerError "QueryFailedError")
  | Some key =>
      res <- repo_update key (Profile.set_hashedRefreshToken None) ;;
      if Nat.eqb res 0
      then throw (NotFoundException ("User with ID " ++ userId ++ " not found"))
      else ret ("User with id : " ++ userId ++ " signed out successfully")
  end.

(** [!foundUser.hashedRefreshToken] holds for null and for the empty
    string: both take the 'No refresh token found' branch. *)
Definition refreshTokens (id : Z) (refreshToken_ : string) : IO Tokens :=
  foundUser <- repo_findOne (Repository.whereId id) ;;
  match foundUser with
  | None => throw (NotFoundException ("User with ID " ++ show id ++ " not found"))
  | Some foundUser =>
      match Profile.hashedRefreshToken foundUser with
      | None => throw (NotFoundException "No refresh token found")
      | Some stored =>
          if String.eqb stored EmptyString
          then throw (NotFoundException "No refresh token found")
          else
            let refreshTokenMatches := Bcrypt_compare refreshToken_ stored in
            if negb refreshTokenMatches
            then throw (NotFoundException "Invalid refresh token")
            else
              let tokens := getTokens (Profile.id foundUser)
                                      (Profile.email foundUser)
                                      (Role_value (Profile.role foundUser)) in
              saveRefreshToken (Profile.id foundUser) (refreshToken tokens) ;;;
              ret tokens
      end
  end.

(** [refreshTokens] when the token handed over is [undefined]: the two
    look-ups come first, and [Bcrypt.compare] rejects a missing argument
    with an error that is not an HTTP exception. *)
Definition refreshTokens_undefined (id : Z) : IO Tokens :=
  foundUser <- repo_findOne (Repository.whereId id) ;;
  match foundUser with
  | None => throw (NotFoundException ("User with ID " ++ show id ++ " not found"))
  | Some foundUser =>
      match Profile.hashedRefreshToken foundUser with
      | None => throw (NotFoundException "No refresh token found")
      | Some stored =>
          if String.eqb stored EmptyString
          then throw (NotFoundException "No refresh token found")
          else throw (InternalServerError "data and hash arguments required")
      end
  end.
End Service.
End AuthService.

(* ================================================================== *)
(** ** Route metadata, requests and the decorators *)
(* ================================================================== *)

(** The two metadata keys the guards read: ['isPublic'] and [ROLES_KEY]. *)
Record Metadata : Type := mkMetadata {
  isPublic : option bool;
  roles : option (list Role)
}.

Definition noMetadata : Metadata := mkMetadata None None.

(** [Public = () => SetMetadata('isPublic', true)]. *)
Definition Public (m : Metadata) : Metadata := mkMetadata (Some true) (roles m).

(** [Roles = (...roles) => SetMetadata(ROLES_KEY, roles)]. *)
Definition Roles (rs : list Role) (m : Metadata) : Metadata :=
  mkMetadata (isPublic m) (Some rs).

(** [request.user]: the decoded payload, and for the refresh strategy the
    raw token next to it. *)
Module User.
Record t : Type := mk { payload : JWTPayload.t; refreshToken : option string }.
Definition sub (u : t) : Z := JWTPayload.sub (payload u).
End User.

Record Request : Type := mkRequest {
  authorization : option string;
  user : option User.t
}.

Record ExecutionContext : Type := mkContext {
  getHandler : Metadata;
  getClass : Metadata;
  getRequest : Request
}.

(** [Reflector.getAllAndOverride(key, targets)]: the value at the first
    target that defines the key. *)
Fixpoint getAllAndOverride {A : Type} (key : Metadata -> option A)
         (targets : list Metadata) : option A :=
  match targets with
  | [] => None
  | t :: ts =>
      match key t with
      | Some v => Some v
      | None => getAllAndOverride key ts
      end
  end.

(* ================================================================== *)
(** ** Strategies and guards *)
(* ================================================================== *)

(** A passport-jwt strategy: the key it verifies with and its [validate]
    callback. *)
Record Strategy : Type := mkStrategy {
  secretOrKey : string;
  validate : Request -> JWTPayload.t -> Outcome User.t
}.

(** at.strategy.ts: [validate(payload) { return payload; }]. *)
Definition AtStrategy (config : Config) : Strategy :=
  mkStrategy (JWT_ACCESS_TOKEN_SECRET config)
             (fun _ payload => Returned (User.mk payload None)).

(** rt.strategy.ts:
    [req.get('Authorization').replace('Bearer', '').trim()]. *)
Definition RfStrategy (config : Config) : Strategy :=
  mkStrategy (JWT_REFRESH_TOKEN_SECRET config)
             (fun req payload =>
                match authorization req with
                | None => Thrown (InternalServerError "Internal server error")
                | Some header =>
                    let refreshToken := trim (replace "Bearer" "" header) in
                    Returned (User.mk payload (Some refreshToken))
                end).

(** A guard answers true or false, or throws; it may attach the user to
    the request. *)
Definition Guard : Type := ExecutionContext -> IO (bool * ExecutionContext).

Section Guards.
Context {P : Platform} (config : Config) (now : Z).

(** [AuthGuard(name).canActivate]: extract the bearer token, verify it
    with the strategy's key, run [validate] and attach its result as
    [request.user]; any failure is an UnauthorizedException. *)
Definition AuthGuard (s : Strategy) : Guard :=
  fun context =>
    let request := getRequest context in
    match fromAuthHeaderAsBearerToken (authorization request) with
    | None => throw (UnauthorizedException "Unauthorized")
    | Some token =>
        match verify (secretOrKey s) now token with
        | None => throw (UnauthorizedException "Unauthorized")
        | Some payload =>
            match validate s request payload with
            | Thrown e => throw e
            | Returned u =>
                ret (true,
                     mkContext (getHandler context) (getClass context)
                               (mkRequest (authorization request) (Some u)))
            end
        end
    end.

(** at.guard.ts *)
Definition AtGuard : Guard :=
  fun context =>
    let isPublic_ :=
      getAllAndOverride isPublic [getHandler context; getClass context] in
    match isPublic_ with
    | Some true => ret (true, context)
    | _ => AuthGuard (AtStrategy config) context
    end.

(** rt.guard.ts *)
Definition RtGuard : Guard := AuthGuard (RfStrategy config).
End Guards.

(** roles.guard.ts *)
Module RolesGuard.
Definition canActivate (context : ExecutionContext) : IO bool :=
  let requiredRoles :=
    getAllAndOverride roles [getHandler context; getClass context] in
  match requiredRoles with
  | None => ret true
  | Some requiredRoles =>
      let request := getRequest context in
      match user request with
      | None => ret false
      | Some user_ =>
          userProfile <- repo_findOne (Repository.whereId (User.sub user_)) ;;
          match userProfile with
          | None => ret false
          | Some userProfile =>
              ret (existsb (fun role => Role_eqb (Profile.role userProfile) role)
                           requiredRoles)
          end
      end
  end.

Definition guard : Guard :=
  fun context => b <- canActivate context ;; ret (b, context).
End RolesGuard.

(** The guards of a route run in order; a guard answering false makes
    Nest throw ForbiddenException, and nothing after it runs. *)
Fixpoint runGuards (guards : list Guard) (context : ExecutionContext)
  : IO ExecutionContext :=
  match guards with
  | [] => ret context
  | g :: rest =>
      r <- g context ;;
      if fst r
      then runGuards rest (snd r)
      else throw (ForbiddenException "Forbidden resource")
  end.

(* ================================================================== *)
(** ** profiles.service.ts: the update path that changes a role *)
(* ================================================================== *)

Module UpdateProfileDto.
(** Every field is optional. *)
Record t : Type := mk {
  firstName : option string;
  lastName : option string;
  email : option string;
  password : option string;
  role : option Role
}.

Definition onlyRole (r : Role) : t := mk None None None None (Some r).

(** No property is set. *)
Definition isEmpty (dto : t) : bool :=
  match firstName dto, lastName dto, email dto, password dto, role dto with
  | None, None, None, None, None => true
  | _, _, _, _, _ => false
  end.
End UpdateProfileDto.

Module CreateProfileDto.
(** The body as the handler receives it.  The global [ValidationPipe] is
    built without [transform], so the handler gets the plain object of
    the request and the initialiser [role: Role = Role.GUEST] of the class
    does not fill in a missing role: [role] is a value of the enum
    (IsEnum) or absent. *)
Record t : Type := mk {
  firstName : string;
  lastName : string;
  email : string;
  password : string;
  role : option Role
}.
End CreateProfileDto.

(** [Partial<Profile>]: a profile object in which any property may be
    missing.  A missing [hashedRefreshToken] is [None]; a present one is
    [Some] of the column value, null or a string. *)
Module PartialProfile.
Record t : Type := mk {
  id : option Z;
  firstName : option string;
  lastName : option string;
  email : option string;
  password : option string;
  role : option Role;
  hashedRefreshToken : option (option string)
}.
End PartialProfile.

Module ProfilesService.
Section Service.
Context {P : Platform} (env : Env).

Definition hashData (data : string) : string :=
  let salt := Bcrypt_genSalt 10 (entropy env) in
  Bcrypt_hash data salt.

Definition orElse {A : Type} (o : option A) (d : A) : A :=
  match o with Some a => a | None => d end.

(** The partial entity written by [profileRepository.update(id, dto)]. *)
Definition patch (dto : UpdateProfileDto.t) (p : Profile.t) : Profile.t :=
  Profile.mk (Profile.id p)
             (orElse (UpdateProfileDto.firstName dto) (Profile.firstName p))
             (orElse (UpdateProfileDto.lastName dto) (Profile.lastName p))
             (orElse (UpdateProfileDto.email dto) (Profile.email p))
             (orElse (UpdateProfileDto.password dto) (Profile.password p))
             (orElse (UpdateProfileDto.role dto) (Profile.role p))
             (Profile.hashedRefreshToken p).

Definition findOne (id : Z) : IO Profile.t :=
  res <- repo_findOne (Repository.whereId id) ;;
  match res with
  | None => throw (NotFoundException ("Profile with id " ++ show id ++ " not found"))
  | Some res => ret res
  end.

(** [profileRepository.update(id, dto)] with a dto in which no property
    is set: TypeORM has no column to write and throws
    UpdateValuesMissingError, which is not an HTTP exception, before any
    query is sent. *)
Definition repo_update_dto (id : Z) (dto : UpdateProfileDto.t) : IO nat :=
  if UpdateProfileDto.isEmpty dto
  then throw (InternalServerError "UpdateValuesMissingError")
  else repo_update id (patch dto).

Definition update (id : Z) (updateProfileDto : UpdateProfileDto.t) : IO Profile.t :=
  let updateProfileDto :=
    match UpdateProfileDto.password updateProfileDto with
    | Some pw =>
        if String.eqb pw EmptyString then updateProfileDto
        else UpdateProfileDto.mk (UpdateProfileDto.firstName updateProfileDto)
                                 (UpdateProfileDto.lastName updateProfileDto)
                                 (UpdateProfileDto.email updateProfileDto)
                                 (Some (hashData pw))
                                 (UpdateProfileDto.role updateProfileDto)
    | None => updateProfileDto
    end in
  repo_update_dto id updateProfileDto ;;;
  findOne id.

(** [const { password, hashedRefreshToken, ...rest } = profile; return rest]. *)
Definition excludePassword (profile : Profile.t) : PartialProfile.t :=
  PartialProfile.mk (Some (Profile.id profile))
                    (Some (Profile.firstName profile))
                    (Some (Profile.lastName profile))
                    (Some (Profile.email profile))
                    None
                    (Some (Profile.role profile))
                    None.

(** [generatedId] is the value the database gives the increment column.
    [role || 'GUEST'] is the role of the dto when it has one and the
    string 'GUEST' otherwise, which is not a value of the enum.
    [throw new Error(...)] is not an HTTP exception. *)
Definition create (generatedId : Z) (createProfileDto : CreateProfileDto.t)
  : IO PartialProfile.t :=
  existingProfile <- repo_findOne
                       (Repository.whereEmail (CreateProfileDto.email createProfileDto)) ;;
  match existingProfile with
  | Some _ =>
      throw (InternalServerError
               ("Profile with email " ++ CreateProfileDto.email createProfileDto
                                      ++ " already exists"))
  | None =>
      let newProfile :=
        NewProfile.mk (CreateProfileDto.firstName createProfileDto)
                      (CreateProfileDto.lastName createProfileDto)
                      (CreateProfileDto.email createProfileDto)
                      (hashData (CreateProfileDto.password createProfileDto))
                      (match CreateProfileDto.role createProfileDto with
                       | Some role => Role_value role
                       | None => "GUEST"
                       end) in
      savedProfile <- catch (repo_save generatedId newProfile)
                        (fun _ => throw (InternalServerError
                                           "Failed to create profile")) ;;
      ret (excludePassword savedProfile)
  end.

(** [if (email)] holds for a non-empty string. *)
Definition findAll (email : option string) : IO (list PartialProfile.t) :=
  profiles <- match email with
              | None => repo_find (fun _ => true)
              | Some e =>
                  if String.eqb e EmptyString
                  then repo_find (fun _ => true)
                  else repo_find (Repository.whereEmail e)
              end ;;
  ret (map excludePassword profiles).

(** [lecturerProfiles]: the profile ids the lecturer rows refer to, read
    by the database when it checks the delete. *)
Definition remove (lecturerProfiles : list Z) (id : Z) : IO string :=
  catch (result <- repo_delete lecturerProfiles id ;;
         if Nat.eqb result 0
         then ret ("No profile found with id " ++ show id)
         else ret ("Profile with id " ++ show id ++ " has been removed"))
        (fun _ => throw (InternalServerError
                           ("Failed to remove profile with id " ++ show id))).
End Service.
End ProfilesService.

(* ================================================================== *)
(** ** auth.controller.ts and the routes *)
(* ================================================================== *)

Module AuthController.
Section Controller.
Context {P : Platform} (config : Config) (env : Env).

Definition signInLocal (createAuthDto : CreateAuthDto.t) : IO Tokens :=
  AuthService.signIn config env createAuthDto.

Definition signOut (id : Z) : IO string := AuthService.signOut id.

(** [id] arrives through ParseIntPipe.  Reading a property of an
    undefined [req.user] is an error of the runtime, not an HTTP
    exception; a user without [refreshToken] passes [undefined] on to the
    service. *)
Definition refreshTokens (id : Z) (req : Request) : IO Tokens :=
  match user req with
  | None => throw (InternalServerError "Internal server error")
  | Some user_ =>
      if negb (Z.eqb (User.sub user_) id)
      then throw (UnauthorizedException "Invalid user")
      else
        match User.refreshToken user_ with
        | None => AuthService.refreshTokens_undefined id
        | Some rt => AuthService.refreshTokens config env id rt
        end
  end.
End Controller.
End AuthController.

(** The application: [AtGuard] is registered as APP_GUARD, so it runs
    first on every route, before the guards named by [@UseGuards].  The
    throttler guard and the response-cache interceptor, registered next
    to it, belong to the transport and are not part of this model. *)
Module App.
Section Routes.
Context {P : Platform} (config : Config) (env : Env).

Definition globalGuards : list Guard := [AtGuard config (clock env)].

(** A route: its handler and class metadata and the guards of
    [@UseGuards]. *)
Definition enter (handler class_ : Metadata) (useGuards : list Guard)
           (req : Request) : IO ExecutionContext :=
  runGuards (globalGuards ++ useGuards)%list (mkContext handler class_ req).

(** [@Public() @Post('signin')] *)
Definition POST_auth_signin (req : Request) (body : CreateAuthDto.t) : IO Tokens :=
  enter (Public noMetadata) noMetadata [] req ;;;
  AuthController.signInLocal config env body.

(** [@UseGuards(AtGuard) @Get('signout/:id')] *)
Definition GET_auth_signout (req : Request) (id : Z) : IO string :=
  enter noMetadata noMetadata [AtGuard config (clock env)] req ;;;
  AuthController.signOut id.

(** [@Public() @UseGuards(RtGuard) @Get('refresh')] *)
Definition GET_auth_refresh (req : Request) (id : Z) : IO Tokens :=
  context <- enter (Public noMetadata) noMetadata [RtGuard config (clock env)] req ;;
  AuthController.refreshTokens config env id (getRequest context).

(** A handler of a controller under [@UseGuards(AtGuard, RolesGuard)],
    as the courses, departments, students, lecturer and profiles
    controllers are.  Returning means the handler is reached. *)
Definition roleGuarded (handler class_ : Metadata) (req : Request)
  : IO ExecutionContext :=
  enter handler class_ [AtGuard config (clock env); RolesGuard.guard] req.
End Routes.
End App.

(** The Allow/Deny reading of an outcome. *)
Definition allowed {A : Type} (r : Outcome A * Repository.table) : bool :=
  match fst r with
  | Returned _ => true
  | Thrown _ => false
  end.

(** The verdict of the guard chain of a role-guarded route, read off the
    answer of the roles guard. *)
Definition verdict (context : ExecutionContext)
           (r : Outcome bool * Repository.table)
  : Outcome ExecutionContext * Repository.table :=
  match r with
  | (Returned true, db) => (Returned context, db)
  | (Returned false, db) => (Thrown (ForbiddenException "Forbidden resource"), db)
  | (Thrown e, db) => (Thrown e, db)
  end.

Definition bearer (token : string) : Request :=
  mkRequest (Some ("Bearer " ++ token)) None.

(* ================================================================== *)
(** ** A symbolic platform, for running the code on concrete inputs *)
(* ================================================================== *)

(** Tokens are written in the clear: the claims, the issue time in
    seconds, the lifetime in seconds and the signing key, separated by
    [|].  As with an HMAC-signed JWT, the token is a function of the
    payload, the key, the lifetime and the second it is issued in.  A hash
    is a salt of eight characters followed by the data, and compare
    accepts exactly the data that follows the salt. *)
Module Symbolic.
Definition bar : string := "|".

Definition signAsync (payload : JWTPayload.t) (secret expiresIn : string)
           (now : Z) : string :=
  show (JWTPayload.sub payload) ++ bar ++ JWTPayload.email payload ++ bar
    ++ JWTPayload.role payload ++ bar ++ show now ++ bar ++ expiresIn
    ++ bar ++ secret.

Fixpoint split (sep : ascii) (s : string) : list string :=
  match s with
  | EmptyString => [EmptyString]
  | String c s' =>
      if Ascii.eqb c sep then EmptyString :: split sep s'
      else match split sep s' with
           | [] => [String c EmptyString]
           | w :: ws => String c w :: ws
           end
  end.

Fixpoint digits (s : string) (acc : Z) : option Z :=
  match s with
  | EmptyString => Some acc
  | String c s' =>
      let n := nat_of_ascii c in
      if ((48 <=? n)%nat && (n <=? 57)%nat)%bool
      then digits s' (10 * acc + Z.of_nat (n - 48))
      else None
  end.

Definition parse (s : string) : option Z :=
  match s with
  | EmptyString => None
  | String c s' =>
      if Ascii.eqb c "-"%char
      then match s' with
           | EmptyString => None
           | _ => option_map Z.opp (digits s' 0)
           end
      else digits s 0
  end.

Definition verify (secretOrKey : string) (now : Z) (token : string)
  : option JWTPayload.t :=
  match split "|"%char token with
  | [sub; email; role; iat; life; key] =>
      match parse sub, parse iat, parse life with
      | Some sub, Some iat, Some life =>
          if (String.eqb key secretOrKey && Z.ltb now (iat + life))%bool
          then Some (JWTPayload.mk sub email role)
          else None
      | _, _, _ => None
      end
  | _ => None
  end.

(** The canonical header form, [Bearer <token>]. *)
Definition fromAuthHeaderAsBearerToken (header : option string) : option string :=
  match header with
  | None => None
  | Some h =>
      if String.prefix "Bearer " h
      then match drop 7 h with
           | EmptyString => None
           | token => Some token
           end
      else None
  end.

Fixpoint take_pad (n : nat) (s : string) : string :=
  match n with
  | O => EmptyString
  | S n' =>
      match s with
      | EmptyString => String "."%char (take_pad n' EmptyString)
      | String c s' => String c (take_pad n' s')
      end
  end.

Definition Bcrypt_genSalt (rounds : Z) (entropy : string) : string := entropy.

Definition Bcrypt_hash (data salt : string) : string := take_pad 8 salt ++ data.

Definition Bcrypt_compare (data encrypted : string) : bool :=
  match encrypted with
  | EmptyString => false
  | _ => String.eqb data (drop 8 encrypted)
  end.

Definition platform : Platform :=
  Build_Platform signAsync verify fromAuthHeaderAsBearerToken
                 Bcrypt_genSalt Bcrypt_hash Bcrypt_compare.
End Symbolic.

(** Concrete data: one administrator and one student, the student with
    the password [pw123] and no session. *)
Module Sample.
Definition config : Config := mkConfig "access-key" "900" "refresh-key" "604800".

Definition env (now : Z) (entropy : string) : Env := mkEnv now entropy.

Definition student : Profile.t :=
  Profile.mk 1 "Ada" "Student" "a@x.com" (Symbolic.Bcrypt_hash "pw123" "saltsalt")
             STUDENT None.

Definition admin : Profile.t :=
  Profile.mk 2 "Bob" "Admin" "b@x.com" (Symbolic.Bcrypt_hash "root" "pepperpe")
             ADMIN None.

Definition db : Repository.table := [student; admin].

Definition accessTokenOf (p : Profile.t) (now : Z) : string :=
  Symbolic.signAsync
    (JWTPayload.mk (Profile.id p) (Profile.email p) (Role_value (Profile.role p)))
    (JWT_ACCESS_TOKEN_SECRET config) (JWT_ACCESS_TOKEN_EXPIRATION_TIME config) now.

Definition refreshTokenOf (p : Profile.t) (now : Z) : string :=
  Symbolic.signAsync
    (JWTPayload.mk (Profile.id p) (Profile.email p) (Role_value (Profile.role p)))
    (JWT_REFRESH_TOKEN_SECRET config) (JWT_REFRESH_TOKEN_EXPIRATION_TIME config) now.

Definition userOf (p : Profile.t) (claimedRole : string) : User.t :=
  User.mk (JWTPayload.mk (Profile.id p) (Profile.email p) claimedRole) None.

(** A request already authenticated as the student, on a route
    restricted to administrators and faculty. *)
Definition restricted : ExecutionContext :=
  mkContext (Roles [ADMIN; FACULTY] noMetadata) noMetadata
            (mkRequest None (Some (userOf student "student"))).

(** The administrator, authenticated, on a handler decorated with
    [@Roles()], no role named. *)
Definition emptyRoles : ExecutionContext :=
  mkContext (Roles [] noMetadata) noMetadata
            (mkRequest None (Some (userOf admin "admin"))).

(** A handler with no [@Roles] on it or on its class. *)
Definition noRoles : ExecutionContext :=
  mkContext noMetadata noMetadata
            (mkRequest None (Some (userOf student "student"))).
End Sample.

(* ================================================================== *)
(** ** The controllers behind the guards *)
(* ================================================================== *)

(** A handler as its decorators declare it: the HTTP verb, the path under
    the controller's prefix and the metadata set by [@Roles] or
    [@Public].  Every controller below carries
    [@UseGuards(AtGuard, RolesGuard)] on the class and no metadata of its
    own. *)
Inductive Verb : Set := Get | Post | Patch | Delete.

Record Route : Type := mkRoute {
  controller : string;
  verb : Verb;
  path : string;
  handler : Metadata
}.

Module Controllers.
Definition route (c : string) (v : Verb) (p : string) (rs : list Role) : Route :=
  mkRoute c v p (Roles rs noMetadata).

Definition publicRoute (c : string) (v : Verb) (p : string) : Route :=
  mkRoute c v p (Public noMetadata).

(** courses.controller.ts *)
Definition courses : list Route :=
  [ route "courses" Post "" [ADMIN; FACULTY];
    route "courses" Get "" [ADMIN; FACULTY; STUDENT];
    route "courses" Get ":id" [ADMIN; FACULTY; STUDENT];
    route "courses" Patch ":id" [ADMIN; FACULTY];
    route "courses" Delete ":id" [ADMIN];
    route "courses" Get ":id/students" [ADMIN];
    route "courses" Post ":courseId/students/:studentId" [ADMIN];
    route "courses" Delete ":courseId/students/:studentId" [ADMIN] ].

(** departments.controller.ts *)
Definition departments : list Route :=
  [ route "departments" Post "" [ADMIN; FACULTY];
    route "departments" Get "" [ADMIN; FACULTY; STUDENT];
    route "departments" Get ":id" [ADMIN; FACULTY; STUDENT];
    route "departments" Patch ":id" [ADMIN; FACULTY];
    route "departments" Delete ":id" [ADMIN] ].

(** students.controller.ts *)
Definition students : list Route :=
  [ route "students" Post "" [ADMIN; FACULTY];
    route "students" Get "" [ADMIN; FACULTY];
    route "students" Get ":id" [ADMIN; FACULTY; STUDENT];
    route "students" Patch ":id" [ADMIN; FACULTY];
    route "students" Delete ":id" [ADMIN];
    route "students" Get ":id/courses" [ADMIN; FACULTY; STUDENT];
    route "students" Post ":studentId/courses/:courseId" [ADMIN; FACULTY];
    route "students" Delete ":studentId/courses/:courseId" [ADMIN; FACULTY];
    route "students" Patch ":id/courses" [ADMIN; FACULTY] ].

(** lecturer.controller.ts *)
Definition lecturer : list Route :=
  [ publicRoute "lecturer" Post "";
    route "lecturer" Get "" [ADMIN; FACULTY];
    route "lecturer" Get ":id" [ADMIN; FACULTY];
    route "lecturer" Patch ":id" [ADMIN; FACULTY];
    route "lecturer" Delete ":id" [ADMIN];
    route "lecturer" Get ":id/courses" [ADMIN; FACULTY];
    route "lecturer" Post ":lecturerId/courses/:courseId" [ADMIN; FACULTY];
    route "lecturer" Delete ":lecturerId/courses/:courseId" [ADMIN; FACULTY];
    route "lecturer" Patch ":id/courses" [ADMIN; FACULTY] ].

(** profiles.controller.ts *)
Definition profiles : list Route :=
  [ publicRoute "profiles" Post "";
    route "profiles" Get "" [ADMIN; FACULTY];
    route "profiles" Get ":id" [ADMIN; FACULTY; STUDENT];
    route "profiles" Patch ":id" [ADMIN; FACULTY; STUDENT];
    route "profiles" Delete ":id" [ADMIN] ].

Definition all : list Route :=
  (courses ++ departments ++ students ++ lecturer ++ profiles)%list.

(** The role list a handler declares, if any. *)
Definition requiredRoles (r : Route) : option (list Role) :=
  getAllAndOverride roles [handler r; noMetadata].

Definition admits (r : Route) (role : Role) : bool :=
  match requiredRoles r with
  | None => true
  | Some rs => existsb (fun x => Role_eqb role x) rs
  end.
End Controllers.

(** The guard chain of a handler of these controllers. *)
Definition enterRoute {P : Platform} (config : Config) (env : Env) (r : Route)
           (req : Request) : IO ExecutionContext :=
  App.roleGuarded config env (handler r) noMetadata req.

(* ================================================================== *)
(** ** A platform whose extractor ignores the case of the scheme *)
(* ================================================================== *)

(** passport-jwt splits the header into a scheme and a value, two runs of
    non-blank characters with blanks between them, and compares the
    scheme with [bearer] in lower case.  The rest of the platform is the
    symbolic one. *)
Module Lenient.
Definition toLowerCase (c : ascii) : ascii :=
  let n := nat_of_ascii c in
  if ((65 <=? n)%nat && (n <=? 90)%nat)%bool then ascii_of_nat (n + 32) else c.

Fixpoint lower (s : string) : string :=
  match s with
  | EmptyString => EmptyString
  | String c s' => String (toLowerCase c) (lower s')
  end.

(** The longest prefix without white space, and what follows it. *)
Fixpoint run (s : string) : string * string :=
  match s with
  | EmptyString => (EmptyString, EmptyString)
  | String c s' =>
      if isWhiteSpace c then (EmptyString, s)
      else let (w, rest) := run s' in (String c w, rest)
  end.

Definition parse (header : string) : option (string * string) :=
  let (scheme, rest) := run (trimStart header) in
  let (value, _) := run (trimStart rest) in
  match scheme, value with
  | EmptyString, _ => None
  | _, EmptyString => None
  | _, _ => Some (scheme, value)
  end.

Definition fromAuthHeaderAsBearerToken (header : option string) : option string :=
  match header with
  | None => None
  | Some h =>
      match parse h with
      | Some (scheme, value) =>
          if String.eqb (lower scheme) "bearer" then Some value else None
      | None => None
      end
  end.

Definition platform : Platform :=
  Build_Platform Symbolic.signAsync Symbolic.verify fromAuthHeaderAsBearerToken
                 Symbolic.Bcrypt_genSalt Symbolic.Bcrypt_hash Symbolic.Bcrypt_compare.
End Lenient.

(* ================================================================== *)
(** ** A platform with the wire format of the tokens *)
(* ================================================================== *)

(** The tokens of jsonwebtoken in their compact form,
    [base64url(header).base64url(payload).signature], with the payload
    [{"sub":..,"email":..,"role":..,"iat":..,"exp":..}], and a hasher that
    reads the first 72 bytes of its data, as bcrypt does.  HMAC-SHA256 and
    the Blowfish key schedule are not modelled: the signature is a tag
    that names the key and the signed text, and a hash shows the bytes it
    was computed from after the salt.  The claims hold no character that
    JSON escapes. *)
Module Jose.
(** The double quote. *)
Definition quote : ascii := Ascii.Ascii false true false false false true false false.

Definition key (name : string) : string :=
  String quote name ++ String quote ":".

Definition text (value : string) : string :=
  String quote value ++ String quote EmptyString.

(** [{"alg":"HS256","typ":"JWT"}] *)
Definition header : string :=
  "{" ++ key "alg" ++ text "HS256" ++ "," ++ key "typ" ++ text "JWT" ++ "}".

(** The claims of the caller, as [JSON.stringify] writes them, up to the
    comma that follows. *)
Definition claims (payload : JWTPayload.t) : string :=
  "{" ++ key "sub" ++ show (JWTPayload.sub payload)
      ++ "," ++ key "email" ++ text (JWTPayload.email payload)
      ++ "," ++ key "role" ++ text (JWTPayload.role payload).

(** The time stamps added by [signAsync], and the closing brace. *)
Definition stamps (iat exp : Z) : string :=
  "," ++ key "iat" ++ show iat ++ "," ++ key "exp" ++ show exp ++ "}".

Definition alphabet : string :=
  "ABCDEFGHIJKLMNOPQRSTUVWXYZabcdefghijklmnopqrstuvwxyz0123456789-_".

Definition digit (n : N) : ascii :=
  match String.get (N.to_nat n) alphabet with
  | Some c => c
  | None => "A"%char
  end.

(** Three bytes give four digits; one or two bytes left over give two or
    three digits, without padding. *)
Definition group3 (a b c : ascii) : string :=
  let n := (N_of_ascii a * 65536 + N_of_ascii b * 256 + N_of_ascii c)%N in
  String (digit (n / 262144))
    (String (digit ((n / 4096) mod 64))
       (String (digit ((n / 64) mod 64))
          (String (digit (n mod 64)) EmptyString))).

Definition group2 (a b : ascii) : string :=
  let n := (N_of_ascii a * 1024 + N_of_ascii b * 4)%N in
  String (digit (n / 4096))
    (String (digit ((n / 64) mod 64))
       (String (digit (n mod 64)) EmptyString)).

Definition group1 (a : ascii) : string :=
  let n := (N_of_ascii a * 16)%N in
  String (digit (n / 64)) (String (digit (n mod 64)) EmptyString).

Fixpoint base64url (s : string) : string :=
  match s with
  | EmptyString => EmptyString
  | String a EmptyString => group1 a
  | String a (String b EmptyString) => group2 a b
  | String a (String b (String c rest)) => group3 a b c ++ base64url rest
  end.

Fixpoint position (c : ascii) (s : string) (n : N) : option N :=
  match s with
  | EmptyString => None
  | String d s' => if Ascii.eqb c d then Some n else position c s' (n + 1)%N
  end.

Definition value (c : ascii) : option N := position c alphabet 0%N.

Fixpoint decode (s : string) : option string :=
  match s with
  | EmptyString => Some EmptyString
  | String a (String b EmptyString) =>
      match value a, value b with
      | Some x, Some y =>
          Some (String (ascii_of_N ((x * 64 + y) / 16)) EmptyString)
      | _, _ => None
      end
  | String a (String b (String c EmptyString)) =>
      match value a, value b, value c with
      | Some x, Some y, Some z =>
          let n := (x * 4096 + y * 64 + z)%N in
          Some (String (ascii_of_N (n / 1024))
                  (String (ascii_of_N ((n / 4) mod 256)) EmptyString))
      | _, _, _ => None
      end
  | String a (String b (String c (String d rest))) =>
      match value a, value b, value c, value d, decode rest with
      | Some x, Some y, Some z, Some w, Some tail =>
          let n := (x * 262144 + y * 4096 + z * 64 + w)%N in
          Some (String (ascii_of_N (n / 65536))
                  (String (ascii_of_N ((n / 256) mod 256))
                     (String (ascii_of_N (n mod 256)) tail)))
      | _, _, _, _, _ => None
      end
  | _ => None
  end.

(** The leading digits of a text, with a sign, and what follows them. *)
Fixpoint numeral (s : string) : string * string :=
  match s with
  | EmptyString => (EmptyString, EmptyString)
  | String c s' =>
      let n := nat_of_ascii c in
      if (((48 <=? n)%nat && (n <=? 57)%nat) || (n =? 45)%nat)%bool
      then let (d, rest) := numeral s' in (String c d, rest)
      else (EmptyString, s)
  end.

Definition number (s : string) : option (Z * string) :=
  let (d, rest) := numeral s in
  match Symbolic.parse d with
  | Some z => Some (z, rest)
  | None => None
  end.

(** The characters up to the next double quote, and what follows it. *)
Fixpoint quoted (s : string) : option (string * string) :=
  match s with
  | EmptyString => None
  | String c s' =>
      if Ascii.eqb c quote then Some (EmptyString, s')
      else match quoted s' with
           | Some (w, rest) => Some (String c w, rest)
           | None => None
           end
  end.

Definition expect (literal s : string) : option string :=
  if String.prefix literal s then Some (drop (String.length literal) s) else None.

(** The payload read back: the claims, [iat] and [exp]. *)
Definition parse (json : string) : option (JWTPayload.t * Z * Z) :=
  match expect ("{" ++ key "sub") json with
  | None => None
  | Some s =>
  match number s with
  | None => None
  | Some (sub, s) =>
  match expect ("," ++ key "email" ++ String quote EmptyString) s with
  | None => None
  | Some s =>
  match quoted s with
  | None => None
  | Some (email, s) =>
  match expect ("," ++ key "role" ++ String quote EmptyString) s with
  | None => None
  | Some s =>
  match quoted s with
  | None => None
  | Some (role, s) =>
  match expect ("," ++ key "iat") s with
  | None => None
  | Some s =>
  match number s with
  | None => None
  | Some (iat, s) =>
  match expect ("," ++ key "exp") s with
  | None => None
  | Some s =>
  match number s with
  | None => None
  | Some (exp, s) =>
      if String.eqb s "}" then Some (JWTPayload.mk sub email role, iat, exp)
      else None
  end end end end end end end end end end.

(** [expiresIn] in seconds: a number followed by s, m, h or d; a number
    with no unit counts milliseconds. *)
Definition seconds (expiresIn : string) : Z :=
  let (d, unit) := numeral expiresIn in
  match Symbolic.parse d with
  | None => 0
  | Some n =>
      if String.eqb unit "s" then n
      else if String.eqb unit "m" then 60 * n
      else if String.eqb unit "h" then 3600 * n
      else if String.eqb unit "d" then 86400 * n
      else if String.eqb unit EmptyString then n / 1000
      else 0
  end.

Definition tag (secret input : string) : string := base64url (secret ++ "." ++ input).

Definition signAsync (payload : JWTPayload.t) (secret expiresIn : string)
           (now : Z) : string :=
  let input := base64url header ++ "."
                 ++ base64url (claims payload
                                 ++ stamps now (now + seconds expiresIn)) in
  input ++ "." ++ tag secret input.

Definition verify (secretOrKey : string) (now : Z) (token : string)
  : option JWTPayload.t :=
  match Symbolic.split "."%char token with
  | [h; p; t] =>
      if (String.eqb h (base64url header)
          && String.eqb t (tag secretOrKey (h ++ "." ++ p)))%bool
      then match decode p with
           | Some json =>
               match parse json with
               | Some (payload, _, exp) =>
                   if Z.ltb now exp then Some payload else None
               | None => None
               end
           | None => None
           end
      else None
  | _ => None
  end.

(** The header, the dot and the first 36 digits of the payload: the 73
    bytes a token starts with, which depend on the claims only. *)
Definition lead (payload : JWTPayload.t) : string :=
  base64url header ++ "." ++ base64url (substring 0 27 (claims payload)).

Definition Bcrypt_hash (data salt : string) : string :=
  Symbolic.take_pad 8 salt ++ bytes72 data.

Definition Bcrypt_compare (data encrypted : string) : bool :=
  match encrypted with
  | EmptyString => false
  | _ => String.eqb (bytes72 data) (drop 8 encrypted)
  end.

Definition platform : Platform :=
  Build_Platform signAsync verify Lenient.fromAuthHeaderAsBearerToken
                 Symbolic.Bcrypt_genSalt Bcrypt_hash Bcrypt_compare.

(** Access tokens live fifteen minutes, refresh tokens seven days. *)
Definition config : Config := mkConfig "access-key" "15m" "refresh-key" "7d".

Definition refreshTokenOf (p : Profile.t) (now : Z) : string :=
  signAsync
    (JWTPayload.mk (Profile.id p) (Profile.email p) (Role_value (Profile.role p)))
    (JWT_REFRESH_TOKEN_SECRET config) (JWT_REFRESH_TOKEN_EXPIRATION_TIME config) now.

Definition accessTokenOf (p : Profile.t) (now : Z) : string :=
  signAsync
    (JWTPayload.mk (Profile.id p) (Profile.email p) (Role_value (Profile.role p)))
    (JWT_ACCESS_TOKEN_SECRET config) (JWT_ACCESS_TOKEN_EXPIRATION_TIME config) now.
End Jose.

(* ================================================================== *)
(** ** Students, courses and enrolments: students.service.ts *)
(* ================================================================== *)

Module Course.
(** course.entity.ts, without the time stamps; [departmentId] is the
    column of the many-to-one relation. *)
Record t : Type := mk {
  id : Z;
  title : string;
  description : option string;
  credits : Z;
  duration : option string;
  startDate : option string;
  endDate : option string;
  departmentId : option Z
}.
End Course.

Module Student.
(** The columns of student.entity.ts that the course functions carry
    along; the gpa, the time stamps and the profile relation play no part
    in them. *)
Record row : Type := mkRow {
  id : Z;
  enrollmentDate : string;
  degreeProgram : option string
}.

(** A student loaded with [relations: ['courses']]. *)
Record t : Type := mk { columns : row; courses : list Course.t }.
End Student.

(** The tables behind the students service: the two entity tables and
    the join table of the many-to-many relation, a list of (student id,
    course id). *)
Record Academy : Type := mkAcademy {
  students : list Student.row;
  courses : list Course.t;
  student_courses : list (Z * Z)
}.

Definition Tx (A : Type) : Type := Academy -> Outcome A * Academy.

Definition retTx {A : Type} (a : A) : Tx A := fun s => (Returned a, s).
Definition throwTx {A : Type} (e : HttpException) : Tx A := fun s => (Thrown e, s).
Definition bindTx {A B : Type} (m : Tx A) (k : A -> Tx B) : Tx B :=
  fun s =>
    match m s with
    | (Returned a, s') => k a s'
    | (Thrown e, s') => (Thrown e, s')
    end.

Declare Scope tx_scope.
Delimit Scope tx_scope with tx.
Notation "x <- m ;; k" := (bindTx m (fun x => k))
  (at level 61, m at next level, right associativity) : tx_scope.
Notation "m ;;; k" := (bindTx m (fun _ => k))
  (at level 61, right associativity) : tx_scope.

Module Academic.
(** The courses a student is joined to, read through the join table. *)
Definition loadCourses (studentId : Z) (a : Academy) : list Course.t :=
  flat_map (fun jc : Z * Z =>
              if Z.eqb (fst jc) studentId
              then filter (fun c => Z.eqb (Course.id c) (snd jc)) (courses a)
              else [])
           (student_courses a).

(** [studentRepository.findOne({ where: { id }, relations: ['courses'] })] *)
Definition findStudent (studentId : Z) : Tx (option Student.t) :=
  fun a =>
    (Returned
       (option_map (fun r => Student.mk r (loadCourses studentId a))
                   (find (fun r => Z.eqb (Student.id r) studentId) (students a))),
     a).

(** [courseRepository.findOneBy({ id })] *)
Definition findCourse (courseId : Z) : Tx (option Course.t) :=
  fun a => (Returned (find (fun c => Z.eqb (Course.id c) courseId) (courses a)), a).

(** [courseRepository.findBy({ id: In(courseIds) })] *)
Definition findCoursesIn (courseIds : list Z) : Tx (list Course.t) :=
  fun a =>
    (Returned (filter (fun c => existsb (Z.eqb (Course.id c)) courseIds) (courses a)),
     a).

(** The join rows after a save: the rows of other students stay, the
    rows of this student stay when their course is still listed, and a
    row is added for every listed course that had none. *)
Definition syncJoin (studentId : Z) (courseIds : list Z) (join : list (Z * Z))
  : list (Z * Z) :=
  let mine := map snd (filter (fun jc : Z * Z => Z.eqb (fst jc) studentId) join) in
  let kept := filter (fun jc : Z * Z =>
                        negb (Z.eqb (fst jc) studentId)
                        || existsb (Z.eqb (snd jc)) courseIds) join in
  let added := nodup Z.eq_dec
                 (filter (fun c => negb (existsb (Z.eqb c) mine)) courseIds) in
  (kept ++ map (fun c => (studentId, c)) added)%list.

(** [studentRepository.save(student)] of a loaded student: its columns
    are written to its row and the join table is brought in line with
    [student.courses]; the answer is the entity that was passed. *)
Definition saveStudent (student : Student.t) : Tx Student.t :=
  fun a =>
    let sid := Student.id (Student.columns student) in
    (Returned student,
     mkAcademy
       (map (fun r => if Z.eqb (Student.id r) sid then Student.columns student else r)
            (students a))
       (courses a)
       (syncJoin sid (map Course.id (Student.courses student)) (student_courses a))).
End Academic.

Module StudentsService.
Section Service.
Local Open Scope tx_scope.

(** A student loaded with the relation always has an array of courses, so
    the branch that would create an empty one is never taken. *)
Definition enrollStudentInCourse (studentId courseId : Z) : Tx Student.t :=
  student <- Academic.findStudent studentId ;;
  match student with
  | None =>
      throwTx (NotFoundException ("Student with ID " ++ show studentId ++ " not found"))
  | Some student =>
      course <- Academic.findCourse courseId ;;
      match course with
      | None =>
          throwTx (NotFoundException
                     ("Course with ID " ++ show courseId ++ " not found"))
      | Some course =>
          let isAlreadyEnrolled :=
            existsb (fun enrolledCourse => Z.eqb (Course.id enrolledCourse) courseId)
                    (Student.courses student) in
          if negb isAlreadyEnrolled
          then
            let student :=
              Student.mk (Student.columns student)
                         (Student.courses student ++ [course])%list in
            Academic.saveStudent student ;;;
            retTx student
          else retTx student
      end
  end.

Definition unenrollStudentFromCourse (studentId courseId : Z) : Tx Student.t :=
  student <- Academic.findStudent studentId ;;
  match student with
  | None =>
      throwTx (NotFoundException ("Student with ID " ++ show studentId ++ " not found"))
  | Some student =>
      if Nat.eqb (List.length (Student.courses student)) 0
      then throwTx (NotFoundException
                      ("Student with ID " ++ show studentId
                         ++ " is not enrolled in any courses"))
      else
        let student :=
          Student.mk (Student.columns student)
                     (filter (fun course => negb (Z.eqb (Course.id course) courseId))
                             (Student.courses student)) in
        Academic.saveStudent student
  end.

Definition getStudentCourses (studentId : Z) : Tx (list Course.t) :=
  student <- Academic.findStudent studentId ;;
  match student with
  | None =>
      throwTx (NotFoundException ("Student with ID " ++ show studentId ++ " not found"))
  | Some student => retTx (Student.courses student)
  end.

(** [missingIds.join(', ')] *)
Definition joinIds (ids : list Z) : string := String.concat ", " (map show ids).

Definition updateStudentCourses (studentId : Z) (courseIds : list Z) : Tx Student.t :=
  student <- Academic.findStudent studentId ;;
  match student with
  | None =>
      throwTx (NotFoundException ("Student with ID " ++ show studentId ++ " not found"))
  | Some student =>
      courses_ <- Academic.findCoursesIn courseIds ;;
      if negb (Nat.eqb (List.length courses_) (List.length courseIds))
      then
        let foundIds := map Course.id courses_ in
        let missingIds :=
          filter (fun id => negb (existsb (Z.eqb id) foundIds)) courseIds in
        throwTx (NotFoundException
                   ("Courses with IDs " ++ joinIds missingIds ++ " not found"))
      else
        let student := Student.mk (Student.columns student) courses_ in
        Academic.saveStudent student
  end.
End Service.
End StudentsService.

(* ================================================================== *)
(** ** Relations between two states of the table *)
(* ================================================================== *)

(** One student without enrolments and two courses. *)
Module Campus.
Definition algebra : Course.t :=
  Course.mk 10 "Algebra" None 3 (Some "12 weeks") None None (Some 1).

Definition logic : Course.t :=
  Course.mk 11 "Logic" (Some "Proofs and models") 4 None None None (Some 1).

Definition ada : Student.row := Student.mkRow 1 "2023-09-01" (Some "Mathematics").

Definition academy : Academy := mkAcademy [ada] [algebra; logic] [].

(** The same after Ada has been enrolled in algebra. *)
Definition enrolled : Academy := mkAcademy [ada] [algebra; logic] [(1, 10)].
End Campus.

(** The row of a student, and of a course, by id. *)
Definition findStudentRow (sid : Z) (a : Academy) : option Student.row :=
  find (fun r => Z.eqb (Student.id r) sid) (students a).

Definition findCourseRow (cid : Z) (a : Academy) : option Course.t :=
  find (fun c => Z.eqb (Course.id c) cid) (courses a).

(** Row [q] is row [p] with at most the refresh-token hash changed, and
    unchanged altogether unless its id is [i]. *)
Definition sameButHash (i : Z) (p q : Profile.t) : Prop :=
  q = Profile.set_hashedRefreshToken (Profile.hashedRefreshToken q) p
  /\ (Profile.id p <> i -> q = p).


(* ================================================================== *)
(** * Properties *)
(* ================================================================== *)

Arguments show : simpl never.

(** ** The repository *)

Section RepositoryFacts.
Variable i : Z.
Variable f : Profile.t -> Profile.t.
Hypothesis f_keeps_id : forall p, Profile.id (f p) = Profile.id p.

Lemma whereId_patch (j : Z) (p : Profile.t) :
  Repository.whereId j (f p) = Repository.whereId j p.
Proof. unfold Repository.whereId. now rewrite f_keeps_id. Qed.

Lemma findOne_update (db : Repository.table) :
  Repository.findOne (Repository.whereId i) (Repository.update i f db)
  = option_map f (Repository.findOne (Repository.whereId i) db).
Proof.
  unfold Repository.findOne, Repository.update.
  induction db as [|p db IH]; simpl; [reflexivity|].
  destruct (Repository.whereId i p) eqn:E.
  - now rewrite whereId_patch, E.
  - now rewrite E.
Qed.

Lemma update_twice (db : Repository.table) :
  (forall p, f (f p) = f p) ->
  Repository.update i f (Repository.update i f db) = Repository.update i f db.
Proof.
  intros idem. unfold Repository.update.
  induction db as [|p db IH]; simpl; [reflexivity|].
  f_equal; [|exact IH].
  destruct (Repository.whereId i p) eqn:E.
  - now rewrite whereId_patch, E, idem.
  - now rewrite E.
Qed.
End RepositoryFacts.

Lemma whereId_true (i : Z) (p : Profile.t) :
  Repository.whereId i p = true -> Profile.id p = i.
Proof. unfold Repository.whereId. apply Z.eqb_eq. Qed.

Lemma findOne_whereId (i : Z) (db : Repository.table) (p : Profile.t) :
  Repository.findOne (Repository.whereId i) db = Some p -> Profile.id p = i.
Proof.
  unfold Repository.findOne. intros H.
  apply find_some in H. now apply whereId_true.
Qed.

Lemma affected_none (i : Z) (db : Repository.table) :
  Repository.findOne (Repository.whereId i) db = None ->
  Repository.affected i db = 0%nat.
Proof.
  unfold Repository.findOne, Repository.affected.
  induction db as [|p db IH]; simpl; [reflexivity|].
  destruct (Repository.whereId i p); [discriminate | exact IH].
Qed.

Lemma affected_some (i : Z) (db : Repository.table) (p : Profile.t) :
  Repository.findOne (Repository.whereId i) db = Some p ->
  Nat.eqb (Repository.affected i db) 0 = false.
Proof.
  unfold Repository.findOne, Repository.affected.
  induction db as [|q db IH]; simpl; [discriminate|].
  destruct (Repository.whereId i q); [reflexivity | exact IH].
Qed.

Lemma update_absent (i : Z) (f : Profile.t -> Profile.t) (db : Repository.table) :
  Repository.findOne (Repository.whereId i) db = None ->
  Repository.update i f db = db.
Proof.
  unfold Repository.findOne, Repository.update.
  induction db as [|p db IH]; simpl; [reflexivity|].
  destruct (Repository.whereId i p); [discriminate|].
  intros H. now rewrite IH.
Qed.

Lemma update_rows (i : Z) (f : Profile.t -> Profile.t) (db : Repository.table)
      (q : Profile.t) :
  In q (Repository.update i f db) ->
  exists p, In p db /\ q = (if Repository.whereId i p then f p else p).
Proof.
  unfold Repository.update. intros H. apply in_map_iff in H.
  destruct H as [p [Hq Hp]]. exists p. now split.
Qed.

Lemma Role_eqb_eq (a b : Role) : Role_eqb a b = true <-> a = b.
Proof. destruct a, b; simpl; split; intros H; try reflexivity; discriminate. Qed.

Lemma existsb_Role_In (r : Role) (rs : list Role) :
  existsb (fun role => Role_eqb r role) rs = true <-> In r rs.
Proof.
  rewrite existsb_exists. split.
  - intros [x [Hin Heq]]. apply Role_eqb_eq in Heq. now subst.
  - intros Hin. exists r. split; [exact Hin | now apply Role_eqb_eq].
Qed.

(** ** The session service, path by path *)

Section ServicePaths.
Context {P : Platform} (config : Config) (env : Env).

Lemma signIn_unknown_email (dto : CreateAuthDto.t) (db : Repository.table) :
  Repository.findOne (Repository.whereEmail (CreateAuthDto.email dto)) db = None ->
  AuthService.signIn config env dto db
  = (Thrown (NotFoundException
               ("User with email " ++ CreateAuthDto.email dto ++ " not found")), db).
Proof.
  intros H. unfold AuthService.signIn, bind, repo_findOne. now rewrite H.
Qed.

Lemma signIn_wrong_password (dto : CreateAuthDto.t) (db : Repository.table)
      (u : Profile.t) :
  Repository.findOne (Repository.whereEmail (CreateAuthDto.email dto)) db = Some u ->
  Bcrypt_compare (CreateAuthDto.password dto) (Profile.password u) = false ->
  AuthService.signIn config env dto db
  = (Thrown (NotFoundException "Invalid credentials"), db).
Proof.
  intros H Hc. unfold AuthService.signIn, bind, repo_findOne.
  now rewrite H, Hc.
Qed.

Lemma signIn_success (dto : CreateAuthDto.t) (db : Repository.table)
      (u : Profile.t) :
  Repository.findOne (Repository.whereEmail (CreateAuthDto.email dto)) db = Some u ->
  Bcrypt_compare (CreateAuthDto.password dto) (Profile.password u) = true ->
  let tokens := AuthService.getTokens config env (Profile.id u) (Profile.email u)
                                      (Role_value (Profile.role u)) in
  AuthService.signIn config env dto db
  = (Returned tokens,
     Repository.update (Profile.id u)
       (Profile.set_hashedRefreshToken
          (Some (AuthService.hashData env (refreshToken tokens)))) db).
Proof.
  intros H Hc. unfold AuthService.signIn, bind, repo_findOne.
  now rewrite H, Hc.
Qed.

Lemma signOut_absent (id : Z) (db : Repository.table) :
  Repository.findOne (Repository.whereId id) db = None ->
  AuthService.signOut id db
  = (Thrown (NotFoundException ("User with ID " ++ show id ++ " not found")), db).
Proof.
  intros H. unfold AuthService.signOut, bind, repo_update.
  rewrite (affected_none _ _ H), (update_absent _ _ _ H). reflexivity.
Qed.

Lemma signOut_present (id : Z) (db : Repository.table) (u : Profile.t) :
  Repository.findOne (Repository.whereId id) db = Some u ->
  AuthService.signOut id db
  = (Returned ("User with id : " ++ show id ++ " signed out successfully"),
     Repository.update id (Profile.set_hashedRefreshToken None) db).
Proof.
  intros H. unfold AuthService.signOut, bind, repo_update.
  now rewrite (affected_some _ _ _ H).
Qed.

Lemma refresh_absent (id : Z) (rt : string) (db : Repository.table) :
  Repository.findOne (Repository.whereId id) db = None ->
  AuthService.refreshTokens config env id rt db
  = (Thrown (NotFoundException ("User with ID " ++ show id ++ " not found")), db).
Proof.
  intros H. unfold AuthService.refreshTokens, bind, repo_findOne. now rewrite H.
Qed.

Lemma refresh_no_hash (id : Z) (rt : string) (db : Repository.table)
      (u : Profile.t) :
  Repository.findOne (Repository.whereId id) db = Some u ->
  Profile.hashedRefreshToken u = None
  \/ Profile.hashedRefreshToken u = Some EmptyString ->
  AuthService.refreshTokens config env id rt db
  = (Thrown (NotFoundException "No refresh token found"), db).
Proof.
  intros H [Hh|Hh]; unfold AuthService.refreshTokens, bind, repo_findOne;
    now rewrite H, Hh.
Qed.


Lemma refresh_success (id : Z) (rt stored : string) (db : Repository.table)
      (u : Profile.t) :
  Repository.findOne (Repository.whereId id) db = Some u ->
  Profile.hashedRefreshToken u = Some stored ->
  stored <> EmptyString ->
  Bcrypt_compare rt stored = true ->
  let tokens := AuthService.getTokens config env (Profile.id u) (Profile.email u)
                                      (Role_value (Profile.role u)) in
  AuthService.refreshTokens config env id rt db
  = (Returned tokens,
     Repository.update (Profile.id u)
       (Profile.set_hashedRefreshToken
          (Some (AuthService.hashData env (refreshToken tokens)))) db).
Proof.
  intros H Hh Hne Hc. unfold AuthService.refreshTokens, bind, repo_findOne.
  rewrite H, Hh, Hc. apply String.eqb_neq in Hne. now rewrite Hne.
Qed.

(** Whatever [refreshTokens] returns, it came through the success path. *)
Lemma refresh_returned_inv (id : Z) (rt : string) (db db' : Repository.table)
      (tokens : Tokens) :
  AuthService.refreshTokens config env id rt db = (Returned tokens, db') ->
  exists u stored,
    Repository.findOne (Repository.whereId id) db = Some u
    /\ Profile.hashedRefreshToken u = Some stored
    /\ stored <> EmptyString
    /\ Bcrypt_compare rt stored = true
    /\ tokens = AuthService.getTokens config env (Profile.id u) (Profile.email u)
                                      (Role_value (Profile.role u))
    /\ db' = Repository.update (Profile.id u)
               (Profile.set_hashedRefreshToken
                  (Some (AuthService.hashData env (refreshToken tokens)))) db.
Proof.
  unfold AuthService.refreshTokens, bind, repo_findOne.
  destruct (Repository.findOne (Repository.whereId id) db) as [u|] eqn:H;
    [|discriminate].
  destruct (Profile.hashedRefreshToken u) as [stored|] eqn:Hh; [|discriminate].
  destruct (String.eqb stored EmptyString) eqn:Hne; [discriminate|].
  destruct (Bcrypt_compare rt stored) eqn:Hc; [|discriminate].
  simpl. intros E. injection E as Et Ed. subst tokens.
  exists u, stored. apply String.eqb_neq in Hne.
  repeat split; try assumption; try reflexivity. now subst db'.
Qed.
End ServicePaths.

(** ** The authorization gate *)

Lemma canActivate_unset (context : ExecutionContext) (db : Repository.table) :
  getAllAndOverride roles [getHandler context; getClass context] = None ->
  RolesGuard.canActivate context db = (Returned true, db).
Proof. intros H. unfold RolesGuard.canActivate. now rewrite H. Qed.

Lemma canActivate_no_user (context : ExecutionContext) (db : Repository.table)
      (requiredRoles : list Role) :
  getAllAndOverride roles [getHandler context; getClass context] = Some requiredRoles ->
  user (getRequest context) = None ->
  RolesGuard.canActivate context db = (Returned false, db).
Proof. intros H Hu. unfold RolesGuard.canActivate. now rewrite H, Hu. Qed.

Lemma canActivate_no_profile (context : ExecutionContext) (db : Repository.table)
      (requiredRoles : list Role) (u : User.t) :
  getAllAndOverride roles [getHandler context; getClass context] = Some requiredRoles ->
  user (getRequest context) = Some u ->
  Repository.findOne (Repository.whereId (User.sub u)) db = None ->
  RolesGuard.canActivate context db = (Returned false, db).
Proof.
  intros H Hu Hp. unfold RolesGuard.canActivate, bind, repo_findOne.
  now rewrite H, Hu, Hp.
Qed.

Lemma canActivate_profile (context : ExecutionContext) (db : Repository.table)
      (requiredRoles : list Role) (u : User.t) (p : Profile.t) :
  getAllAndOverride roles [getHandler context; getClass context] = Some requiredRoles ->
  user (getRequest context) = Some u ->
  Repository.findOne (Repository.whereId (User.sub u)) db = Some p ->
  RolesGuard.canActivate context db
  = (Returned (existsb (fun role => Role_eqb (Profile.role p) role) requiredRoles), db).
Proof.
  intros H Hu Hp. unfold RolesGuard.canActivate, bind, repo_findOne.
  now rewrite H, Hu, Hp.
Qed.

(** C1.  On a route whose requiredRoles metadata is a non-empty list, the
    roles guard answers false when no user is attached to the request,
    false when no profile row has the user's subject id, and otherwise
    answers true exactly when the role of the row read from the table is
    one of the required roles.  The table is left as it was. *)
Theorem C1_roles_guard_decision :
  forall (db : Repository.table) (context : ExecutionContext)
         (requiredRoles : list Role),
    getAllAndOverride roles [getHandler context; getClass context]
    = Some requiredRoles ->
    requiredRoles <> [] ->
    (user (getRequest context) = None ->
     RolesGuard.canActivate context db = (Returned false, db))
    /\ (forall u,
           user (getRequest context) = Some u ->
           Repository.findOne (Repository.whereId (User.sub u)) db = None ->
           RolesGuard.canActivate context db = (Returned false, db))
    /\ (forall u p,
           user (getRequest context) = Some u ->
           Repository.findOne (Repository.whereId (User.sub u)) db = Some p ->
           exists b,
             RolesGuard.canActivate context db = (Returned b, db)
             /\ (b = true <-> In (Profile.role p) requiredRoles)).
Proof.
  intros db context requiredRoles Hroles _.
  split; [|split].
  - intros Hu. eapply canActivate_no_user; eassumption.
  - intros u Hu Hp. eapply canActivate_no_profile; eassumption.
  - intros u p Hu Hp.
    exists (existsb (fun role => Role_eqb (Profile.role p) role) requiredRoles).
    split.
    + eapply canActivate_profile; eassumption.
    + apply existsb_Role_In.
Qed.

Lemma C1_roles_guard_decision_witness :
  exists b,
    RolesGuard.canActivate Sample.restricted Sample.db = (Returned b, Sample.db)
    /\ (b = true <-> In STUDENT [ADMIN; FACULTY]).
Proof.
  destruct (C1_roles_guard_decision Sample.db Sample.restricted [ADMIN; FACULTY])
    as [_ [_ H]].
  - reflexivity.
  - discriminate.
  - apply (H (Sample.userOf Sample.student "student") Sample.student);
      reflexivity.
Defined.

(** ** The authentication gate and the guard chain *)

Section GuardFacts.
Context {P : Platform} (config : Config) (now : Z).

Lemma AtGuard_public (context : ExecutionContext) (db : Repository.table) :
  getAllAndOverride isPublic [getHandler context; getClass context] = Some true ->
  AtGuard config now context db = (Returned (true, context), db).
Proof. intros H. unfold AtGuard. now rewrite H. Qed.

Lemma AtGuard_protected (context : ExecutionContext) :
  getAllAndOverride isPublic [getHandler context; getClass context] <> Some true ->
  AtGuard config now context = AuthGuard now (AtStrategy config) context.
Proof.
  intros H. unfold AtGuard.
  destruct (getAllAndOverride isPublic [getHandler context; getClass context])
    as [[|]|]; [congruence | reflexivity | reflexivity].
Qed.

Lemma AuthGuard_accepts (s : Strategy) (context : ExecutionContext)
      (db : Repository.table) (token : string) (payload : JWTPayload.t)
      (u : User.t) :
  fromAuthHeaderAsBearerToken (authorization (getRequest context)) = Some token ->
  verify (secretOrKey s) now token = Some payload ->
  validate s (getRequest context) payload = Returned u ->
  AuthGuard now s context db
  = (Returned (true,
               mkContext (getHandler context) (getClass context)
                         (mkRequest (authorization (getRequest context)) (Some u))),
     db).
Proof. intros He Hv Hu. unfold AuthGuard. now rewrite He, Hv, Hu. Qed.

Lemma AuthGuard_rejects (s : Strategy) (context : ExecutionContext)
      (db : Repository.table) :
  match fromAuthHeaderAsBearerToken (authorization (getRequest context)) with
  | None => True
  | Some token => verify (secretOrKey s) now token = None
  end ->
  AuthGuard now s context db = (Thrown (UnauthorizedException "Unauthorized"), db).
Proof.
  unfold AuthGuard.
  destruct (fromAuthHeaderAsBearerToken (authorization (getRequest context)));
    [intros H; now rewrite H | reflexivity].
Qed.
End GuardFacts.

Section RoleGuardedRoute.
Context {P : Platform} (config : Config) (env : Env).

Lemma roleGuarded_public (handler class_ : Metadata) (req : Request)
      (db : Repository.table) :
  getAllAndOverride isPublic [handler; class_] = Some true ->
  App.roleGuarded config env handler class_ req db
  = verdict (mkContext handler class_ req)
            (RolesGuard.canActivate (mkContext handler class_ req) db).
Proof.
  intros Hpub. unfold App.roleGuarded, App.enter, App.globalGuards. simpl.
  unfold bind at 1. rewrite AtGuard_public by exact Hpub. simpl.
  unfold bind at 1. rewrite AtGuard_public by exact Hpub. simpl.
  unfold bind at 1, RolesGuard.guard, bind.
  destruct (RolesGuard.canActivate (mkContext handler class_ req) db)
    as [[[|]|e] db']; reflexivity.
Qed.

Lemma roleGuarded_authenticated (handler class_ : Metadata) (header token : string)
      (payload : JWTPayload.t) (db : Repository.table) :
  getAllAndOverride isPublic [handler; class_] <> Some true ->
  fromAuthHeaderAsBearerToken (Some header) = Some token ->
  verify (JWT_ACCESS_TOKEN_SECRET config) (clock env) token = Some payload ->
  let context :=
    mkContext handler class_
              (mkRequest (Some header) (Some (User.mk payload None))) in
  App.roleGuarded config env handler class_ (mkRequest (Some header) None) db
  = verdict context (RolesGuard.canActivate context db).
Proof.
  intros Hpub He Hv context.
  unfold App.roleGuarded, App.enter, App.globalGuards. simpl.
  unfold bind at 1. rewrite AtGuard_protected by exact Hpub.
  erewrite AuthGuard_accepts; [|exact He|exact Hv|reflexivity]. simpl.
  unfold bind at 1. rewrite AtGuard_protected by exact Hpub.
  erewrite AuthGuard_accepts; [|exact He|exact Hv|reflexivity]. simpl.
  unfold bind at 1, RolesGuard.guard, bind. fold context.
  destruct (RolesGuard.canActivate context db) as [[[|]|e] db']; reflexivity.
Qed.
End RoleGuardedRoute.

Lemma canActivate_same_subject (handler class_ : Metadata) (a1 a2 : option string)
      (u1 u2 : User.t) (db : Repository.table) :
  User.sub u1 = User.sub u2 ->
  RolesGuard.canActivate (mkContext handler class_ (mkRequest a1 (Some u1))) db
  = RolesGuard.canActivate (mkContext handler class_ (mkRequest a2 (Some u2))) db.
Proof.
  intros Hs. unfold RolesGuard.canActivate. simpl. now rewrite Hs.
Qed.

Lemma allowed_verdict (c1 c2 : ExecutionContext)
      (r : Outcome bool * Repository.table) :
  allowed (verdict c1 r) = allowed (verdict c2 r).
Proof. destruct r as [[[|]|e] db]; reflexivity. Qed.

(** C2.  The decision of the roles guard does not read the role claim of
    the token.  (1) Two users attached to the request with the same
    subject id get the same answer from the guard, whatever their email
    and role claims.  (2) On a role-guarded route, two requests whose
    bearer tokens both verify under the access secret, for the same
    subject, are both allowed or both refused.  (3) After the profiles
    service has written a new role for the subject, a request carrying a
    token that still verifies is allowed exactly when the new stored role
    is one of the required roles. *)
Theorem C2_decision_ignores_role_claim :
  forall (P : Platform) (config : Config) (env : Env) (db : Repository.table)
         (handler class_ : Metadata),
    (forall a1 a2 u1 u2,
        User.sub u1 = User.sub u2 ->
        RolesGuard.canActivate (mkContext handler class_ (mkRequest a1 (Some u1))) db
        = RolesGuard.canActivate (mkContext handler class_ (mkRequest a2 (Some u2))) db)
    /\ (forall h1 h2 t1 t2 p1 p2,
           fromAuthHeaderAsBearerToken (Some h1) = Some t1 ->
           fromAuthHeaderAsBearerToken (Some h2) = Some t2 ->
           verify (JWT_ACCESS_TOKEN_SECRET config) (clock env) t1 = Some p1 ->
           verify (JWT_ACCESS_TOKEN_SECRET config) (clock env) t2 = Some p2 ->
           JWTPayload.sub p1 = JWTPayload.sub p2 ->
           allowed (App.roleGuarded config env handler class_
                                    (mkRequest (Some h1) None) db)
           = allowed (App.roleGuarded config env handler class_
                                      (mkRequest (Some h2) None) db))
    /\ (forall env' requiredRoles newRole h t p stale,
           getAllAndOverride isPublic [handler; class_] <> Some true ->
           getAllAndOverride roles [handler; class_] = Some requiredRoles ->
           fromAuthHeaderAsBearerToken (Some h) = Some t ->
           verify (JWT_ACCESS_TOKEN_SECRET config) (clock env) t = Some p ->
           Repository.findOne (Repository.whereId (JWTPayload.sub p)) db = Some stale ->
           let db' := snd (ProfilesService.update env' (JWTPayload.sub p)
                             (UpdateProfileDto.onlyRole newRole) db) in
           allowed (App.roleGuarded config env handler class_
                                    (mkRequest (Some h) None) db')
           = existsb (fun role => Role_eqb newRole role) requiredRoles).
Proof.
  intros P config env db handler class_. split; [|split].
  - intros a1 a2 u1 u2 Hs. now apply canActivate_same_subject.
  - intros h1 h2 t1 t2 p1 p2 He1 He2 Hv1 Hv2 Hs.
    destruct (getAllAndOverride isPublic [handler; class_]) as [[|]|] eqn:Hpub.
    + rewrite !roleGuarded_public by exact Hpub.
      unfold RolesGuard.canActivate. simpl.
      destruct (roles handler); [reflexivity|].
      destruct (roles class_); reflexivity.
    + rewrite (roleGuarded_authenticated config env handler class_ h1 t1 p1)
        by (try assumption; congruence).
      rewrite (roleGuarded_authenticated config env handler class_ h2 t2 p2)
        by (try assumption; congruence).
      rewrite (canActivate_same_subject handler class_ (Some h1) (Some h2)
                 (User.mk p1 None) (User.mk p2 None) db Hs).
      apply allowed_verdict.
    + rewrite (roleGuarded_authenticated config env handler class_ h1 t1 p1)
        by (try assumption; congruence).
      rewrite (roleGuarded_authenticated config env handler class_ h2 t2 p2)
        by (try assumption; congruence).
      rewrite (canActivate_same_subject handler class_ (Some h1) (Some h2)
                 (User.mk p1 None) (User.mk p2 None) db Hs).
      apply allowed_verdict.
  - intros env' requiredRoles newRole h t p stale Hpub Hroles He Hv Hfind db'.
    assert (Hdb' : db' = Repository.update (JWTPayload.sub p)
                           (ProfilesService.patch (UpdateProfileDto.onlyRole newRole))
                           db).
    { unfold db', ProfilesService.update, ProfilesService.findOne, bind,
        repo_update, repo_findOne. simpl.
      rewrite findOne_update by reflexivity. rewrite Hfind. reflexivity. }
    rewrite (roleGuarded_authenticated config env handler class_ h t p)
      by assumption.
    assert (Hfind' : Repository.findOne (Repository.whereId (JWTPayload.sub p)) db'
                     = Some (ProfilesService.patch
                               (UpdateProfileDto.onlyRole newRole) stale)).
    { rewrite Hdb', findOne_update by reflexivity. now rewrite Hfind. }
    rewrite (canActivate_profile
               (mkContext handler class_
                          (mkRequest (Some h) (Some (User.mk p None))))
               db' requiredRoles (User.mk p None) _ Hroles eq_refl Hfind').
    simpl.
    destruct (existsb (fun role => Role_eqb newRole role) requiredRoles);
      reflexivity.
Qed.

(** The stale-role scenario: the student of the sample table is promoted
    to administrator; a token issued at second 1000, still carrying the
    claim [student], is presented at second 1500 on a route for
    administrators only. *)
Lemma C2_decision_ignores_role_claim_witness :
  allowed
    (App.roleGuarded (P := Symbolic.platform) Sample.config (Sample.env 1500 "e1")
       (Roles [ADMIN] noMetadata) noMetadata
       (bearer (Sample.accessTokenOf Sample.student 1000))
       (snd (ProfilesService.update (P := Symbolic.platform) (Sample.env 1400 "e0") 1
               (UpdateProfileDto.onlyRole ADMIN) Sample.db)))
  = true.
Proof.
  destruct (C2_decision_ignores_role_claim Symbolic.platform Sample.config
              (Sample.env 1500 "e1") Sample.db (Roles [ADMIN] noMetadata)
              noMetadata) as [_ [_ H]].
  apply (H (Sample.env 1400 "e0") [ADMIN] ADMIN
           ("Bearer " ++ Sample.accessTokenOf Sample.student 1000)
           (Sample.accessTokenOf Sample.student 1000)
           (JWTPayload.mk 1 "a@x.com" "student") Sample.student).
  - simpl. discriminate.
  - reflexivity.
  - reflexivity.
  - vm_compute. reflexivity.
  - reflexivity.
Defined.

(** ** Rotation and revocation of the refresh token *)

Lemma symbolic_drop_take_pad (n : nat) (salt data : string) :
  drop n (Symbolic.take_pad n salt ++ data) = data.
Proof.
  revert salt. induction n as [|n IH]; intros salt; simpl; [reflexivity|].
  destruct salt; simpl; apply IH.
Qed.

Lemma symbolic_bcrypt_laws : BcryptLaws Symbolic.platform.
Proof.
  split.
  - intros data data' salt. simpl.
    unfold Symbolic.Bcrypt_compare, Symbolic.Bcrypt_hash.
    rewrite symbolic_drop_take_pad.
    destruct salt; reflexivity.
  - intros data salt. simpl. unfold Symbolic.Bcrypt_hash.
    destruct salt; discriminate.
Defined.

(** The tokens carry no nonce: a refresh in the second of the sign-in
    signs the same payload with the same secret, lifetime and issue time,
    so the token issued by the rotation is the one that was presented. *)
Example same_second_refresh_returns_the_presented_token :
  let P := Symbolic.platform in
  let old := Sample.refreshTokenOf Sample.student 1000 in
  exists db1 db2 tokens2,
    AuthService.signIn Sample.config (Sample.env 1000 "e1")
                       (CreateAuthDto.mk "a@x.com" "pw123") Sample.db
    = (Returned (mkTokens (Sample.accessTokenOf Sample.student 1000) old), db1)
    /\ AuthService.refreshTokens Sample.config (Sample.env 1000 "e2") 1 old db1
       = (Returned tokens2, db2)
    /\ refreshToken tokens2 = old.
Proof.
  vm_compute. do 3 eexists. repeat split; reflexivity.
Qed.

(** C3.  The rotation does not retire the token it replaces.  On the
    platform with the wire format of the tokens the student signs in at
    second 1000 and refreshes at second 1001; the refresh token issued by
    the rotation differs from the one presented, and its hash is the one
    stored.  At second 1002 the token of the sign-in is presented again,
    and [refreshTokens] accepts it and issues tokens once more: the two
    tokens agree on their first 72 bytes, the header and the beginning of
    the claims, and bcrypt compares no more than these. *)
Theorem C3_rotated_out_token_is_accepted :
  let P := Jose.platform in
  let old := Jose.refreshTokenOf Sample.student 1000 in
  let new := Jose.refreshTokenOf Sample.student 1001 in
  let signedIn := AuthService.signIn Jose.config (Sample.env 1000 "e1")
                    (CreateAuthDto.mk "a@x.com" "pw123") Sample.db in
  let rotated := AuthService.refreshTokens Jose.config (Sample.env 1001 "e2") 1 old
                   (snd signedIn) in
  let replayed := AuthService.refreshTokens Jose.config (Sample.env 1002 "e3") 1 old
                    (snd rotated) in
  fst signedIn = Returned (mkTokens (Jose.accessTokenOf Sample.student 1000) old)
  /\ fst rotated = Returned (mkTokens (Jose.accessTokenOf Sample.student 1001) new)
  /\ new <> old
  /\ Repository.findOne (Repository.whereId 1) (snd rotated)
     = Some (Profile.set_hashedRefreshToken
               (Some (Jose.Bcrypt_hash new "e2")) Sample.student)
  /\ bytes72 new = bytes72 old
  /\ fst replayed
     = Returned (mkTokens (Jose.accessTokenOf Sample.student 1002)
                          (Jose.refreshTokenOf Sample.student 1002)).
Proof.
  vm_compute.
  split; [reflexivity|]. split; [reflexivity|].
  split; [intros E; discriminate E|].
  split; [reflexivity|]. split; reflexivity.
Qed.

(** ** Routes with an empty role list *)

(** C4, as stated, fails.  On a handler decorated with [@Roles()] the
    metadata is the empty array, which is not [undefined]; the guard goes
    on to the membership test, and no role is a member of an empty list.
    The administrator of the sample table is refused. *)
Lemma C4_empty_roles_deny_admin :
  RolesGuard.canActivate Sample.emptyRoles Sample.db = (Returned false, Sample.db)
  /\ getAllAndOverride roles [getHandler Sample.emptyRoles; getClass Sample.emptyRoles]
     = Some [].
Proof. split; reflexivity. Qed.

(** C4, amended.  When neither the handler nor the class carries
    requiredRoles metadata the roles guard answers true for every
    request; when the metadata is present but empty it answers false for
    every request. *)
Theorem C4_unset_allows_empty_denies :
  forall (db : Repository.table) (context : ExecutionContext),
    (getAllAndOverride roles [getHandler context; getClass context] = None ->
     RolesGuard.canActivate context db = (Returned true, db))
    /\ (getAllAndOverride roles [getHandler context; getClass context] = Some [] ->
        RolesGuard.canActivate context db = (Returned false, db)).
Proof.
  intros db context. split.
  - apply canActivate_unset.
  - intros H. unfold RolesGuard.canActivate, bind, repo_findOne. rewrite H.
    destruct (user (getRequest context)) as [u|]; [|reflexivity].
    destruct (Repository.findOne (Repository.whereId (User.sub u)) db);
      reflexivity.
Qed.

Lemma C4_unset_allows_empty_denies_witness :
  RolesGuard.canActivate Sample.noRoles Sample.db = (Returned true, Sample.db)
  /\ RolesGuard.canActivate Sample.emptyRoles Sample.db = (Returned false, Sample.db).
Proof.
  split.
  - apply (proj1 (C4_unset_allows_empty_denies Sample.db Sample.noRoles)).
    reflexivity.
  - apply (proj2 (C4_unset_allows_empty_denies Sample.db Sample.emptyRoles)).
    reflexivity.
Defined.

(** ** What a failed sign-in shows *)

(** C5, as stated, fails.  An unknown email and a wrong password for a
    known email are both answered with a NotFoundException, but with
    different messages, and the first names the email that was tried. *)
Lemma C5_signin_failures_differ :
  let P := Symbolic.platform in
  let unknown := AuthService.signIn Sample.config (Sample.env 1000 "e1")
                   (CreateAuthDto.mk "c@x.com" "pw123") Sample.db in
  let wrong := AuthService.signIn Sample.config (Sample.env 1000 "e1")
                 (CreateAuthDto.mk "a@x.com" "wrong") Sample.db in
  unknown = (Thrown (NotFoundException "User with email c@x.com not found"), Sample.db)
  /\ wrong = (Thrown (NotFoundException "Invalid credentials"), Sample.db)
  /\ fst unknown <> fst wrong.
Proof.
  vm_compute. repeat split; discriminate.
Qed.

(** C5, amended.  The two failures of [signIn] throw the same exception
    class, NotFoundException (status 404), and leave the table unchanged;
    their messages differ: `User with email <email> not found` for an
    email with no row, 'Invalid credentials' for a password that does not
    verify. *)
Theorem C5_signin_failures_same_class_distinct_message :
  forall (P : Platform) (config : Config) (env : Env) (db : Repository.table)
         (dto : CreateAuthDto.t),
    let unknown := NotFoundException
                     ("User with email " ++ CreateAuthDto.email dto ++ " not found") in
    let wrong := NotFoundException "Invalid credentials" in
    (Repository.findOne (Repository.whereEmail (CreateAuthDto.email dto)) db = None ->
     AuthService.signIn config env dto db = (Thrown unknown, db))
    /\ (forall u,
           Repository.findOne (Repository.whereEmail (CreateAuthDto.email dto)) db
           = Some u ->
           Bcrypt_compare (CreateAuthDto.password dto) (Profile.password u) = false ->
           AuthService.signIn config env dto db = (Thrown wrong, db))
    /\ getStatus unknown = getStatus wrong
    /\ getMessage unknown <> getMessage wrong.
Proof.
  intros P config env db dto unknown wrong. split; [|split; [|split]].
  - apply signIn_unknown_email.
  - intros u. apply signIn_wrong_password.
  - reflexivity.
  - simpl. discriminate.
Qed.

Lemma C5_signin_failures_same_class_distinct_message_witness :
  AuthService.signIn (P := Symbolic.platform) Sample.config (Sample.env 1000 "e1")
                     (CreateAuthDto.mk "a@x.com" "wrong") Sample.db
  = (Thrown (NotFoundException "Invalid credentials"), Sample.db).
Proof.
  destruct (C5_signin_failures_same_class_distinct_message Symbolic.platform
              Sample.config (Sample.env 1000 "e1") Sample.db
              (CreateAuthDto.mk "a@x.com" "wrong")) as [_ [H _]].
  apply (H Sample.student); reflexivity.
Defined.

(** ** Public routes *)

(** On a public handler that declares no roles, [AtGuard] and
    [RolesGuard] both answer true and leave the request as it was. *)
Lemma runGuards_public_open {P : Platform} (config : Config) (now : Z)
      (handler class_ : Metadata) (req : Request) (db : Repository.table)
      (guards : list Guard) :
  getAllAndOverride isPublic [handler; class_] = Some true ->
  getAllAndOverride roles [handler; class_] = None ->
  Forall (fun g : Guard => g = AtGuard config now \/ g = RolesGuard.guard) guards ->
  runGuards guards (mkContext handler class_ req) db
  = (Returned (mkContext handler class_ req), db).
Proof.
  intros Hpub Hroles. induction 1 as [|g gs Hg _ IH]; [reflexivity|].
  simpl. unfold bind at 1. destruct Hg as [->| ->].
  - rewrite AtGuard_public by exact Hpub. exact IH.
  - unfold RolesGuard.guard, bind.
    rewrite canActivate_unset by exact Hroles. exact IH.
Qed.

(** C6, as stated, fails.  GET /auth/refresh is tagged public and the
    global guard lets every request through, but the guard of the route
    itself, [RtGuard], asks for a refresh token: with no Authorization
    header the request is answered with UnauthorizedException and the
    handler is not reached. *)
Lemma C6_public_refresh_route_needs_a_token :
  getAllAndOverride isPublic [Public noMetadata; noMetadata] = Some true
  /\ App.GET_auth_refresh (P := Jose.platform) Jose.config (Sample.env 1000 "e1")
                          (mkRequest None None) 1 Sample.db
     = (Thrown (UnauthorizedException "Unauthorized"), Sample.db).
Proof. split; reflexivity. Qed.

(** C6, amended.  When the ['isPublic'] metadata read from the handler,
    else from the class, is true: (1) [AtGuard] answers true for every
    request and leaves the request as it was, so the header is not read
    and no token is verified, on any platform, and the tag prevails over
    the guard registered for every route; (2) the route is entered by
    every request, also one with no Authorization header, when its
    [@UseGuards] names no guard but [AtGuard] and [RolesGuard] and no
    roles are declared for it; (3) when its [@UseGuards] starts with
    [RtGuard], as on GET /auth/refresh, a request whose header yields no
    token, or a token that does not verify under the refresh secret, is
    answered with UnauthorizedException. *)
Theorem C6_public_tag_bypasses_the_access_token_guard :
  forall (P : Platform) (config : Config) (env : Env) (db : Repository.table)
         (handler class_ : Metadata) (req : Request),
    getAllAndOverride isPublic [handler; class_] = Some true ->
    AtGuard config (clock env) (mkContext handler class_ req) db
    = (Returned (true, mkContext handler class_ req), db)
    /\ (forall useGuards,
           Forall (fun g : Guard =>
                     g = AtGuard config (clock env) \/ g = RolesGuard.guard)
                  useGuards ->
           getAllAndOverride roles [handler; class_] = None ->
           App.enter config env handler class_ useGuards req db
           = (Returned (mkContext handler class_ req), db))
    /\ (forall useGuards,
           match fromAuthHeaderAsBearerToken (authorization req) with
           | None => True
           | Some token =>
               verify (JWT_REFRESH_TOKEN_SECRET config) (clock env) token = None
           end ->
           App.enter config env handler class_
                     (RtGuard config (clock env) :: useGuards) req db
           = (Thrown (UnauthorizedException "Unauthorized"), db)).
Proof.
  intros P config env db handler class_ req Hpub. split; [|split].
  - now apply AtGuard_public.
  - intros useGuards Hall Hroles. unfold App.enter, App.globalGuards.
    apply (runGuards_public_open config (clock env)); try assumption.
    simpl. constructor; [now left | exact Hall].
  - intros useGuards Hrej. unfold App.enter, App.globalGuards. simpl.
    unfold bind at 1. rewrite AtGuard_public by exact Hpub. simpl.
    unfold bind at 1. unfold RtGuard. now rewrite AuthGuard_rejects.
Qed.

(** POST /profiles, public and under [@UseGuards(AtGuard, RolesGuard)],
    called with no header. *)
Lemma C6_public_tag_bypasses_the_access_token_guard_witness :
  App.enter (P := Jose.platform) Jose.config (Sample.env 1000 "e1")
            (Public noMetadata) noMetadata
            [AtGuard (P := Jose.platform) Jose.config 1000; RolesGuard.guard]
            (mkRequest None None)
            Sample.db
  = (Returned (mkContext (Public noMetadata) noMetadata (mkRequest None None)),
     Sample.db).
Proof.
  destruct (C6_public_tag_bypasses_the_access_token_guard Jose.platform Jose.config
              (Sample.env 1000 "e1") Sample.db (Public noMetadata) noMetadata
              (mkRequest None None) eq_refl) as [_ [H _]].
  apply H.
  - constructor; [left; reflexivity|]. constructor; [right; reflexivity|].
    constructor.
  - reflexivity.
Defined.

(** ** The refresh route *)

Section RefreshRoute.
Context {P : Platform} (config : Config) (env : Env).

End RefreshRoute.

(** C7.  The refresh route loses the token of a header whose scheme is not
    spelled 'Bearer'.  On the platform with the wire format of the tokens,
    whose extractor reads the scheme without regard to case, the student
    signs in at second 1000 and at second 1001 presents the refresh token
    as [bearer <token>] with the id 1.  The token is extracted, it
    verifies under the refresh secret and its subject is the id; but
    [RfStrategy.validate] removes only the spelling 'Bearer', so
    [refreshTokens] is called with the whole header in place of the
    token, and the request is answered with NotFoundException 'Invalid
    refresh token'.  The same token presented as [Bearer <token>] is
    accepted. *)
Theorem C7_lower_case_scheme_loses_the_token :
  let P := Jose.platform in
  let env := Sample.env 1001 "e2" in
  let token := Jose.refreshTokenOf Sample.student 1000 in
  let header := "bearer " ++ token in
  let db := snd (AuthService.signIn Jose.config (Sample.env 1000 "e1")
                   (CreateAuthDto.mk "a@x.com" "pw123") Sample.db) in
  fromAuthHeaderAsBearerToken (Some header) = Some token
  /\ verify (JWT_REFRESH_TOKEN_SECRET Jose.config) (clock env) token
     = Some (JWTPayload.mk 1 "a@x.com" "student")
  /\ App.GET_auth_refresh Jose.config env (mkRequest (Some header) None) 1 db
     = AuthService.refreshTokens Jose.config env 1 header db
  /\ App.GET_auth_refresh Jose.config env (mkRequest (Some header) None) 1 db
     = (Thrown (NotFoundException "Invalid refresh token"), db)
  /\ fst (App.GET_auth_refresh Jose.config env (bearer token) 1 db)
     = Returned (mkTokens (Jose.accessTokenOf Sample.student 1001)
                          (Jose.refreshTokenOf Sample.student 1001)).
Proof.
  vm_compute. repeat split; reflexivity.
Qed.

(** ** Signing out *)

Lemma signed_out_rows (id : Z) (db : Repository.table) (p : Profile.t) :
  In p (Repository.update id (Profile.set_hashedRefreshToken None) db) ->
  Profile.id p = id ->
  Profile.hashedRefreshToken p = None.
Proof.
  intros Hin Hid. apply update_rows in Hin. destruct Hin as [q [_ Hq]].
  destruct (Repository.whereId id q) eqn:E; subst p; [reflexivity|].
  unfold Repository.whereId in E. apply Z.eqb_neq in E. contradiction.
Qed.

(** C8.  For an id with a profile row, [signOut] succeeds, and a second
    [signOut] right after it succeeds with the same message and leaves
    the table as the first call left it, every row of that id having a
    null refresh-token hash.  For an id with no row, [signOut] throws
    NotFoundException and the table is unchanged. *)
Theorem C8_signOut_idempotent :
  forall (db : Repository.table) (id : Z),
    (forall u,
        Repository.findOne (Repository.whereId id) db = Some u ->
        exists message db1,
          AuthService.signOut id db = (Returned message, db1)
          /\ AuthService.signOut id db1 = (Returned message, db1)
          /\ (forall p, In p db1 -> Profile.id p = id ->
                        Profile.hashedRefreshToken p = None))
    /\ (Repository.findOne (Repository.whereId id) db = None ->
        AuthService.signOut id db
        = (Thrown (NotFoundException ("User with ID " ++ show id ++ " not found")),
           db)).
Proof.
  intros db id. split.
  - intros u Hfind.
    exists ("User with id : " ++ show id ++ " signed out successfully").
    exists (Repository.update id (Profile.set_hashedRefreshToken None) db).
    split; [|split].
    + now apply signOut_present with (u := u).
    + erewrite signOut_present.
      * rewrite update_twice; reflexivity.
      * rewrite findOne_update by reflexivity. rewrite Hfind. reflexivity.
    + apply signed_out_rows.
  - apply signOut_absent.
Qed.

(** The student signs in, then signs out twice. *)
Lemma C8_signOut_idempotent_witness :
  let db := snd (AuthService.signIn (P := Symbolic.platform) Sample.config
                   (Sample.env 1000 "e1") (CreateAuthDto.mk "a@x.com" "pw123")
                   Sample.db) in
  (exists message db1,
      AuthService.signOut 1 db = (Returned message, db1)
      /\ AuthService.signOut 1 db1 = (Returned message, db1)
      /\ (forall p, In p db1 -> Profile.id p = 1 ->
                    Profile.hashedRefreshToken p = None))
  /\ AuthService.signOut 7 db
     = (Thrown (NotFoundException "User with ID 7 not found"), db).
Proof.
  intros db. split.
  - apply (proj1 (C8_signOut_idempotent db 1)
             (Profile.set_hashedRefreshToken
                (Some (Symbolic.Bcrypt_hash
                         (Sample.refreshTokenOf Sample.student 1000) "e1"))
                Sample.student)).
    reflexivity.
  - apply (proj2 (C8_signOut_idempotent db 7)). reflexivity.
Defined.

(** ** Signing out with the id as the route gives it *)

(** On the text that [show] writes for an id, the method on the route
    parameter is the method on the id. *)
Lemma signOutParam_show (integer_in : string -> option Z) (id : Z)
      (db : Repository.table) :
  integer_in (show id) = Some id ->
  AuthService.signOutParam integer_in (show id) db = AuthService.signOut id db.
Proof.
  intros H. unfold AuthService.signOutParam, AuthService.signOut. now rewrite H.
Qed.

(** C9.  A sign-out whose id is not a number does not end in a
    NotFoundException.  The sign-out route passes the path segment to
    [signOut] as it is, and the update hands it to the database as the
    value of the integer key: for every text that the database does not
    read as an integer the statement fails, [signOut] rejects with that
    error, which is not an HTTP exception, and the response has status
    500; the table is unchanged. *)
Theorem C9_sign_out_of_a_text_that_is_no_number :
  forall (integer_in : string -> option Z) (userId : string)
         (db : Repository.table),
    integer_in userId = None ->
    exists e,
      AuthService.signOutParam integer_in userId db = (Thrown e, db)
      /\ getStatus e = 500
      /\ forall message, e <> NotFoundException message.
Proof.
  intros integer_in userId db H. unfold AuthService.signOutParam. rewrite H.
  eexists. split; [reflexivity|]. split; [reflexivity | discriminate].
Qed.

(** GET /auth/signout/abc, with the decimal numerals as the integers the
    database reads. *)
Lemma C9_sign_out_of_a_text_that_is_no_number_witness :
  exists e,
    AuthService.signOutParam Symbolic.parse "abc" Sample.db = (Thrown e, Sample.db)
    /\ getStatus e = 500
    /\ forall message, e <> NotFoundException message.
Proof.
  apply (C9_sign_out_of_a_text_that_is_no_number Symbolic.parse "abc" Sample.db).
  reflexivity.
Defined.

(** ** The sign-out route *)

Lemma signout_route_authenticated {P : Platform} (config : Config) (env : Env)
      (header token : string) (payload : JWTPayload.t) (id : Z)
      (db : Repository.table) :
  fromAuthHeaderAsBearerToken (Some header) = Some token ->
  verify (JWT_ACCESS_TOKEN_SECRET config) (clock env) token = Some payload ->
  App.GET_auth_signout config env (mkRequest (Some header) None) id db
  = AuthService.signOut id db.
Proof.
  intros He Hv.
  unfold App.GET_auth_signout, App.enter, App.globalGuards. simpl.
  unfold bind at 1. unfold bind at 1.
  rewrite AtGuard_protected by (simpl; discriminate).
  erewrite AuthGuard_accepts; [|exact He|exact Hv|reflexivity]. simpl.
  unfold bind at 1.
  rewrite AtGuard_protected by (simpl; discriminate).
  erewrite AuthGuard_accepts; [|exact He|exact Hv|reflexivity]. simpl.
  unfold AuthController.signOut.
  destruct (AuthService.signOut id db) as [[m|e] db']; reflexivity.
Qed.

(** C10.  GET /auth/signout/:id compares nothing with the caller: for
    every bearer token that verifies under the access secret, whatever
    its subject and role, and every id with a profile row, the request
    succeeds and every row of that id is left with a null refresh-token
    hash.  The response and the table are those of [signOut id] and do
    not depend on the payload. *)
Theorem C10_signout_route_has_no_identity_match :
  forall (P : Platform) (config : Config) (env : Env) (db : Repository.table)
         (header token : string) (payload : JWTPayload.t) (id : Z) (u : Profile.t),
    fromAuthHeaderAsBearerToken (Some header) = Some token ->
    verify (JWT_ACCESS_TOKEN_SECRET config) (clock env) token = Some payload ->
    Repository.findOne (Repository.whereId id) db = Some u ->
    let db' := Repository.update id (Profile.set_hashedRefreshToken None) db in
    App.GET_auth_signout config env (mkRequest (Some header) None) id db
    = (Returned ("User with id : " ++ show id ++ " signed out successfully"), db')
    /\ (forall p, In p db' -> Profile.id p = id ->
                  Profile.hashedRefreshToken p = None).
Proof.
  intros P config env db header token payload id u He Hv Hfind db'. split.
  - rewrite (signout_route_authenticated config env header token payload id db He Hv).
    now apply signOut_present with (u := u).
  - apply signed_out_rows.
Qed.

(** The student, holding an access token of their own, signs the
    administrator out. *)
Lemma C10_signout_route_has_no_identity_match_witness :
  let P := Symbolic.platform in
  let db := snd (AuthService.signIn Sample.config (Sample.env 1000 "e1")
                   (CreateAuthDto.mk "b@x.com" "root") Sample.db) in
  App.GET_auth_signout Sample.config (Sample.env 1200 "e2")
                       (bearer (Sample.accessTokenOf Sample.student 1100)) 2 db
  = (Returned "User with id : 2 signed out successfully", Sample.db).
Proof.
  intros P db.
  destruct (C10_signout_route_has_no_identity_match Symbolic.platform Sample.config
              (Sample.env 1200 "e2") db
              ("Bearer " ++ Sample.accessTokenOf Sample.student 1100)
              (Sample.accessTokenOf Sample.student 1100)
              (JWTPayload.mk 1 "a@x.com" "student") 2
              (Profile.set_hashedRefreshToken
                 (Some (Symbolic.Bcrypt_hash
                          (Sample.refreshTokenOf Sample.admin 1000) "e1"))
                 Sample.admin)) as [H _].
  - reflexivity.
  - reflexivity.
  - reflexivity.
  - exact H.
Defined.

(** ** The scenarios of the sample table, run on the symbolic platform *)

Section Scenarios.
#[local] Existing Instance Symbolic.platform.
Let signedIn : Outcome Tokens * Repository.table :=
  App.POST_auth_signin Sample.config (Sample.env 1000 "e1") (mkRequest None None)
                       (CreateAuthDto.mk "a@x.com" "pw123") Sample.db.

(** Sign-in needs no header and returns the two tokens, whose claims are
    those of the stored row. *)
Example scenario_sign_in :
  fst signedIn
  = Returned (mkTokens "1|a@x.com|student|1000|900|access-key"
                       "1|a@x.com|student|1000|604800|refresh-key")
  /\ verify (JWT_ACCESS_TOKEN_SECRET Sample.config) 1500
            (Sample.accessTokenOf Sample.student 1000)
     = Some (JWTPayload.mk 1 "a@x.com" "student").
Proof. split; reflexivity. Qed.

(** With the student's access token, a handler for administrators and
    faculty is forbidden and a handler that also admits students is
    reached. *)
Example scenario_student_forbidden :
  fst (App.roleGuarded Sample.config (Sample.env 1500 "e2")
         (Roles [ADMIN; FACULTY] noMetadata) noMetadata
         (bearer (Sample.accessTokenOf Sample.student 1000)) (snd signedIn))
  = Thrown (ForbiddenException "Forbidden resource").
Proof. reflexivity. Qed.

Example scenario_student_allowed :
  allowed (App.roleGuarded Sample.config (Sample.env 1500 "e2")
             (Roles [ADMIN; FACULTY; STUDENT] noMetadata) noMetadata
             (bearer (Sample.accessTokenOf Sample.student 1000)) (snd signedIn))
  = true.
Proof. reflexivity. Qed.

(** A protected route without a header, with an expired token, or with a
    refresh token in place of the access token, is unauthorized. *)
Example scenario_unauthenticated :
  let route req := fst (App.roleGuarded Sample.config (Sample.env 2000 "e2")
                          (Roles [STUDENT] noMetadata) noMetadata req
                          (snd signedIn)) in
  route (mkRequest None None) = Thrown (UnauthorizedException "Unauthorized")
  /\ route (bearer (Sample.accessTokenOf Sample.student 1000))
     = Thrown (UnauthorizedException "Unauthorized")
  /\ route (bearer (Sample.refreshTokenOf Sample.student 1000))
     = Thrown (UnauthorizedException "Unauthorized").
Proof. repeat split; reflexivity. Qed.

(** A refresh one second after the sign-in issues new tokens and stores
    the hash of the new refresh token. *)
Example scenario_rotation :
  let old := Sample.refreshTokenOf Sample.student 1000 in
  let refreshed := App.GET_auth_refresh Sample.config (Sample.env 1001 "e2")
                     (bearer old) 1 (snd signedIn) in
  fst refreshed
  = Returned (mkTokens (Sample.accessTokenOf Sample.student 1001)
                       (Sample.refreshTokenOf Sample.student 1001))
  /\ Repository.findOne (Repository.whereId 1) (snd refreshed)
     = Some (Profile.set_hashedRefreshToken
               (Some (Symbolic.Bcrypt_hash (Sample.refreshTokenOf Sample.student 1001)
                                           "e2"))
               Sample.student).
Proof. split; reflexivity. Qed.
End Scenarios.

(* ================================================================== *)
(** * Further properties of the session service *)
(* ================================================================== *)

Section MoreRepositoryFacts.
Variable i : Z.
Variable f : Profile.t -> Profile.t.
Hypothesis f_keeps_id : forall p, Profile.id (f p) = Profile.id p.

Lemma findOne_update_other (j : Z) (db : Repository.table) :
  j <> i ->
  Repository.findOne (Repository.whereId j) (Repository.update i f db)
  = Repository.findOne (Repository.whereId j) db.
Proof.
  intros Hne. unfold Repository.findOne, Repository.update.
  induction db as [|p db IH]; simpl; [reflexivity|].
  destruct (Repository.whereId i p) eqn:Ei.
  - rewrite (whereId_patch f f_keeps_id j p).
    destruct (Repository.whereId j p) eqn:Ej; [|exact IH].
    apply whereId_true in Ei. apply whereId_true in Ej. congruence.
  - destruct (Repository.whereId j p); [reflexivity | exact IH].
Qed.

Lemma update_length (db : Repository.table) :
  List.length (Repository.update i f db) = List.length db.
Proof. unfold Repository.update. apply length_map. Qed.
End MoreRepositoryFacts.

Lemma affected_zero_update (i : Z) (f : Profile.t -> Profile.t)
      (db : Repository.table) :
  Nat.eqb (Repository.affected i db) 0 = true ->
  Repository.update i f db = db.
Proof.
  intros H. apply update_absent.
  destruct (Repository.findOne (Repository.whereId i) db) as [u|] eqn:E;
    [|reflexivity].
  rewrite (affected_some _ _ _ E) in H. discriminate.
Qed.

Lemma update_sameButHash (i : Z) (v : option string) (db : Repository.table) :
  Forall2 (sameButHash i) db
          (Repository.update i (Profile.set_hashedRefreshToken v) db).
Proof.
  unfold Repository.update.
  induction db as [|p db IH]; simpl; constructor; try exact IH.
  unfold sameButHash. destruct (Repository.whereId i p) eqn:E.
  - split; [reflexivity|]. intros Hne. apply whereId_true in E. contradiction.
  - split; [now destruct p | reflexivity].
Qed.

Lemma sameButHash_refl (i : Z) (db : Repository.table) :
  Forall2 (sameButHash i) db db.
Proof.
  induction db as [|p db IH]; constructor; try exact IH.
  split; [now destruct p | reflexivity].
Qed.

Section MoreServicePaths.
Context {P : Platform} (config : Config) (env : Env).

Lemma signIn_returned_inv (dto : CreateAuthDto.t) (db db' : Repository.table)
      (tokens : Tokens) :
  AuthService.signIn config env dto db = (Returned tokens, db') ->
  exists u,
    Repository.findOne (Repository.whereEmail (CreateAuthDto.email dto)) db = Some u
    /\ Bcrypt_compare (CreateAuthDto.password dto) (Profile.password u) = true
    /\ tokens = AuthService.getTokens config env (Profile.id u) (Profile.email u)
                                      (Role_value (Profile.role u))
    /\ db' = Repository.update (Profile.id u)
               (Profile.set_hashedRefreshToken
                  (Some (AuthService.hashData env (refreshToken tokens)))) db.
Proof.
  unfold AuthService.signIn, bind, repo_findOne.
  destruct (Repository.findOne _ db) as [u|] eqn:H; [|discriminate].
  destruct (Bcrypt_compare _ (Profile.password u)) eqn:Hc; [|discriminate].
  simpl. intros E. injection E as Et Ed. subst tokens.
  exists u. repeat split; try assumption; try reflexivity. now subst db'.
Qed.

(** A call that throws leaves the table as it found it. *)
Lemma signIn_thrown_table (dto : CreateAuthDto.t) (db db' : Repository.table)
      (e : HttpException) :
  AuthService.signIn config env dto db = (Thrown e, db') -> db' = db.
Proof.
  unfold AuthService.signIn, bind, repo_findOne.
  destruct (Repository.findOne _ db) as [u|].
  - destruct (Bcrypt_compare _ _); simpl; [discriminate|].
    intros E. now injection E.
  - intros E. now injection E.
Qed.

Lemma signOut_thrown_table (id : Z) (db db' : Repository.table)
      (e : HttpException) :
  AuthService.signOut id db = (Thrown e, db') -> db' = db.
Proof.
  unfold AuthService.signOut, bind, repo_update.
  destruct (Nat.eqb (Repository.affected id db) 0) eqn:E; [|discriminate].
  intros H. injection H as _ Hd. subst db'. now apply affected_zero_update.
Qed.

Lemma refresh_thrown_table (id : Z) (rt : string) (db db' : Repository.table)
      (e : HttpException) :
  AuthService.refreshTokens config env id rt db = (Thrown e, db') -> db' = db.
Proof.
  unfold AuthService.refreshTokens, bind, repo_findOne.
  destruct (Repository.findOne _ db) as [u|]; [|intros E; now injection E].
  destruct (Profile.hashedRefreshToken u) as [stored|];
    [|intros E; now injection E].
  destruct (String.eqb stored EmptyString); [intros E; now injection E|].
  destruct (Bcrypt_compare rt stored); simpl; [discriminate|].
  intros E. now injection E.
Qed.

(** After a successful [signIn] or [refreshTokens] the first row of the
    identity holds the hash of the token just issued. *)
Lemma stored_hash_after_issue (id : Z) (u : Profile.t) (rt : string)
      (db : Repository.table) :
  Repository.findOne (Repository.whereId id) db = Some u ->
  Repository.findOne (Repository.whereId id)
    (Repository.update id
       (Profile.set_hashedRefreshToken (Some (AuthService.hashData env rt))) db)
  = Some (Profile.set_hashedRefreshToken (Some (AuthService.hashData env rt)) u).
Proof.
  intros H. rewrite findOne_update by reflexivity. now rewrite H.
Qed.
End MoreServicePaths.

Lemma findOne_of_member (i : Z) (db : Repository.table) (u : Profile.t) :
  In u db -> Profile.id u = i ->
  exists v, Repository.findOne (Repository.whereId i) db = Some v.
Proof.
  intros Hin Hid.
  destruct (Repository.findOne (Repository.whereId i) db) as [v|] eqn:E;
    [now exists v|].
  unfold Repository.findOne in E.
  pose proof (find_none _ _ E u Hin) as Hn.
  unfold Repository.whereId in Hn. apply Z.eqb_neq in Hn. contradiction.
Qed.

Lemma findOne_email_member (e : string) (db : Repository.table) (u : Profile.t) :
  Repository.findOne (Repository.whereEmail e) db = Some u -> In u db.
Proof. unfold Repository.findOne. intros H. now apply find_some in H. Qed.

(** X1.  With a hasher that accepts exactly the hashed data, the refresh
    token handed out is the one the next refresh accepts: after a
    successful [signIn], [refreshTokens] for the identity found and the
    token returned succeeds; and after a successful [refreshTokens], a
    [refreshTokens] with the newly returned token succeeds. *)
Theorem X1_issued_refresh_token_is_accepted :
  forall (P : Platform) (laws : BcryptLaws P) (config : Config) (env1 env2 : Env)
         (db db1 : Repository.table) (tokens : Tokens),
    (forall dto,
        AuthService.signIn config env1 dto db = (Returned tokens, db1) ->
        exists u tokens2 db2,
          Repository.findOne (Repository.whereEmail (CreateAuthDto.email dto)) db
          = Some u
          /\ AuthService.refreshTokens config env2 (Profile.id u)
                                       (refreshToken tokens) db1
             = (Returned tokens2, db2))
    /\ (forall id old,
           AuthService.refreshTokens config env1 id old db = (Returned tokens, db1) ->
           exists tokens2 db2,
             AuthService.refreshTokens config env2 id (refreshToken tokens) db1
             = (Returned tokens2, db2)).
Proof.
  intros P laws config env1 env2 db db1 tokens.
  assert (Hgen : forall i v,
             Repository.findOne (Repository.whereId i) db = Some v ->
             db1 = Repository.update i
                     (Profile.set_hashedRefreshToken
                        (Some (AuthService.hashData env1 (refreshToken tokens)))) db ->
             exists tokens2 db2,
               AuthService.refreshTokens config env2 i (refreshToken tokens) db1
               = (Returned tokens2, db2)).
  { intros i v Hv Hdb. subst db1. do 2 eexists.
    eapply refresh_success.
    - apply stored_hash_after_issue. exact Hv.
    - reflexivity.
    - apply Bcrypt_hash_nonempty.
    - unfold AuthService.hashData. rewrite Bcrypt_compare_hash.
      apply String.eqb_refl. }
  split.
  - intros dto H. apply signIn_returned_inv in H.
    destruct H as [u [Hfind [_ [_ Hdb]]]].
    destruct (findOne_of_member (Profile.id u) db u
                (findOne_email_member _ _ _ Hfind) eq_refl) as [v Hv].
    destruct (Hgen (Profile.id u) v Hv Hdb) as [t2 [db2 H2]].
    exists u, t2, db2. now split.
  - intros id old H. apply refresh_returned_inv in H.
    destruct H as [u [stored [Hfind [_ [_ [_ [_ Hdb]]]]]]].
    rewrite (findOne_whereId _ _ _ Hfind) in Hdb.
    exact (Hgen id u Hfind Hdb).
Qed.

Lemma X1_issued_refresh_token_is_accepted_witness :
  let P := Symbolic.platform in
  exists u tokens2 db2,
    Repository.findOne (Repository.whereEmail "a@x.com") Sample.db = Some u
    /\ AuthService.refreshTokens Sample.config (Sample.env 1001 "e2") (Profile.id u)
         (Sample.refreshTokenOf Sample.student 1000)
         (snd (AuthService.signIn Sample.config (Sample.env 1000 "e1")
                 (CreateAuthDto.mk "a@x.com" "pw123") Sample.db))
       = (Returned tokens2, db2).
Proof.
  intros P.
  apply (proj1 (X1_issued_refresh_token_is_accepted Symbolic.platform
                  symbolic_bcrypt_laws Sample.config (Sample.env 1000 "e1")
                  (Sample.env 1001 "e2") Sample.db
                  (snd (AuthService.signIn Sample.config (Sample.env 1000 "e1")
                          (CreateAuthDto.mk "a@x.com" "pw123") Sample.db))
                  (mkTokens (Sample.accessTokenOf Sample.student 1000)
                            (Sample.refreshTokenOf Sample.student 1000)))
               (CreateAuthDto.mk "a@x.com" "pw123")).
  reflexivity.
Defined.

(** X2.  A call of the session service that throws has written nothing:
    whenever [signIn], [signOut] or [refreshTokens] ends in an exception,
    the table is the one the call started from. *)
Theorem X2_failed_session_call_changes_nothing :
  forall (P : Platform) (config : Config) (env : Env)
         (db db' : Repository.table) (e : HttpException),
    (forall dto, AuthService.signIn config env dto db = (Thrown e, db') -> db' = db)
    /\ (forall id, AuthService.signOut id db = (Thrown e, db') -> db' = db)
    /\ (forall id rt,
           AuthService.refreshTokens config env id rt db = (Thrown e, db') ->
           db' = db).
Proof.
  intros P config env db db' e. split; [|split].
  - intros dto. apply signIn_thrown_table.
  - intros id. apply signOut_thrown_table.
  - intros id rt. apply refresh_thrown_table.
Qed.

Lemma X2_failed_session_call_changes_nothing_witness :
  Sample.db = Sample.db.
Proof.
  apply (proj1 (X2_failed_session_call_changes_nothing Symbolic.platform
                  Sample.config (Sample.env 1000 "e1") Sample.db Sample.db
                  (NotFoundException "Invalid credentials"))
               (CreateAuthDto.mk "a@x.com" "wrong")).
  reflexivity.
Defined.

Section SessionTables.
Context {P : Platform} (config : Config) (env : Env).

Lemma signOut_returned_inv (id : Z) (db db' : Repository.table) (message : string) :
  AuthService.signOut id db = (Returned message, db') ->
  db' = Repository.update id (Profile.set_hashedRefreshToken None) db.
Proof.
  unfold AuthService.signOut, bind, repo_update.
  destruct (Nat.eqb (Repository.affected id db) 0); [discriminate|].
  intros E. now injection E.
Qed.

(** Whatever the outcome, a session call on [id] leaves a table that is
    the old one with one value written to the hash column of the rows of
    [id], or the old one itself. *)
Lemma signOut_table (id : Z) (db : Repository.table) :
  snd (AuthService.signOut id db)
  = Repository.update id (Profile.set_hashedRefreshToken None) db.
Proof.
  unfold AuthService.signOut, bind, repo_update.
  destruct (Nat.eqb (Repository.affected id db) 0); reflexivity.
Qed.

Lemma refresh_table (id : Z) (rt : string) (db : Repository.table) :
  snd (AuthService.refreshTokens config env id rt db) = db
  \/ exists v, snd (AuthService.refreshTokens config env id rt db)
               = Repository.update id (Profile.set_hashedRefreshToken v) db.
Proof.
  destruct (AuthService.refreshTokens config env id rt db) as [[t|e] db'] eqn:E.
  - right. apply refresh_returned_inv in E.
    destruct E as [u [stored [Hfind [_ [_ [_ [_ Hdb]]]]]]].
    rewrite (findOne_whereId _ _ _ Hfind) in Hdb. eexists. exact Hdb.
  - left. simpl. eapply refresh_thrown_table. exact E.
Qed.

Lemma signIn_table (dto : CreateAuthDto.t) (db : Repository.table) :
  snd (AuthService.signIn config env dto db) = db
  \/ exists u v,
      Repository.findOne (Repository.whereEmail (CreateAuthDto.email dto)) db = Some u
      /\ snd (AuthService.signIn config env dto db)
         = Repository.update (Profile.id u) (Profile.set_hashedRefreshToken v) db.
Proof.
  destruct (AuthService.signIn config env dto db) as [[t|e] db'] eqn:E.
  - right. apply signIn_returned_inv in E.
    destruct E as [u [Hfind [_ [_ Hdb]]]].
    exists u. eexists. split; [exact Hfind | exact Hdb].
  - left. simpl. eapply signIn_thrown_table. exact E.
Qed.

(** The outcome of a refresh is decided by the row found for the id. *)
Lemma refresh_outcome_of_row (id : Z) (rt : string) (db1 db2 : Repository.table) :
  Repository.findOne (Repository.whereId id) db1
  = Repository.findOne (Repository.whereId id) db2 ->
  fst (AuthService.refreshTokens config env id rt db1)
  = fst (AuthService.refreshTokens config env id rt db2).
Proof.
  intros H. unfold AuthService.refreshTokens, bind, repo_findOne. rewrite H.
  destruct (Repository.findOne (Repository.whereId id) db2) as [u|];
    [|reflexivity].
  destruct (Profile.hashedRefreshToken u) as [stored|]; [|reflexivity].
  destruct (String.eqb stored EmptyString); [reflexivity|].
  destruct (Bcrypt_compare rt stored); reflexivity.
Qed.
End SessionTables.

Lemma findOne_email_update (e : string) (i : Z) (f : Profile.t -> Profile.t)
      (db : Repository.table) :
  (forall p, Profile.email (f p) = Profile.email p) ->
  Repository.findOne (Repository.whereEmail e) (Repository.update i f db)
  = option_map (fun p => if Repository.whereId i p then f p else p)
               (Repository.findOne (Repository.whereEmail e) db).
Proof.
  intros Hf. unfold Repository.findOne, Repository.update.
  induction db as [|p db IH]; simpl; [reflexivity|].
  assert (Hw : Repository.whereEmail e (if Repository.whereId i p then f p else p)
               = Repository.whereEmail e p).
  { destruct (Repository.whereId i p); [|reflexivity].
    unfold Repository.whereEmail. now rewrite Hf. }
  rewrite Hw. destruct (Repository.whereEmail e p); [reflexivity | exact IH].
Qed.

(** X3.  A successful call of the session service writes the
    refresh-token hash of one identity and nothing else: the table keeps
    its rows in place, a row of another id is unchanged, and a row of the
    identity differs from the old one in the hash column at most.  The
    identity is the one found by email for [signIn], and [id] for
    [refreshTokens] and [signOut]. *)
Theorem X3_session_calls_write_only_the_hash :
  forall (P : Platform) (config : Config) (env : Env)
         (db db' : Repository.table),
    (forall dto tokens,
        AuthService.signIn config env dto db = (Returned tokens, db') ->
        exists u,
          Repository.findOne (Repository.whereEmail (CreateAuthDto.email dto)) db
          = Some u
          /\ Forall2 (sameButHash (Profile.id u)) db db')
    /\ (forall id rt tokens,
           AuthService.refreshTokens config env id rt db = (Returned tokens, db') ->
           Forall2 (sameButHash id) db db')
    /\ (forall id message,
           AuthService.signOut id db = (Returned message, db') ->
           Forall2 (sameButHash id) db db').
Proof.
  intros P config env db db'. split; [|split].
  - intros dto tokens H. apply signIn_returned_inv in H.
    destruct H as [u [Hfind [_ [_ Hdb]]]]. exists u. split; [exact Hfind|].
    subst db'. apply update_sameButHash.
  - intros id rt tokens H. apply refresh_returned_inv in H.
    destruct H as [u [stored [Hfind [_ [_ [_ [_ Hdb]]]]]]].
    rewrite (findOne_whereId _ _ _ Hfind) in Hdb. subst db'.
    apply update_sameButHash.
  - intros id message H. apply signOut_returned_inv in H. subst db'.
    apply update_sameButHash.
Qed.

(** The administrator's row is the same before and after the student
    signs in. *)
Lemma X3_session_calls_write_only_the_hash_witness :
  Forall2 (sameButHash 1) Sample.db
          (snd (AuthService.signIn (P := Symbolic.platform) Sample.config
                  (Sample.env 1000 "e1") (CreateAuthDto.mk "a@x.com" "pw123")
                  Sample.db)).
Proof.
  destruct (proj1 (X3_session_calls_write_only_the_hash Symbolic.platform
                     Sample.config (Sample.env 1000 "e1") Sample.db
                     (snd (AuthService.signIn (P := Symbolic.platform) Sample.config
                             (Sample.env 1000 "e1")
                             (CreateAuthDto.mk "a@x.com" "pw123") Sample.db)))
                  (CreateAuthDto.mk "a@x.com" "pw123")
                  (mkTokens (Sample.accessTokenOf Sample.student 1000)
                            (Sample.refreshTokenOf Sample.student 1000))
                  eq_refl) as [u [Hu H]].
  injection Hu as Hu. subst u. exact H.
Defined.

(** ** The first 72 bytes of a token *)

Lemma length_append (s1 s2 : string) :
  String.length (s1 ++ s2) = (String.length s1 + String.length s2)%nat.
Proof. induction s1 as [|c s1 IH]; simpl; [reflexivity | now rewrite IH]. Qed.

Lemma append_assoc (a b c : string) : (a ++ b) ++ c = a ++ (b ++ c).
Proof. induction a as [|x a IH]; simpl; [reflexivity | now rewrite IH]. Qed.

Lemma substring_drop (n : nat) (s : string) : substring 0 n s ++ drop n s = s.
Proof.
  revert s. induction n as [|n IH]; intros s; [now destruct s|].
  destruct s as [|c s]; simpl; [reflexivity | now rewrite IH].
Qed.

Lemma substring_length (n : nat) (s : string) :
  (n <= String.length s)%nat -> String.length (substring 0 n s) = n.
Proof.
  revert s. induction n as [|n IH]; intros s H; [now destruct s|].
  destruct s as [|c s]; simpl in *; [lia|]. rewrite IH; lia.
Qed.

Lemma substring_append (n : nat) (x y : string) :
  (n <= String.length x)%nat -> substring 0 n (x ++ y) = substring 0 n x.
Proof.
  revert x. induction n as [|n IH]; intros x H.
  - now destruct x, y.
  - destruct x as [|c x]; simpl in *; [lia|]. rewrite IH; [reflexivity | lia].
Qed.

Lemma base64url_append (k : nat) (p r : string) :
  String.length p = (3 * k)%nat ->
  Jose.base64url (p ++ r) = Jose.base64url p ++ Jose.base64url r.
Proof.
  revert p. induction k as [|k IH]; intros p H.
  - destruct p; [reflexivity | discriminate].
  - destruct p as [|a [|b [|c p]]]; simpl in H; try lia.
    cbn [append Jose.base64url]. rewrite IH by lia.
    symmetry. apply append_assoc.
Qed.

Lemma base64url_length (k : nat) (p : string) :
  String.length p = (3 * k)%nat ->
  String.length (Jose.base64url p) = (4 * k)%nat.
Proof.
  revert p. induction k as [|k IH]; intros p H.
  - destruct p; [reflexivity | discriminate].
  - destruct p as [|a [|b [|c p]]]; simpl in H; try lia.
    cbn [Jose.base64url]. rewrite length_append, (IH p) by lia.
    change (String.length (Jose.group3 a b c)) with 4%nat. lia.
Qed.

Lemma claims_length (payload : JWTPayload.t) :
  (27 <= String.length (Jose.claims payload))%nat.
Proof.
  unfold Jose.claims, Jose.key, Jose.text. rewrite !length_append.
  simpl String.length. lia.
Qed.

Lemma lead_length (payload : JWTPayload.t) :
  String.length (Jose.lead payload) = 73%nat.
Proof.
  unfold Jose.lead. rewrite !length_append.
  rewrite (base64url_length 9 (substring 0 27 (Jose.claims payload)))
    by (apply substring_length, claims_length).
  reflexivity.
Qed.

(** A token starts with the lead of its claims, whatever the key, the
    lifetime and the time of issue. *)
Lemma signAsync_lead (payload : JWTPayload.t) (secret expiresIn : string) (now : Z) :
  exists rest,
    Jose.signAsync payload secret expiresIn now = Jose.lead payload ++ rest.
Proof.
  unfold Jose.signAsync, Jose.lead. cbv zeta.
  set (st := Jose.stamps _ _).
  pose proof (substring_drop 27 (Jose.claims payload)) as Hsplit.
  set (p := substring 0 27 (Jose.claims payload)) in *.
  set (q := drop 27 (Jose.claims payload)) in *.
  assert (Hp : String.length p = (3 * 9)%nat)
    by (apply substring_length, claims_length).
  rewrite <- Hsplit, (append_assoc p q st), (base64url_append 9 p (q ++ st) Hp).
  eexists. rewrite !append_assoc. reflexivity.
Qed.

Lemma jose_jwt_layout : JwtLayout Jose.platform.
Proof.
  split. intros payload secret secret' expiresIn expiresIn' now now'. simpl.
  destruct (signAsync_lead payload secret expiresIn now) as [r ->].
  destruct (signAsync_lead payload secret' expiresIn' now') as [r' ->].
  unfold bytes72.
  rewrite !substring_append by (rewrite lead_length; lia). reflexivity.
Defined.

Lemma jose_bcrypt_reads72 : BcryptReads72 Jose.platform.
Proof.
  split.
  - intros data data' salt. simpl.
    unfold Jose.Bcrypt_compare, Jose.Bcrypt_hash.
    rewrite symbolic_drop_take_pad.
    destruct salt; reflexivity.
  - intros data salt. simpl. unfold Jose.Bcrypt_hash.
    destruct salt; discriminate.
Defined.

Section Superseded.
Context {P : Platform} (jwt : JwtLayout P) (reads : BcryptReads72 P).
Context (config : Config).

(** While the row of an identity holds the hash of a token signed for
    its claims, [refreshTokens] accepts every token signed for these
    claims, whatever its key, lifetime and time of issue. *)
Lemma refresh_accepts_any_token_of_the_claims (env : Env) (id : Z) (u : Profile.t)
      (db : Repository.table) (secret secret' expiresIn expiresIn' salt : string)
      (now now' : Z) :
  let payload := JWTPayload.mk (Profile.id u) (Profile.email u)
                               (Role_value (Profile.role u)) in
  Repository.findOne (Repository.whereId id) db = Some u ->
  Profile.hashedRefreshToken u
  = Some (Bcrypt_hash (signAsync payload secret' expiresIn' now') salt) ->
  AuthService.refreshTokens config env id (signAsync payload secret expiresIn now) db
  = (Returned (AuthService.getTokens config env (Profile.id u) (Profile.email u)
                 (Role_value (Profile.role u))),
     Repository.update (Profile.id u)
       (Profile.set_hashedRefreshToken
          (Some (AuthService.hashData env
                   (refreshToken
                      (AuthService.getTokens config env (Profile.id u)
                         (Profile.email u) (Role_value (Profile.role u)))))))
       db).
Proof.
  intros payload Hfind Hhash.
  apply (refresh_success config env id _ _ db u Hfind Hhash).
  - apply Bcrypt_hash_is_nonempty.
  - rewrite Bcrypt_compare_bytes72.
    rewrite (signAsync_bytes72 payload secret secret' expiresIn expiresIn' now now').
    apply String.eqb_refl.
Qed.
End Superseded.

(** X4.  A refresh token that has been replaced stays valid.  Let bcrypt
    read the first 72 bytes of its data, and let the first 72 bytes of a
    token be fixed by its claims, as the compact form of a JWT has it.
    After a [signIn] for the row [u], which its own id finds, the refresh
    token it returned is accepted by [refreshTokens] (1) after a second
    [signIn] with the same credentials, (2) after a [refreshTokens] that
    replaced it, and (3) the access token returned with it is accepted by
    [refreshTokens] in its place. *)
Theorem X4_replaced_refresh_token_is_still_accepted :
  forall (P : Platform) (jwt : JwtLayout P) (reads : BcryptReads72 P)
         (config : Config) (env1 env2 env3 : Env) (dto : CreateAuthDto.t)
         (db db1 : Repository.table) (u : Profile.t) (t1 : Tokens),
    Repository.findOne (Repository.whereEmail (CreateAuthDto.email dto)) db = Some u ->
    Repository.findOne (Repository.whereId (Profile.id u)) db = Some u ->
    AuthService.signIn config env1 dto db = (Returned t1, db1) ->
    (forall t2 db2,
        AuthService.signIn config env2 dto db1 = (Returned t2, db2) ->
        exists t3 db3,
          AuthService.refreshTokens config env3 (Profile.id u) (refreshToken t1) db2
          = (Returned t3, db3))
    /\ (forall t2 db2,
           AuthService.refreshTokens config env2 (Profile.id u) (refreshToken t1) db1
           = (Returned t2, db2) ->
           exists t3 db3,
             AuthService.refreshTokens config env3 (Profile.id u) (refreshToken t1) db2
             = (Returned t3, db3))
    /\ (exists t3 db3,
           AuthService.refreshTokens config env3 (Profile.id u) (accessToken t1) db1
           = (Returned t3, db3)).
Proof.
  intros P jwt reads config env1 env2 env3 dto db db1 u t1 Hemail Hid H1.
  apply signIn_returned_inv in H1. destruct H1 as [u0 [Hfind [_ [Ht1 Hdb1]]]].
  rewrite Hemail in Hfind. injection Hfind as <-.
  set (hash1 := AuthService.hashData env1 (refreshToken t1)) in *.
  set (u1 := Profile.set_hashedRefreshToken (Some hash1) u).
  assert (Hrow1 : Repository.findOne (Repository.whereId (Profile.id u)) db1 = Some u1).
  { rewrite Hdb1. now apply stored_hash_after_issue. }
  assert (Hafter : forall t2 db2 env,
             t2 = AuthService.getTokens config env (Profile.id u) (Profile.email u)
                    (Role_value (Profile.role u)) ->
             db2 = Repository.update (Profile.id u)
                     (Profile.set_hashedRefreshToken
                        (Some (AuthService.hashData env (refreshToken t2)))) db1 ->
             exists t3 db3,
               AuthService.refreshTokens config env3 (Profile.id u) (refreshToken t1) db2
               = (Returned t3, db3)).
  { intros t2 db2 env Ht2 Hdb2. do 2 eexists.
    rewrite Ht1. cbn [AuthService.getTokens refreshToken].
    apply (refresh_accepts_any_token_of_the_claims jwt reads config env3
             (Profile.id u)
             (Profile.set_hashedRefreshToken
                (Some (AuthService.hashData env (refreshToken t2))) u1)
             db2 _ (JWT_REFRESH_TOKEN_SECRET config) _
             (JWT_REFRESH_TOKEN_EXPIRATION_TIME config)
             (Bcrypt_genSalt 10 (entropy env)) _ (clock env)).
    - rewrite Hdb2. now apply stored_hash_after_issue.
    - rewrite Ht2. reflexivity. }
  split; [|split].
  - intros t2 db2 H2. apply signIn_returned_inv in H2.
    destruct H2 as [u' [Hfind' [_ [Ht2 Hdb2]]]].
    rewrite Hdb1, findOne_email_update in Hfind' by reflexivity.
    rewrite Hemail in Hfind'. simpl in Hfind'.
    unfold Repository.whereId in Hfind'. rewrite Z.eqb_refl in Hfind'.
    injection Hfind' as <-. now apply (Hafter t2 db2 env2).
  - intros t2 db2 H2. apply refresh_returned_inv in H2.
    destruct H2 as [u' [stored [Hfind' [_ [_ [_ [Ht2 Hdb2]]]]]]].
    rewrite Hrow1 in Hfind'. injection Hfind' as <-.
    now apply (Hafter t2 db2 env2).
  - do 2 eexists. rewrite Ht1. cbn [AuthService.getTokens accessToken].
    apply (refresh_accepts_any_token_of_the_claims jwt reads config env3
             (Profile.id u) u1 db1 _ (JWT_REFRESH_TOKEN_SECRET config) _
             (JWT_REFRESH_TOKEN_EXPIRATION_TIME config)
             (Bcrypt_genSalt 10 (entropy env1)) _ (clock env1)).
    + exact Hrow1.
    + unfold u1, hash1. rewrite Ht1. reflexivity.
Qed.

(** The student signs in at second 1000 and again at second 1060; the
    refresh token of the first sign-in is presented at second 1070. *)
Lemma X4_replaced_refresh_token_is_still_accepted_witness :
  let P := Jose.platform in
  let dto := CreateAuthDto.mk "a@x.com" "pw123" in
  let db1 := snd (AuthService.signIn Jose.config (Sample.env 1000 "e1") dto
                    Sample.db) in
  let db2 := snd (AuthService.signIn Jose.config (Sample.env 1060 "e2") dto db1) in
  exists t3 db3,
    AuthService.refreshTokens Jose.config (Sample.env 1070 "e3") 1
      (Jose.refreshTokenOf Sample.student 1000) db2
    = (Returned t3, db3).
Proof.
  intros P dto db1 db2.
  destruct (X4_replaced_refresh_token_is_still_accepted Jose.platform
              jose_jwt_layout jose_bcrypt_reads72 Jose.config
              (Sample.env 1000 "e1") (Sample.env 1060 "e2") (Sample.env 1070 "e3")
              dto Sample.db db1 Sample.student
              (mkTokens (Jose.accessTokenOf Sample.student 1000)
                        (Jose.refreshTokenOf Sample.student 1000))
              eq_refl eq_refl eq_refl) as [H _].
  apply (H (mkTokens (Jose.accessTokenOf Sample.student 1060)
                     (Jose.refreshTokenOf Sample.student 1060)) db2).
  reflexivity.
Defined.

(** X5.  A session call for one identity does not reach the session of
    another: after [signOut], [refreshTokens] or [signIn] for the identity
    [id], with any outcome, the row found for a different id is the row
    found before, and every [refreshTokens] for that other id has the
    outcome it would have had before. *)
Theorem X5_other_sessions_untouched :
  forall (P : Platform) (config : Config) (env : Env) (db db' : Repository.table)
         (id other : Z),
    other <> id ->
    db' = snd (AuthService.signOut id db)
    \/ (exists rt, db' = snd (AuthService.refreshTokens config env id rt db))
    \/ (exists dto u,
           Repository.findOne (Repository.whereEmail (CreateAuthDto.email dto)) db
           = Some u
           /\ Profile.id u = id
           /\ db' = snd (AuthService.signIn config env dto db)) ->
    Repository.findOne (Repository.whereId other) db'
    = Repository.findOne (Repository.whereId other) db
    /\ (forall env' rt',
           fst (AuthService.refreshTokens config env' other rt' db')
           = fst (AuthService.refreshTokens config env' other rt' db)).
Proof.
  intros P config env db db' id other Hne H.
  assert (Hrow : Repository.findOne (Repository.whereId other) db'
                 = Repository.findOne (Repository.whereId other) db).
  { destruct H as [H|[[rt H]|[dto [u [Hfind [Hid H]]]]]]; subst db'.
    - rewrite signOut_table. now apply findOne_update_other.
    - destruct (refresh_table config env id rt db) as [E|[v E]]; rewrite E;
        [reflexivity | now apply findOne_update_other].
    - destruct (signIn_table config env dto db) as [E|[u' [v [Hfind' E]]]];
        rewrite E; [reflexivity|].
      rewrite Hfind in Hfind'. injection Hfind' as Hu. subst u'.
      rewrite Hid. now apply findOne_update_other. }
  split; [exact Hrow|].
  intros env' rt'. now apply refresh_outcome_of_row.
Qed.

(** The administrator's session survives the student's sign-out. *)
Lemma X5_other_sessions_untouched_witness :
  let P := Symbolic.platform in
  let db := snd (AuthService.signIn Sample.config (Sample.env 1000 "e1")
                   (CreateAuthDto.mk "b@x.com" "root") Sample.db) in
  let db' := snd (AuthService.signOut 1 db) in
  fst (AuthService.refreshTokens Sample.config (Sample.env 1001 "e2") 2
         (Sample.refreshTokenOf Sample.admin 1000) db')
  = fst (AuthService.refreshTokens Sample.config (Sample.env 1001 "e2") 2
           (Sample.refreshTokenOf Sample.admin 1000) db).
Proof.
  intros P db db'.
  apply (X5_other_sessions_untouched Symbolic.platform Sample.config
           (Sample.env 1000 "e0") db db' 1 2).
  - discriminate.
  - left. reflexivity.
Defined.

(* ================================================================== *)
(** * Further properties of the guards *)
(* ================================================================== *)

Section MoreGuardFacts.
Context {P : Platform} (config : Config) (now : Z).

Lemma AuthGuard_table (s : Strategy) (context : ExecutionContext)
      (db : Repository.table) :
  snd (AuthGuard now s context db) = db.
Proof.
  unfold AuthGuard.
  destruct (fromAuthHeaderAsBearerToken _) as [token|]; [|reflexivity].
  destruct (verify _ now token) as [payload|]; [|reflexivity].
  destruct (validate s _ payload); reflexivity.
Qed.

Lemma AtGuard_table (context : ExecutionContext) (db : Repository.table) :
  snd (AtGuard config now context db) = db.
Proof.
  unfold AtGuard.
  destruct (getAllAndOverride isPublic _) as [[|]|];
    [reflexivity | apply AuthGuard_table | apply AuthGuard_table].
Qed.

Lemma RolesGuard_table (context : ExecutionContext) (db : Repository.table) :
  snd (RolesGuard.guard context db) = db.
Proof.
  unfold RolesGuard.guard, RolesGuard.canActivate, bind, repo_findOne.
  destruct (getAllAndOverride roles _); [|reflexivity].
  destruct (user (getRequest context)); [|reflexivity].
  destruct (Repository.findOne _ db); reflexivity.
Qed.

Lemma runGuards_table (guards : list Guard) :
  Forall (fun g : Guard => forall c db, snd (g c db) = db) guards ->
  forall context db, snd (runGuards guards context db) = db.
Proof.
  induction 1 as [|g gs Hg _ IH]; intros context db; [reflexivity|].
  simpl. unfold bind at 1. specialize (Hg context db).
  destruct (g context db) as [[[b c]|e] db1]; simpl in Hg; subst db1.
  - simpl. destruct b; [apply IH | reflexivity].
  - reflexivity.
Qed.

(** The guard chain of a protected handler under
    [@UseGuards(AtGuard, RolesGuard)], for any request. *)
Lemma roleGuarded_protected (env : Env) (handler_ class_ : Metadata)
      (req : Request) (db : Repository.table) :
  clock env = now ->
  getAllAndOverride isPublic [handler_; class_] <> Some true ->
  App.roleGuarded config env handler_ class_ req db
  = match fromAuthHeaderAsBearerToken (authorization req) with
    | None => (Thrown (UnauthorizedException "Unauthorized"), db)
    | Some token =>
        match verify (JWT_ACCESS_TOKEN_SECRET config) now token with
        | None => (Thrown (UnauthorizedException "Unauthorized"), db)
        | Some payload =>
            let context :=
              mkContext handler_ class_
                        (mkRequest (authorization req) (Some (User.mk payload None))) in
            verdict context (RolesGuard.canActivate context db)
        end
    end.
Proof.
  intros Hclock Hpub.
  unfold App.roleGuarded, App.enter, App.globalGuards. rewrite Hclock. simpl.
  unfold bind at 1. rewrite AtGuard_protected by exact Hpub.
  unfold AuthGuard at 1. cbn [getRequest authorization getHandler getClass].
  destruct (fromAuthHeaderAsBearerToken (authorization req)) as [token|] eqn:He;
    [|reflexivity].
  cbn [AtStrategy secretOrKey validate].
  destruct (verify (JWT_ACCESS_TOKEN_SECRET config) now token) as [payload|] eqn:Hv;
    [|reflexivity].
  cbn [ret fst snd].
  unfold bind at 1. rewrite AtGuard_protected by exact Hpub.
  unfold AuthGuard at 1. cbn [getRequest authorization getHandler getClass].
  rewrite He. cbn [AtStrategy secretOrKey validate]. rewrite Hv.
  cbn [ret fst snd].
  unfold bind at 1, RolesGuard.guard, bind.
  destruct (RolesGuard.canActivate _ db) as [[[|]|e] db']; reflexivity.
Qed.
End MoreGuardFacts.

(** X6.  The guards only read.  For every handler whose [@UseGuards]
    names guards among [AtGuard], [RtGuard] and [RolesGuard], entering the
    handler through the global guard and these leaves the profile table
    as it was, whether the request is admitted, refused or thrown out. *)
Theorem X6_guards_never_write :
  forall (P : Platform) (config : Config) (env : Env) (handler_ class_ : Metadata)
         (useGuards : list Guard) (req : Request) (db : Repository.table),
    Forall (fun g : Guard =>
              g = AtGuard config (clock env)
              \/ g = RtGuard config (clock env)
              \/ g = RolesGuard.guard) useGuards ->
    snd (App.enter config env handler_ class_ useGuards req db) = db.
Proof.
  intros P config env handler_ class_ useGuards req db H.
  unfold App.enter, App.globalGuards. apply runGuards_table.
  constructor; [intros c d; apply AtGuard_table|].
  eapply Forall_impl; [|exact H].
  intros g [ -> | [ -> | -> ] ] c d.
  - apply AtGuard_table.
  - apply AuthGuard_table.
  - apply RolesGuard_table.
Qed.

Lemma X6_guards_never_write_witness :
  snd (App.roleGuarded (P := Symbolic.platform) Sample.config (Sample.env 1500 "e")
         (Roles [ADMIN] noMetadata) noMetadata
         (bearer (Sample.accessTokenOf Sample.student 1000)) Sample.db)
  = Sample.db.
Proof.
  apply (X6_guards_never_write Symbolic.platform Sample.config (Sample.env 1500 "e")
           (Roles [ADMIN] noMetadata) noMetadata
           [AtGuard Sample.config 1500; RolesGuard.guard]).
  constructor; [left; reflexivity|].
  constructor; [right; right; reflexivity|].
  constructor.
Defined.

(** X7.  Authentication comes before authorization.  On a handler that
    is not public, under [@UseGuards(AtGuard, RolesGuard)], a request
    whose header yields no token, or a token that does not verify under
    the access secret, is answered with UnauthorizedException
    'Unauthorized', whatever roles the handler requires and whatever the
    table holds. *)
Theorem X7_unauthenticated_before_forbidden :
  forall (P : Platform) (config : Config) (env : Env) (handler_ class_ : Metadata)
         (req : Request) (db : Repository.table),
    getAllAndOverride isPublic [handler_; class_] <> Some true ->
    match fromAuthHeaderAsBearerToken (authorization req) with
    | None => True
    | Some token =>
        verify (JWT_ACCESS_TOKEN_SECRET config) (clock env) token = None
    end ->
    App.roleGuarded config env handler_ class_ req db
    = (Thrown (UnauthorizedException "Unauthorized"), db).
Proof.
  intros P config env handler_ class_ req db Hpub Hrej.
  rewrite (roleGuarded_protected config (clock env) env) by (reflexivity || exact Hpub).
  destruct (fromAuthHeaderAsBearerToken (authorization req)) as [token|];
    [now rewrite Hrej | reflexivity].
Qed.

(** A token of the student that expired at second 1900, on a handler the
    student's role would admit. *)
Lemma X7_unauthenticated_before_forbidden_witness :
  App.roleGuarded (P := Symbolic.platform) Sample.config (Sample.env 2000 "e")
    (Roles [STUDENT] noMetadata) noMetadata
    (bearer (Sample.accessTokenOf Sample.student 1000)) Sample.db
  = (Thrown (UnauthorizedException "Unauthorized"), Sample.db).
Proof.
  apply (X7_unauthenticated_before_forbidden Symbolic.platform Sample.config
           (Sample.env 2000 "e") (Roles [STUDENT] noMetadata) noMetadata).
  - simpl. discriminate.
  - reflexivity.
Defined.

(** X8.  Reaching a role-restricted handler is sound.  When a handler
    that is not public and requires the roles [requiredRoles] is entered,
    the request carried a token that verifies under the access secret,
    the user attached to the request is the payload of that token, and
    the profile row of the token's subject exists with a role among
    [requiredRoles]. *)
Theorem X8_entering_a_role_guarded_handler_is_sound :
  forall (P : Platform) (config : Config) (env : Env) (handler_ class_ : Metadata)
         (requiredRoles : list Role) (req : Request) (db db' : Repository.table)
         (context : ExecutionContext),
    getAllAndOverride isPublic [handler_; class_] <> Some true ->
    getAllAndOverride roles [handler_; class_] = Some requiredRoles ->
    App.roleGuarded config env handler_ class_ req db = (Returned context, db') ->
    exists token payload profile,
      fromAuthHeaderAsBearerToken (authorization req) = Some token
      /\ verify (JWT_ACCESS_TOKEN_SECRET config) (clock env) token = Some payload
      /\ user (getRequest context) = Some (User.mk payload None)
      /\ Repository.findOne (Repository.whereId (JWTPayload.sub payload)) db
         = Some profile
      /\ In (Profile.role profile) requiredRoles.
Proof.
  intros P config env handler_ class_ requiredRoles req db db' context
         Hpub Hroles H.
  rewrite (roleGuarded_protected config (clock env) env) in H
    by (reflexivity || exact Hpub).
  destruct (fromAuthHeaderAsBearerToken (authorization req)) as [token|];
    [|discriminate].
  destruct (verify (JWT_ACCESS_TOKEN_SECRET config) (clock env) token)
    as [payload|] eqn:Hv; [|discriminate].
  cbv zeta in H.
  destruct (Repository.findOne (Repository.whereId (JWTPayload.sub payload)) db)
    as [profile|] eqn:Hfind.
  - rewrite (canActivate_profile
               (mkContext handler_ class_
                  (mkRequest (authorization req) (Some (User.mk payload None))))
               db requiredRoles (User.mk payload None) profile
               Hroles eq_refl Hfind) in H.
    simpl in H.
    destruct (existsb (fun role => Role_eqb (Profile.role profile) role)
                      requiredRoles) eqn:E; [|discriminate].
    injection H as Hc _. subst context.
    exists token, payload, profile.
    split; [reflexivity|]. split; [exact Hv|]. split; [reflexivity|].
    split; [exact Hfind|]. now apply existsb_Role_In.
  - rewrite (canActivate_no_profile
               (mkContext handler_ class_
                  (mkRequest (authorization req) (Some (User.mk payload None))))
               db requiredRoles (User.mk payload None)
               Hroles eq_refl Hfind) in H.
    discriminate.
Qed.

Lemma X8_entering_a_role_guarded_handler_is_sound_witness :
  exists token payload profile,
    Symbolic.fromAuthHeaderAsBearerToken
      (Some ("Bearer " ++ Sample.accessTokenOf Sample.admin 1000)) = Some token
    /\ Symbolic.verify "access-key" 1500 token = Some payload
    /\ Some (User.mk (JWTPayload.mk 2 "b@x.com" "admin") None)
       = Some (User.mk payload None)
    /\ Repository.findOne (Repository.whereId (JWTPayload.sub payload)) Sample.db
       = Some profile
    /\ In (Profile.role profile) [ADMIN].
Proof.
  apply (X8_entering_a_role_guarded_handler_is_sound Symbolic.platform Sample.config
           (Sample.env 1500 "e") (Roles [ADMIN] noMetadata) noMetadata [ADMIN]
           (bearer (Sample.accessTokenOf Sample.admin 1000)) Sample.db Sample.db
           (mkContext (Roles [ADMIN] noMetadata) noMetadata
              (mkRequest (Some ("Bearer " ++ Sample.accessTokenOf Sample.admin 1000))
                         (Some (User.mk (JWTPayload.mk 2 "b@x.com" "admin") None))))).
  - simpl. discriminate.
  - reflexivity.
  - reflexivity.
Defined.

(** X9.  [@Public()] together with [@Roles(...)] shuts a handler.  On a
    handler of a controller under [@UseGuards(AtGuard, RolesGuard)] that
    is public and also declares required roles, [AtGuard] steps aside
    without attaching a user, so [RolesGuard] refuses: every incoming
    request, with whatever header, is answered with ForbiddenException
    'Forbidden resource'. *)
Theorem X9_public_with_roles_denies_everyone :
  forall (P : Platform) (config : Config) (env : Env) (handler_ class_ : Metadata)
         (requiredRoles : list Role) (header : option string)
         (db : Repository.table),
    getAllAndOverride isPublic [handler_; class_] = Some true ->
    getAllAndOverride roles [handler_; class_] = Some requiredRoles ->
    App.roleGuarded config env handler_ class_ (mkRequest header None) db
    = (Thrown (ForbiddenException "Forbidden resource"), db).
Proof.
  intros P config env handler_ class_ requiredRoles header db Hpub Hroles.
  rewrite roleGuarded_public by exact Hpub.
  rewrite (canActivate_no_user
             (mkContext handler_ class_ (mkRequest header None)) db requiredRoles
             Hroles eq_refl).
  reflexivity.
Qed.

(** The administrator, with a valid token, on a public handler that also
    names the administrator role. *)
Lemma X9_public_with_roles_denies_everyone_witness :
  App.roleGuarded (P := Symbolic.platform) Sample.config (Sample.env 1500 "e")
    (Public (Roles [ADMIN] noMetadata)) noMetadata
    (bearer (Sample.accessTokenOf Sample.admin 1000)) Sample.db
  = (Thrown (ForbiddenException "Forbidden resource"), Sample.db).
Proof.
  apply (X9_public_with_roles_denies_everyone Symbolic.platform Sample.config
           (Sample.env 1500 "e") (Public (Roles [ADMIN] noMetadata)) noMetadata
           [ADMIN]); reflexivity.
Defined.

(** ** The routes of the auth controller *)



Section AuthRoutes.
Context {P : Platform} (config : Config) (env : Env).


Lemma signin_route (req : Request) (body : CreateAuthDto.t) (db : Repository.table) :
  App.POST_auth_signin config env req body db
  = AuthService.signIn config env body db.
Proof.
  unfold App.POST_auth_signin, App.enter, App.globalGuards. simpl.
  unfold bind at 1. unfold bind at 1.
  rewrite AtGuard_public by reflexivity. reflexivity.
Qed.

Lemma signout_route_rejected (req : Request) (id : Z) (db : Repository.table) :
  match fromAuthHeaderAsBearerToken (authorization req) with
  | None => True
  | Some token => verify (JWT_ACCESS_TOKEN_SECRET config) (clock env) token = None
  end ->
  App.GET_auth_signout config env req id db
  = (Thrown (UnauthorizedException "Unauthorized"), db).
Proof.
  intros Hrej.
  unfold App.GET_auth_signout, App.enter, App.globalGuards. simpl.
  unfold bind at 1. unfold bind at 1.
  rewrite AtGuard_protected by (simpl; discriminate).
  now rewrite AuthGuard_rejects.
Qed.
End AuthRoutes.



(** X11.  Of the two session routes that take no refresh token, sign-in
    needs no credential and sign-out needs one.  POST /auth/signin answers
    as [signIn] does for every request, whatever header it carries; GET
    /auth/signout/:id without a token that verifies under the access
    secret is answered with UnauthorizedException and [signOut] is not
    run: the table, and with it every stored hash, stays as it was. *)
Theorem X11_sign_in_is_open_and_sign_out_is_not :
  forall (P : Platform) (config : Config) (env : Env) (req : Request)
         (db : Repository.table),
    (forall body,
        App.POST_auth_signin config env req body db
        = AuthService.signIn config env body db)
    /\ (forall id,
           match fromAuthHeaderAsBearerToken (authorization req) with
           | None => True
           | Some token =>
               verify (JWT_ACCESS_TOKEN_SECRET config) (clock env) token = None
           end ->
           App.GET_auth_signout config env req id db
           = (Thrown (UnauthorizedException "Unauthorized"), db)).
Proof.
  intros P config env req db. split.
  - intros body. apply signin_route.
  - intros id. apply signout_route_rejected.
Qed.

(** A refresh token presented to the sign-out route. *)
Lemma X11_sign_in_is_open_and_sign_out_is_not_witness :
  App.GET_auth_signout (P := Symbolic.platform) Sample.config (Sample.env 1500 "e")
    (bearer (Sample.refreshTokenOf Sample.student 1000)) 1 Sample.db
  = (Thrown (UnauthorizedException "Unauthorized"), Sample.db).
Proof.
  apply (proj2 (X11_sign_in_is_open_and_sign_out_is_not Symbolic.platform Sample.config
                  (Sample.env 1500 "e")
                  (bearer (Sample.refreshTokenOf Sample.student 1000)) Sample.db)).
  reflexivity.
Defined.

(* ================================================================== *)
(** * The controllers under the guards *)
(* ================================================================== *)

Section RouteVerdict.
Context {P : Platform} (config : Config) (env : Env).

(** With a token that verifies and a profile row for its subject, the
    chain admits a request exactly when the handler's list admits the
    stored role; a handler with no list admits it. *)
Lemma enterRoute_verdict (r : Route) (header token : string)
      (payload : JWTPayload.t) (p : Profile.t) (db : Repository.table) :
  roles (handler r) = None \/ isPublic (handler r) <> Some true ->
  fromAuthHeaderAsBearerToken (Some header) = Some token ->
  verify (JWT_ACCESS_TOKEN_SECRET config) (clock env) token = Some payload ->
  Repository.findOne (Repository.whereId (JWTPayload.sub payload)) db = Some p ->
  allowed (enterRoute config env r (mkRequest (Some header) None) db)
  = Controllers.admits r (Profile.role p).
Proof.
  intros Hshape He Hv Hfind. unfold enterRoute, Controllers.admits,
    Controllers.requiredRoles.
  destruct (getAllAndOverride isPublic [handler r; noMetadata]) as [[|]|] eqn:Hpub.
  - destruct Hshape as [Hr|Hp];
      [|simpl in Hpub; destruct (isPublic (handler r)) as [[|]|];
        congruence].
    rewrite roleGuarded_public by exact Hpub.
    rewrite canActivate_unset by (simpl; now rewrite Hr).
    simpl. now rewrite Hr.
  - rewrite (roleGuarded_authenticated config env (handler r) noMetadata header
               token payload db) by (congruence || assumption).
    destruct (getAllAndOverride roles [handler r; noMetadata]) as [rs|] eqn:Hr.
    + rewrite (canActivate_profile
                 (mkContext (handler r) noMetadata
                    (mkRequest (Some header) (Some (User.mk payload None))))
                 db rs (User.mk payload None) p Hr eq_refl Hfind).
      simpl. now destruct (existsb _ rs).
    + now rewrite canActivate_unset by exact Hr.
  - rewrite (roleGuarded_authenticated config env (handler r) noMetadata header
               token payload db) by (congruence || assumption).
    destruct (getAllAndOverride roles [handler r; noMetadata]) as [rs|] eqn:Hr.
    + rewrite (canActivate_profile
                 (mkContext (handler r) noMetadata
                    (mkRequest (Some header) (Some (User.mk payload None))))
                 db rs (User.mk payload None) p Hr eq_refl Hfind).
      simpl. now destruct (existsb _ rs).
    + now rewrite canActivate_unset by exact Hr.
Qed.
End RouteVerdict.

(** Every handler of the five controllers is either public with no role
    list, or not public. *)
Lemma routes_shape (r : Route) :
  In r Controllers.all ->
  roles (handler r) = None \/ isPublic (handler r) <> Some true.
Proof.
  unfold Controllers.all, Controllers.courses, Controllers.departments,
    Controllers.students, Controllers.lecturer, Controllers.profiles.
  simpl. intros H.
  repeat (destruct H as [H|H]; [subst r; simpl; (now left) || (right; discriminate)|]).
  contradiction.
Qed.

Lemma routes_nested (r : Route) :
  In r Controllers.all ->
  Controllers.admits r ADMIN = true
  /\ (Controllers.admits r STUDENT = true -> Controllers.admits r FACULTY = true)
  /\ (Controllers.admits r GUEST = true -> isPublic (handler r) = Some true)
  /\ (verb r = Delete -> path r = ":id" ->
      forall role, Controllers.admits r role = true -> role = ADMIN).
Proof.
  unfold Controllers.all, Controllers.courses, Controllers.departments,
    Controllers.students, Controllers.lecturer, Controllers.profiles.
  simpl. intros H.
  repeat (destruct H as [H|H];
          [subst r; cbn; repeat split; try reflexivity; try discriminate;
           intros; try discriminate;
           match goal with
           | role : Role |- _ = ADMIN => destruct role; try reflexivity; discriminate
           | _ => idtac
           end|]).
  contradiction.
Qed.

(** X12.  The access table of the courses, departments, students,
    lecturer and profiles controllers.  For every handler of these
    controllers and every request whose token verifies and whose subject
    has a profile row, the request is admitted exactly when the handler's
    role list admits the stored role.  Across all these handlers the
    lists are nested: an administrator is admitted everywhere, faculty
    wherever a student is, a guest only by the public handlers, and a
    handler that deletes by [:id] admits administrators only. *)
Theorem X12_access_table_of_the_controllers :
  forall (P : Platform) (config : Config) (env : Env) (db : Repository.table)
         (r : Route) (header token : string) (payload : JWTPayload.t)
         (p : Profile.t),
    In r Controllers.all ->
    fromAuthHeaderAsBearerToken (Some header) = Some token ->
    verify (JWT_ACCESS_TOKEN_SECRET config) (clock env) token = Some payload ->
    Repository.findOne (Repository.whereId (JWTPayload.sub payload)) db = Some p ->
    allowed (enterRoute config env r (mkRequest (Some header) None) db)
    = Controllers.admits r (Profile.role p)
    /\ Controllers.admits r ADMIN = true
    /\ (Controllers.admits r STUDENT = true -> Controllers.admits r FACULTY = true)
    /\ (Controllers.admits r GUEST = true -> isPublic (handler r) = Some true)
    /\ (verb r = Delete -> path r = ":id" ->
        forall role, Controllers.admits r role = true -> role = ADMIN).
Proof.
  intros P config env db r header token payload p Hin He Hv Hfind. split.
  - apply (enterRoute_verdict config env r header token payload p db);
      try assumption. now apply routes_shape.
  - now apply routes_nested.
Qed.

(** The student asks for the list of all students, which the students
    controller keeps for administrators and faculty. *)
Lemma X12_access_table_of_the_controllers_witness :
  allowed (enterRoute (P := Symbolic.platform) Sample.config (Sample.env 1500 "e")
             (Controllers.route "students" Get "" [ADMIN; FACULTY])
             (bearer (Sample.accessTokenOf Sample.student 1000)) Sample.db)
  = false.
Proof.
  destruct (X12_access_table_of_the_controllers Symbolic.platform Sample.config
              (Sample.env 1500 "e") Sample.db
              (Controllers.route "students" Get "" [ADMIN; FACULTY])
              ("Bearer " ++ Sample.accessTokenOf Sample.student 1000)
              (Sample.accessTokenOf Sample.student 1000)
              (JWTPayload.mk 1 "a@x.com" "student") Sample.student) as [H _].
  - unfold Controllers.all. apply in_or_app. right. apply in_or_app. right.
    apply in_or_app. left. simpl. right. left. reflexivity.
  - reflexivity.
  - reflexivity.
  - reflexivity.
  - exact H.
Defined.

(* ================================================================== *)
(** * The profiles service *)
(* ================================================================== *)

Lemma findOne_insert_fresh (w : Profile.t -> bool) (db : Repository.table)
      (p : Profile.t) :
  Repository.findOne w db = None ->
  Repository.findOne w (Repository.insert p db) = if w p then Some p else None.
Proof.
  unfold Repository.findOne, Repository.insert.
  induction db as [|q db IH]; simpl; [reflexivity|].
  destruct (w q); [discriminate | exact IH].
Qed.

Lemma findOne_insert_found (w : Profile.t -> bool) (db : Repository.table)
      (p u : Profile.t) :
  Repository.findOne w db = Some u ->
  Repository.findOne w (Repository.insert p db) = Some u.
Proof.
  unfold Repository.findOne, Repository.insert.
  induction db as [|q db IH]; simpl; [discriminate|].
  destruct (w q); [tauto | exact IH].
Qed.

Lemma findOne_delete_same (i : Z) (db : Repository.table) :
  Repository.findOne (Repository.whereId i) (Repository.delete i db) = None.
Proof.
  unfold Repository.findOne, Repository.delete.
  induction db as [|p db IH]; simpl; [reflexivity|].
  destruct (Repository.whereId i p) eqn:E; simpl; [exact IH|].
  now rewrite E.
Qed.

Lemma findOne_delete_other (i j : Z) (db : Repository.table) :
  j <> i ->
  Repository.findOne (Repository.whereId j) (Repository.delete i db)
  = Repository.findOne (Repository.whereId j) db.
Proof.
  intros Hne. unfold Repository.findOne, Repository.delete.
  induction db as [|p db IH]; simpl; [reflexivity|].
  destruct (Repository.whereId i p) eqn:Ei; simpl.
  - destruct (Repository.whereId j p) eqn:Ej; [|exact IH].
    apply whereId_true in Ei. apply whereId_true in Ej. congruence.
  - destruct (Repository.whereId j p); [reflexivity | exact IH].
Qed.

Lemma delete_absent (i : Z) (db : Repository.table) :
  Repository.findOne (Repository.whereId i) db = None ->
  Repository.delete i db = db.
Proof.
  unfold Repository.findOne, Repository.delete.
  induction db as [|p db IH]; simpl; [reflexivity|].
  destruct (Repository.whereId i p); [discriminate|].
  simpl. intros H. now rewrite IH.
Qed.

Section ProfilesPaths.
Context {P : Platform} (env : Env).

Lemma create_duplicate (generatedId : Z) (dto : CreateProfileDto.t)
      (db : Repository.table) (u : Profile.t) :
  Repository.findOne (Repository.whereEmail (CreateProfileDto.email dto)) db = Some u ->
  ProfilesService.create env generatedId dto db
  = (Thrown (InternalServerError
               ("Profile with email " ++ CreateProfileDto.email dto
                                      ++ " already exists")), db).
Proof.
  intros H. unfold ProfilesService.create, bind, repo_findOne. now rewrite H.
Qed.

Lemma Role_of_value_value (role : Role) : Role_of_value (Role_value role) = Some role.
Proof. now destruct role. Qed.

Lemma create_fresh (generatedId : Z) (dto : CreateProfileDto.t) (role : Role)
      (db : Repository.table) :
  Repository.findOne (Repository.whereEmail (CreateProfileDto.email dto)) db = None ->
  CreateProfileDto.role dto = Some role ->
  let row := Profile.mk generatedId (CreateProfileDto.firstName dto)
                        (CreateProfileDto.lastName dto) (CreateProfileDto.email dto)
                        (ProfilesService.hashData env (CreateProfileDto.password dto))
                        role None in
  ProfilesService.create env generatedId dto db
  = (Returned (ProfilesService.excludePassword row), Repository.insert row db).
Proof.
  intros H Hr.
  unfold ProfilesService.create, bind, catch, repo_findOne, repo_save.
  rewrite H, Hr. cbn [NewProfile.role]. now rewrite Role_of_value_value.
Qed.

Lemma create_without_role (generatedId : Z) (dto : CreateProfileDto.t)
      (db : Repository.table) :
  Repository.findOne (Repository.whereEmail (CreateProfileDto.email dto)) db = None ->
  CreateProfileDto.role dto = None ->
  ProfilesService.create env generatedId dto db
  = (Thrown (InternalServerError "Failed to create profile"), db).
Proof.
  intros H Hr.
  unfold ProfilesService.create, bind, catch, repo_findOne, repo_save.
  now rewrite H, Hr.
Qed.

Lemma patch_empty (dto : UpdateProfileDto.t) (p : Profile.t) :
  UpdateProfileDto.isEmpty dto = true -> ProfilesService.patch dto p = p.
Proof.
  destruct dto as [[f|] [l|] [e|] [w|] [r|]]; try discriminate.
  intros _. now destruct p.
Qed.

Lemma update_identity (i : Z) (f : Profile.t -> Profile.t) (db : Repository.table) :
  (forall p, f p = p) -> Repository.update i f db = db.
Proof.
  intros Hf. unfold Repository.update.
  induction db as [|p db IH]; simpl; [reflexivity|].
  rewrite IH, Hf. now destruct (Repository.whereId i p).
Qed.

(** The dto that reaches the repository: the one given, with a non-empty
    password replaced by its hash. *)
Lemma update_table (id : Z) (dto : UpdateProfileDto.t) (db : Repository.table) :
  exists dto',
    snd (ProfilesService.update env id dto db)
    = Repository.update id (ProfilesService.patch dto') db
    /\ UpdateProfileDto.email dto' = UpdateProfileDto.email dto
    /\ UpdateProfileDto.role dto' = UpdateProfileDto.role dto
    /\ UpdateProfileDto.password dto'
       = match UpdateProfileDto.password dto with
         | Some pw => if String.eqb pw EmptyString then Some pw
                      else Some (ProfilesService.hashData env pw)
         | None => None
         end.
Proof.
  assert (Hgen : forall d,
             snd ((ProfilesService.repo_update_dto id d ;;; ProfilesService.findOne id)
                    db)
             = Repository.update id (ProfilesService.patch d) db).
  { intros d.
    unfold ProfilesService.repo_update_dto, ProfilesService.findOne, bind,
      repo_update, repo_findOne, throw.
    destruct (UpdateProfileDto.isEmpty d) eqn:Hd.
    - simpl. symmetry. apply update_identity. intros p. now apply patch_empty.
    - destruct (Repository.findOne _ _); reflexivity. }
  unfold ProfilesService.update.
  destruct (UpdateProfileDto.password dto) as [pw|] eqn:Hpw.
  - destruct (String.eqb pw EmptyString) eqn:Hempty.
    + exists dto. rewrite Hgen, Hpw. repeat split; reflexivity.
    + eexists (UpdateProfileDto.mk _ _ _ _ _). rewrite Hgen.
      repeat split; reflexivity.
  - exists dto. rewrite Hgen, Hpw. repeat split; reflexivity.
Qed.

Lemma isEmpty_hashed (dto : UpdateProfileDto.t) :
  UpdateProfileDto.isEmpty
    match UpdateProfileDto.password dto with
    | Some pw =>
        if String.eqb pw EmptyString then dto
        else UpdateProfileDto.mk (UpdateProfileDto.firstName dto)
                                 (UpdateProfileDto.lastName dto)
                                 (UpdateProfileDto.email dto)
                                 (Some (ProfilesService.hashData env pw))
                                 (UpdateProfileDto.role dto)
    | None => dto
    end
  = UpdateProfileDto.isEmpty dto.
Proof.
  destruct dto as [f l e [w|] r]; simpl; [|reflexivity].
  destruct (String.eqb w EmptyString); [reflexivity|].
  simpl. now destruct f, l, e.
Qed.

Lemma update_empty (id : Z) (dto : UpdateProfileDto.t) (db : Repository.table) :
  UpdateProfileDto.isEmpty dto = true ->
  ProfilesService.update env id dto db
  = (Thrown (InternalServerError "UpdateValuesMissingError"), db).
Proof.
  destruct dto as [[f|] [l|] [e|] [w|] [r|]]; try discriminate.
  intros _. reflexivity.
Qed.

Lemma update_outcome (id : Z) (dto : UpdateProfileDto.t) (db : Repository.table) :
  fst (ProfilesService.update env id dto db)
  = if UpdateProfileDto.isEmpty dto
    then Thrown (InternalServerError "UpdateValuesMissingError")
    else match Repository.findOne (Repository.whereId id)
                 (snd (ProfilesService.update env id dto db)) with
         | Some p => Returned p
         | None =>
             Thrown (NotFoundException ("Profile with id " ++ show id ++ " not found"))
         end.
Proof.
  unfold ProfilesService.update.
  rewrite <- (isEmpty_hashed dto).
  set (d := match UpdateProfileDto.password dto with
            | Some pw => _
            | None => dto
            end).
  unfold ProfilesService.repo_update_dto, ProfilesService.findOne, bind,
    repo_update, repo_findOne, throw.
  destruct (UpdateProfileDto.isEmpty d); [reflexivity|].
  simpl.
  match goal with
  | |- context [Repository.findOne ?w ?t] =>
      destruct (Repository.findOne w t) eqn:E; simpl; rewrite E; reflexivity
  end.
Qed.
End ProfilesPaths.

Lemma patch_keeps_id (dto : UpdateProfileDto.t) (p : Profile.t) :
  Profile.id (ProfilesService.patch dto p) = Profile.id p.
Proof. reflexivity. Qed.

Lemma patch_keeps_hash (dto : UpdateProfileDto.t) (p : Profile.t) :
  Profile.hashedRefreshToken (ProfilesService.patch dto p)
  = Profile.hashedRefreshToken p.
Proof. reflexivity. Qed.

(** X13.  What a registration needs.  [create] for an email that a row
    already has throws the plain error `Profile with email <email>
    already exists` and writes nothing.  For a new email and a body
    without a role it throws the plain error 'Failed to create profile'
    and writes nothing: the role written is the string 'GUEST', which the
    enum column refuses.  For a new email and a body with a role it adds
    exactly one row, after the others: the row carries the generated id
    and that role, no session, and as password the bcrypt hash of the one
    given, and the answer has the password and the refresh-token hash
    removed.  A plain error is answered with status 500. *)
Theorem X13_create_needs_a_new_email_and_a_role :
  forall (P : Platform) (env : Env) (generatedId : Z) (dto : CreateProfileDto.t)
         (db : Repository.table),
    (forall u,
        Repository.findOne (Repository.whereEmail (CreateProfileDto.email dto)) db
        = Some u ->
        ProfilesService.create env generatedId dto db
        = (Thrown (InternalServerError
                     ("Profile with email " ++ CreateProfileDto.email dto
                                            ++ " already exists")), db))
    /\ (Repository.findOne (Repository.whereEmail (CreateProfileDto.email dto)) db
        = None ->
        CreateProfileDto.role dto = None ->
        ProfilesService.create env generatedId dto db
        = (Thrown (InternalServerError "Failed to create profile"), db))
    /\ (forall role,
           Repository.findOne (Repository.whereEmail (CreateProfileDto.email dto)) db
           = None ->
           CreateProfileDto.role dto = Some role ->
           exists row answer,
             ProfilesService.create env generatedId dto db
             = (Returned answer, (db ++ [row])%list)
             /\ Profile.id row = generatedId
             /\ Profile.email row = CreateProfileDto.email dto
             /\ Profile.role row = role
             /\ Profile.hashedRefreshToken row = None
             /\ Profile.password row
                = Bcrypt_hash (CreateProfileDto.password dto)
                              (Bcrypt_genSalt 10 (entropy env))
             /\ PartialProfile.password answer = None
             /\ PartialProfile.hashedRefreshToken answer = None
             /\ PartialProfile.id answer = Some generatedId)
    /\ getStatus (InternalServerError "Failed to create profile") = 500.
Proof.
  intros P env generatedId dto db. split; [|split; [|split]].
  - intros u H. now apply create_duplicate with (u := u).
  - intros H Hr. now apply create_without_role.
  - intros role H Hr. do 2 eexists. split.
    + exact (create_fresh env generatedId dto role db H Hr).
    + repeat split.
  - reflexivity.
Qed.

(** A registration with a new email and no role. *)
Lemma X13_create_needs_a_new_email_and_a_role_witness :
  ProfilesService.create (P := Jose.platform) (Sample.env 1000 "e1") 3
    (CreateProfileDto.mk "Eve" "Other" "e@x.com" "secret" None) Sample.db
  = (Thrown (InternalServerError "Failed to create profile"), Sample.db).
Proof.
  destruct (X13_create_needs_a_new_email_and_a_role Jose.platform
              (Sample.env 1000 "e1") 3
              (CreateProfileDto.mk "Eve" "Other" "e@x.com" "secret" None)
              Sample.db) as [_ [H _]].
  apply H; reflexivity.
Defined.

(** X14.  Registration and sign-in fit together, up to the 72 bytes that
    bcrypt reads.  After [create] for a new email with a role, [signIn]
    with that email succeeds for the password given, and for every
    password that agrees with it on the first 72 bytes, and its tokens
    are issued for the generated id, the email and the role; [signIn]
    with a password that differs from it within the first 72 bytes throws
    NotFoundException 'Invalid credentials'. *)
Theorem X14_create_then_sign_in :
  forall (P : Platform) (reads : BcryptReads72 P) (config : Config)
         (env env' : Env) (generatedId : Z) (dto : CreateProfileDto.t)
         (role : Role) (db : Repository.table),
    Repository.findOne (Repository.whereEmail (CreateProfileDto.email dto)) db
    = None ->
    CreateProfileDto.role dto = Some role ->
    let db1 := snd (ProfilesService.create env generatedId dto db) in
    (forall password,
        bytes72 password = bytes72 (CreateProfileDto.password dto) ->
        exists db2,
          AuthService.signIn config env'
            (CreateAuthDto.mk (CreateProfileDto.email dto) password) db1
          = (Returned (AuthService.getTokens config env' generatedId
                         (CreateProfileDto.email dto) (Role_value role)), db2))
    /\ (forall other,
           bytes72 other <> bytes72 (CreateProfileDto.password dto) ->
           AuthService.signIn config env'
             (CreateAuthDto.mk (CreateProfileDto.email dto) other) db1
           = (Thrown (NotFoundException "Invalid credentials"), db1)).
Proof.
  intros P reads config env env' generatedId dto role db Hfresh Hrole db1.
  pose (row := Profile.mk generatedId (CreateProfileDto.firstName dto)
                 (CreateProfileDto.lastName dto) (CreateProfileDto.email dto)
                 (ProfilesService.hashData env (CreateProfileDto.password dto))
                 role None).
  assert (Hdb1 : db1 = Repository.insert row db).
  { unfold db1. now rewrite (create_fresh env generatedId dto role db Hfresh Hrole). }
  assert (Hfind : Repository.findOne
                    (Repository.whereEmail (CreateProfileDto.email dto)) db1
                  = Some row).
  { rewrite Hdb1, findOne_insert_fresh by exact Hfresh.
    unfold Repository.whereEmail, row. simpl. now rewrite String.eqb_refl. }
  split.
  - intros password Hsame. eexists.
    apply (signIn_success config env'
             (CreateAuthDto.mk (CreateProfileDto.email dto) password) db1 row Hfind).
    simpl. unfold ProfilesService.hashData. rewrite Bcrypt_compare_bytes72.
    now apply String.eqb_eq.
  - intros other Hne.
    apply (signIn_wrong_password config env'
             (CreateAuthDto.mk (CreateProfileDto.email dto) other) db1 row Hfind).
    simpl. unfold ProfilesService.hashData. rewrite Bcrypt_compare_bytes72.
    now apply String.eqb_neq.
Qed.

(** A lecturer registers and signs in. *)
Lemma X14_create_then_sign_in_witness :
  let P := Jose.platform in
  let dto := CreateProfileDto.mk "Cy" "Teacher" "c@x.com" "chalk" (Some FACULTY) in
  let db1 := snd (ProfilesService.create (Sample.env 900 "e0") 3 dto Sample.db) in
  exists db2,
    AuthService.signIn Jose.config (Sample.env 1000 "e1")
                       (CreateAuthDto.mk "c@x.com" "chalk") db1
    = (Returned (AuthService.getTokens Jose.config (Sample.env 1000 "e1") 3
                   "c@x.com" "faculty"), db2).
Proof.
  intros P dto db1.
  apply (proj1 (X14_create_then_sign_in Jose.platform jose_bcrypt_reads72
                  Jose.config (Sample.env 900 "e0") (Sample.env 1000 "e1") 3 dto
                  FACULTY Sample.db eq_refl eq_refl) "chalk").
  reflexivity.
Defined.



(** X15.  A password written through [update] is the one [signIn] asks
    for afterwards, up to the 72 bytes that bcrypt reads.  After [update]
    of the identity found for an email, with a dto that sets a non-empty
    password and leaves the email alone, [signIn] with that email
    succeeds for every password that agrees with the new one on the first
    72 bytes, the new one itself included, and throws NotFoundException
    'Invalid credentials' for every password that differs from the new
    one within the first 72 bytes. *)
Theorem X15_password_change_takes_effect :
  forall (P : Platform) (reads : BcryptReads72 P) (config : Config)
         (env env' : Env) (db : Repository.table) (dto : UpdateProfileDto.t)
         (pw e : string) (u : Profile.t),
    UpdateProfileDto.password dto = Some pw ->
    pw <> EmptyString ->
    UpdateProfileDto.email dto = None ->
    Repository.findOne (Repository.whereEmail e) db = Some u ->
    let db1 := snd (ProfilesService.update env (Profile.id u) dto db) in
    (forall password,
        bytes72 password = bytes72 pw ->
        exists tokens db2,
          AuthService.signIn config env' (CreateAuthDto.mk e password) db1
          = (Returned tokens, db2))
    /\ (forall other,
           bytes72 other <> bytes72 pw ->
           AuthService.signIn config env' (CreateAuthDto.mk e other) db1
           = (Thrown (NotFoundException "Invalid credentials"), db1)).
Proof.
  intros P reads config env env' db dto pw e u Hpw Hne Hemail Hfind db1.
  destruct (update_table env (Profile.id u) dto db)
    as [dto' [Hdb1 [Hemail' [_ Hpw']]]].
  fold db1 in Hdb1. rewrite Hpw in Hpw'.
  apply String.eqb_neq in Hne. rewrite Hne in Hpw'. rewrite Hemail in Hemail'.
  assert (Hfind1 : Repository.findOne (Repository.whereEmail e) db1
                   = Some (ProfilesService.patch dto' u)).
  { rewrite Hdb1, findOne_email_update.
    - rewrite Hfind. simpl. unfold Repository.whereId. now rewrite Z.eqb_refl.
    - intros p. unfold ProfilesService.patch. simpl. now rewrite Hemail'. }
  assert (Hstored : Profile.password (ProfilesService.patch dto' u)
                    = ProfilesService.hashData env pw).
  { unfold ProfilesService.patch. simpl. now rewrite Hpw'. }
  split.
  - intros password Hsame. do 2 eexists.
    apply (signIn_success config env' (CreateAuthDto.mk e password) db1 _ Hfind1).
    cbn [CreateAuthDto.password]. rewrite Hstored. unfold ProfilesService.hashData.
    rewrite Bcrypt_compare_bytes72. now apply String.eqb_eq.
  - intros other Hother.
    apply (signIn_wrong_password config env' (CreateAuthDto.mk e other) db1 _ Hfind1).
    cbn [CreateAuthDto.password]. rewrite Hstored. unfold ProfilesService.hashData.
    rewrite Bcrypt_compare_bytes72. now apply String.eqb_neq.
Qed.

(** The student changes the password; the old one no longer signs in. *)
Lemma X15_password_change_takes_effect_witness :
  let P := Jose.platform in
  let db1 := snd (ProfilesService.update (Sample.env 1000 "e1") 1
                    (UpdateProfileDto.mk None None None (Some "fresh") None)
                    Sample.db) in
  AuthService.signIn Jose.config (Sample.env 1100 "e2")
                     (CreateAuthDto.mk "a@x.com" "pw123") db1
  = (Thrown (NotFoundException "Invalid credentials"), db1).
Proof.
  intros P db1.
  apply (proj2 (X15_password_change_takes_effect Jose.platform
                  jose_bcrypt_reads72 Jose.config (Sample.env 1000 "e1")
                  (Sample.env 1100 "e2") Sample.db
                  (UpdateProfileDto.mk None None None (Some "fresh") None)
                  "fresh" "a@x.com" Sample.student eq_refl
                  ltac:(discriminate) eq_refl eq_refl)).
  vm_compute. discriminate.
Defined.



(** X17.  What the profiles service shows of the secrets.  The list
    answered by [findAll] has one entry per matching row, each without
    password and without refresh-token hash, and the table is not
    touched; the profile answered by [update] is the stored row itself,
    password hash and refresh-token hash included. *)
Theorem X17_secrets_in_the_answers :
  forall (P : Platform) (env : Env) (db : Repository.table),
    (forall email,
        exists answers,
          ProfilesService.findAll email db = (Returned answers, db)
          /\ Forall (fun a => PartialProfile.password a = None
                              /\ PartialProfile.hashedRefreshToken a = None)
                    answers
          /\ (email = None -> List.length answers = List.length db))
    /\ (forall id dto p db',
           ProfilesService.update env id dto db = (Returned p, db') ->
           Repository.findOne (Repository.whereId id) db' = Some p
           /\ In p db').
Proof.
  intros P env db. split.
  - intros email.
    assert (Hall : forall l : list Profile.t,
               Forall (fun a => PartialProfile.password a = None
                                /\ PartialProfile.hashedRefreshToken a = None)
                      (map ProfilesService.excludePassword l)).
    { induction l; constructor; [split; reflexivity | assumption]. }
    unfold ProfilesService.findAll, bind, repo_find, ret.
    destruct email as [e|]; [destruct (String.eqb e EmptyString)|];
      eexists; (split; [reflexivity|]); (split; [apply Hall|]);
      try discriminate.
    intros _. rewrite length_map. unfold Repository.findAll.
    clear. induction db; simpl; congruence.
  - intros id dto p db' H.
    pose proof (update_outcome env id dto db) as Ho. rewrite H in Ho.
    simpl in Ho.
    destruct (UpdateProfileDto.isEmpty dto); [discriminate|].
    destruct (Repository.findOne (Repository.whereId id) db') as [q|] eqn:E;
      [|discriminate].
    injection Ho as Hq. subst q. split; [reflexivity|].
    unfold Repository.findOne in E. now apply find_some in E.
Qed.

(** The answer to a change of the student's first name carries the stored
    password hash. *)
Lemma X17_secrets_in_the_answers_witness :
  let P := Symbolic.platform in
  let r := ProfilesService.update (Sample.env 1000 "e1") 1
             (UpdateProfileDto.mk (Some "Adah") None None None None) Sample.db in
  Repository.findOne (Repository.whereId 1) (snd r)
  = Some (Profile.mk 1 "Adah" "Student" "a@x.com" "saltsaltpw123" STUDENT None).
Proof.
  intros P r.
  apply (proj2 (X17_secrets_in_the_answers Symbolic.platform (Sample.env 1000 "e1")
                  Sample.db) 1
               (UpdateProfileDto.mk (Some "Adah") None None None None)
               (Profile.mk 1 "Adah" "Student" "a@x.com" "saltsaltpw123" STUDENT None)
               (snd r)).
  reflexivity.
Defined.

Lemma remove_unreferenced (lecturerProfiles : list Z) (id : Z)
      (db : Repository.table) :
  ~ In id lecturerProfiles ->
  ProfilesService.remove lecturerProfiles id db
  = (Returned (if Nat.eqb (Repository.affected id db) 0
               then "No profile found with id " ++ show id
               else "Profile with id " ++ show id ++ " has been removed"),
     Repository.delete id db).
Proof.
  intros Hfree.
  assert (E : existsb (Z.eqb id) lecturerProfiles = false).
  { destruct (existsb (Z.eqb id) lecturerProfiles) eqn:E; [|reflexivity].
    rewrite existsb_exists in E. destruct E as [x [Hx E]].
    apply Z.eqb_eq in E. subst x. contradiction. }
  unfold ProfilesService.remove, catch, bind, repo_delete. rewrite E.
  rewrite Bool.andb_false_r.
  destruct (Nat.eqb (Repository.affected id db) 0); reflexivity.
Qed.

Lemma remove_referenced (lecturerProfiles : list Z) (id : Z)
      (db : Repository.table) (u : Profile.t) :
  Repository.findOne (Repository.whereId id) db = Some u ->
  In id lecturerProfiles ->
  ProfilesService.remove lecturerProfiles id db
  = (Thrown (InternalServerError ("Failed to remove profile with id " ++ show id)),
     db).
Proof.
  intros Hfind Hin.
  assert (E : existsb (Z.eqb id) lecturerProfiles = true).
  { rewrite existsb_exists. exists id. split; [exact Hin | apply Z.eqb_refl]. }
  unfold ProfilesService.remove, catch, bind, repo_delete.
  now rewrite E, (affected_some _ _ _ Hfind).
Qed.

Lemma remove_absent (lecturerProfiles : list Z) (id : Z) (db : Repository.table) :
  Repository.findOne (Repository.whereId id) db = None ->
  ProfilesService.remove lecturerProfiles id db
  = (Returned ("No profile found with id " ++ show id), db).
Proof.
  intros Hnone. unfold ProfilesService.remove, catch, bind, repo_delete.
  now rewrite (affected_none _ _ Hnone), (delete_absent _ _ Hnone).
Qed.

(** X18.  Removing a profile.  While a lecturer row refers to the
    profile, [remove] throws the plain error `Failed to remove profile
    with id <id>` and the row stays.  When no lecturer row refers to it,
    [remove] returns; afterwards no row has the id and the rows of every
    other id are found as before, and from then on the roles guard
    refuses the removed subject on every handler that requires roles,
    whatever role its token claims, and [refreshTokens] and [signOut] for
    the id throw NotFoundException. *)
Theorem X18_removed_profile_is_locked_out :
  forall (P : Platform) (config : Config) (env : Env) (db : Repository.table)
         (lecturerProfiles : list Z) (id : Z),
    (forall u,
        Repository.findOne (Repository.whereId id) db = Some u ->
        In id lecturerProfiles ->
        ProfilesService.remove lecturerProfiles id db
        = (Thrown (InternalServerError
                     ("Failed to remove profile with id " ++ show id)), db))
    /\ (~ In id lecturerProfiles ->
        let db' := snd (ProfilesService.remove lecturerProfiles id db) in
        (exists message,
            fst (ProfilesService.remove lecturerProfiles id db) = Returned message)
        /\ Repository.findOne (Repository.whereId id) db' = None
        /\ (forall other, other <> id ->
              Repository.findOne (Repository.whereId other) db'
              = Repository.findOne (Repository.whereId other) db)
        /\ (forall context requiredRoles u,
               getAllAndOverride roles [getHandler context; getClass context]
               = Some requiredRoles ->
               user (getRequest context) = Some u ->
               User.sub u = id ->
               RolesGuard.canActivate context db' = (Returned false, db'))
        /\ (forall rt,
               AuthService.refreshTokens config env id rt db'
               = (Thrown (NotFoundException
                            ("User with ID " ++ show id ++ " not found")), db'))
        /\ AuthService.signOut id db'
           = (Thrown (NotFoundException ("User with ID " ++ show id ++ " not found")),
              db')).
Proof.
  intros P config env db lecturerProfiles id. split.
  - intros u Hfind Hin. now apply remove_referenced with (u := u).
  - intros Hfree db'.
    assert (Hdb' : db' = Repository.delete id db).
    { unfold db'. now rewrite remove_unreferenced. }
    assert (Hgone : Repository.findOne (Repository.whereId id) db' = None).
    { rewrite Hdb'. apply findOne_delete_same. }
    split; [|split; [|split; [|split; [|split]]]].
    + rewrite remove_unreferenced by exact Hfree. eexists. reflexivity.
    + exact Hgone.
    + intros other Hne. rewrite Hdb'. now apply findOne_delete_other.
    + intros context requiredRoles u Hroles Hu Hsub.
      eapply canActivate_no_profile; try eassumption. now rewrite Hsub.
    + intros rt. now apply refresh_absent.
    + now apply signOut_absent.
Qed.

(** The administrator is removed and then presents the token on a
    handler for administrators; no lecturer refers to the profile. *)
Lemma X18_removed_profile_is_locked_out_witness :
  let db' := snd (ProfilesService.remove [1] 2 Sample.db) in
  RolesGuard.canActivate
    (mkContext (Roles [ADMIN] noMetadata) noMetadata
               (mkRequest None (Some (Sample.userOf Sample.admin "admin")))) db'
  = (Returned false, db').
Proof.
  intros db'.
  destruct (X18_removed_profile_is_locked_out Jose.platform Jose.config
              (Sample.env 1000 "e1") Sample.db [1] 2) as [_ H].
  destruct H as [_ [_ [_ [H _]]]].
  - simpl. intros [E|[]]. discriminate E.
  - apply (H (mkContext (Roles [ADMIN] noMetadata) noMetadata
                (mkRequest None (Some (Sample.userOf Sample.admin "admin"))))
             [ADMIN] (Sample.userOf Sample.admin "admin")); reflexivity.
Defined.

(** X19.  [update] and [remove] on an id with no row, and [update] with
    nothing to write.  For an id with no row, [update] with a dto that
    sets some property throws NotFoundException `Profile with id <id> not
    found`, while [remove] returns normally with the text `No profile
    found with id <id>`; neither changes the table.  With a dto that sets
    no property, [update] throws an error that is not an HTTP exception
    (status 500) for every id, with or without a row, and writes
    nothing. *)
Theorem X19_missing_profile_update_throws_remove_does_not :
  forall (P : Platform) (env : Env) (db : Repository.table)
         (lecturerProfiles : list Z) (id : Z) (dto : UpdateProfileDto.t),
    (Repository.findOne (Repository.whereId id) db = None ->
     UpdateProfileDto.isEmpty dto = false ->
     ProfilesService.update env id dto db
     = (Thrown (NotFoundException ("Profile with id " ++ show id ++ " not found")),
        db))
    /\ (Repository.findOne (Repository.whereId id) db = None ->
        ProfilesService.remove lecturerProfiles id db
        = (Returned ("No profile found with id " ++ show id), db))
    /\ (UpdateProfileDto.isEmpty dto = true ->
        exists message,
          ProfilesService.update env id dto db
          = (Thrown (InternalServerError message), db)).
Proof.
  intros P env db lecturerProfiles id dto. split; [|split].
  - intros Hnone Hdto.
    destruct (update_table env id dto db) as [dto' [Hdb' _]].
    rewrite (update_absent _ _ _ Hnone) in Hdb'.
    pose proof (update_outcome env id dto db) as Ho.
    rewrite Hdto, Hdb', Hnone in Ho.
    destruct (ProfilesService.update env id dto db) as [o t].
    simpl in Hdb', Ho. now subst.
  - intros Hnone. now apply remove_absent.
  - intros Hdto. eexists. now apply update_empty.
Qed.

Lemma X19_missing_profile_update_throws_remove_does_not_witness :
  ProfilesService.update (P := Jose.platform) (Sample.env 1000 "e1") 7
    (UpdateProfileDto.onlyRole ADMIN) Sample.db
  = (Thrown (NotFoundException "Profile with id 7 not found"), Sample.db).
Proof.
  apply (proj1 (X19_missing_profile_update_throws_remove_does_not Jose.platform
                  (Sample.env 1000 "e1") Sample.db [] 7
                  (UpdateProfileDto.onlyRole ADMIN))); reflexivity.
Defined.

(** X20.  PATCH /profiles/:id checks neither whose profile it is nor
    which fields are written.  A request whose token verifies and whose
    subject has the stored role STUDENT is admitted to that handler; and
    once [update] has written the role ADMIN for that subject, the same
    token is admitted to every handler of the courses, departments,
    students, lecturer and profiles controllers. *)
Theorem X20_student_can_raise_own_role :
  forall (P : Platform) (config : Config) (env env' : Env) (db : Repository.table)
         (header token : string) (payload : JWTPayload.t) (p : Profile.t),
    fromAuthHeaderAsBearerToken (Some header) = Some token ->
    verify (JWT_ACCESS_TOKEN_SECRET config) (clock env) token = Some payload ->
    Repository.findOne (Repository.whereId (JWTPayload.sub payload)) db = Some p ->
    Profile.role p = STUDENT ->
    allowed (enterRoute config env
               (Controllers.route "profiles" Patch ":id" [ADMIN; FACULTY; STUDENT])
               (mkRequest (Some header) None) db) = true
    /\ In (Controllers.route "profiles" Patch ":id" [ADMIN; FACULTY; STUDENT])
          Controllers.profiles
    /\ (let db' := snd (ProfilesService.update env' (JWTPayload.sub payload)
                          (UpdateProfileDto.onlyRole ADMIN) db) in
        forall r, In r Controllers.all ->
                  allowed (enterRoute config env r (mkRequest (Some header) None) db')
                  = true).
Proof.
  intros P config env env' db header token payload p He Hv Hfind Hrole.
  split; [|split].
  - rewrite (enterRoute_verdict config env _ header token payload p db);
      try assumption.
    + now rewrite Hrole.
    + right. simpl. discriminate.
  - simpl. tauto.
  - intros db' r Hin.
    destruct (update_table env' (JWTPayload.sub payload)
                (UpdateProfileDto.onlyRole ADMIN) db) as [dto' [Hdb' [_ [Hr _]]]].
    fold db' in Hdb'.
    assert (Hfind' : Repository.findOne (Repository.whereId (JWTPayload.sub payload))
                       db' = Some (ProfilesService.patch dto' p)).
    { rewrite Hdb', findOne_update by reflexivity. now rewrite Hfind. }
    rewrite (enterRoute_verdict config env r header token payload _ db'
               (routes_shape r Hin) He Hv Hfind').
    unfold ProfilesService.patch. simpl. rewrite Hr. simpl.
    now apply routes_nested.
Qed.

(** The student deletes a course after the promotion. *)
Lemma X20_student_can_raise_own_role_witness :
  let P := Symbolic.platform in
  let db' := snd (ProfilesService.update (Sample.env 1400 "e0") 1
                    (UpdateProfileDto.onlyRole ADMIN) Sample.db) in
  allowed (enterRoute Sample.config (Sample.env 1500 "e1")
             (Controllers.route "courses" Delete ":id" [ADMIN])
             (bearer (Sample.accessTokenOf Sample.student 1000)) db')
  = true.
Proof.
  intros P db'.
  destruct (X20_student_can_raise_own_role Symbolic.platform Sample.config
              (Sample.env 1500 "e1") (Sample.env 1400 "e0") Sample.db
              ("Bearer " ++ Sample.accessTokenOf Sample.student 1000)
              (Sample.accessTokenOf Sample.student 1000)
              (JWTPayload.mk 1 "a@x.com" "student") Sample.student
              eq_refl eq_refl eq_refl eq_refl) as [_ [_ H]].
  apply H. unfold Controllers.all. apply in_or_app. left.
  simpl. do 4 right. left. reflexivity.
Defined.

(* ================================================================== *)
(** * The students service and the enrolments *)
(* ================================================================== *)


Lemma existsb_Zeqb_In (x : Z) (l : list Z) :
  existsb (Z.eqb x) l = true <-> In x l.
Proof.
  rewrite existsb_exists. split.
  - intros [y [Hy E]]. apply Z.eqb_eq in E. now subst.
  - intros H. exists x. split; [exact H | apply Z.eqb_refl].
Qed.

Lemma In_loadCourses (c : Course.t) (sid : Z) (a : Academy) :
  In c (Academic.loadCourses sid a)
  <-> In c (courses a) /\ In (sid, Course.id c) (student_courses a).
Proof.
  unfold Academic.loadCourses. rewrite in_flat_map. split.
  - intros [[s x] [Hjc Hc]]. simpl in Hc.
    destruct (Z.eqb s sid) eqn:E; [|contradiction].
    apply Z.eqb_eq in E. subst s.
    apply filter_In in Hc. destruct Hc as [Hc Hx].
    apply Z.eqb_eq in Hx. subst x. now split.
  - intros [Hc Hjc]. exists (sid, Course.id c). split; [exact Hjc|].
    simpl. rewrite Z.eqb_refl. apply filter_In. split; [exact Hc|].
    apply Z.eqb_refl.
Qed.

Lemma In_syncJoin (s x sid : Z) (ids : list Z) (join : list (Z * Z)) :
  In (s, x) (Academic.syncJoin sid ids join)
  <-> (s <> sid /\ In (s, x) join) \/ (s = sid /\ In x ids).
Proof.
  unfold Academic.syncJoin. rewrite in_app_iff, filter_In, in_map_iff. simpl.
  assert (Hmine : forall y,
             existsb (Z.eqb y)
                     (map snd (filter (fun jc : Z * Z => Z.eqb (fst jc) sid) join))
             = true <-> In (sid, y) join).
  { intros y. rewrite existsb_Zeqb_In, in_map_iff. split.
    - intros [[s' y'] [E H]]. simpl in E. subst y'.
      apply filter_In in H. destruct H as [H Hs]. simpl in Hs.
      apply Z.eqb_eq in Hs. now subst.
    - intros H. exists (sid, y). split; [reflexivity|].
      apply filter_In. split; [exact H | apply Z.eqb_refl]. }
  split.
  - intros [[Hin Hk]|[c [E Hc]]].
    + apply orb_true_iff in Hk. destruct Hk as [Hk|Hk].
      * left. apply negb_true_iff, Z.eqb_neq in Hk. now split.
      * apply existsb_Zeqb_In in Hk.
        destruct (Z.eq_dec s sid) as [->|Hne]; [right | left]; now split.
    + injection E as <- <-. right. split; [reflexivity|].
      apply nodup_In, filter_In in Hc. tauto.
  - intros [[Hne Hin]|[-> Hin]].
    + left. split; [exact Hin|]. apply orb_true_iff. left.
      now apply negb_true_iff, Z.eqb_neq.
    + destruct (existsb (Z.eqb x)
                  (map snd (filter (fun jc : Z * Z => Z.eqb (fst jc) sid) join)))
        eqn:E.
      * left. split; [now apply Hmine|]. apply orb_true_iff. right.
        now apply existsb_Zeqb_In.
      * right. exists x. split; [reflexivity|].
        apply nodup_In, filter_In. split; [exact Hin | now rewrite E].
Qed.

Lemma flat_map_filter_nil {A B : Type} (f : A -> list B) (p : A -> bool)
      (l : list A) :
  (forall x, p x = false -> f x = []) ->
  flat_map f (filter p l) = flat_map f l.
Proof.
  intros H. induction l as [|x l IH]; simpl; [reflexivity|].
  destruct (p x) eqn:E; simpl; rewrite IH; [reflexivity|].
  now rewrite (H x E).
Qed.

Lemma flat_map_all_nil {A B : Type} (f : A -> list B) (l : list A) :
  (forall x, In x l -> f x = []) -> flat_map f l = [].
Proof.
  induction l as [|x l IH]; simpl; intros H; [reflexivity|].
  rewrite (H x (or_introl eq_refl)), IH; [reflexivity|].
  intros y Hy. apply H. now right.
Qed.

Section SavedStudent.
Variable st : Student.t.
Variable a : Academy.
Let sid := Student.id (Student.columns st).
Let a' := snd (Academic.saveStudent st a).

Lemma save_courses : courses a' = courses a.
Proof. reflexivity. Qed.

Lemma In_loadCourses_saved (c : Course.t) :
  In c (Academic.loadCourses sid a')
  <-> In c (courses a) /\ In (Course.id c) (map Course.id (Student.courses st)).
Proof.
  rewrite In_loadCourses. unfold a'. simpl. rewrite In_syncJoin.
  fold sid. split.
  - intros [Hc [[Hne _]|[_ Hin]]]; [contradiction | now split].
  - intros [Hc Hin]. split; [exact Hc|]. right. now split.
Qed.

Lemma loadCourses_saved_other (other : Z) :
  other <> sid ->
  Academic.loadCourses other a' = Academic.loadCourses other a.
Proof.
  intros Hne. unfold Academic.loadCourses, a'. simpl.
  unfold Academic.syncJoin. fold sid. rewrite flat_map_app.
  rewrite flat_map_filter_nil.
  - rewrite (flat_map_all_nil _ (map _ _)); [apply app_nil_r|].
    intros [s x] H. apply in_map_iff in H. destruct H as [y [E _]].
    injection E as <- _. simpl.
    destruct (Z.eqb sid other) eqn:E; [|reflexivity].
    apply Z.eqb_eq in E. congruence.
  - intros [s x] H. simpl in *. apply orb_false_iff in H. destruct H as [H _].
    apply negb_false_iff, Z.eqb_eq in H. subst s.
    destruct (Z.eqb sid other) eqn:E; [|reflexivity].
    apply Z.eqb_eq in E. congruence.
Qed.

Lemma find_student_saved (r : Student.row) :
  find (fun r => Z.eqb (Student.id r) sid) (students a) = Some r ->
  find (fun r => Z.eqb (Student.id r) sid) (students a')
  = Some (Student.columns st).
Proof.
  unfold a'. simpl. fold sid.
  induction (students a) as [|q l IH]; simpl; [discriminate|].
  destruct (Z.eqb (Student.id q) sid) eqn:E.
  - intros _. unfold sid. now rewrite Z.eqb_refl.
  - rewrite E. exact IH.
Qed.
End SavedStudent.

Lemma find_student_id (sid : Z) (l : list Student.row) (r : Student.row) :
  find (fun r => Z.eqb (Student.id r) sid) l = Some r -> Student.id r = sid.
Proof. intros H. apply find_some in H. now apply Z.eqb_eq. Qed.

Lemma find_course_some (cid : Z) (l : list Course.t) (c : Course.t) :
  find (fun c => Z.eqb (Course.id c) cid) l = Some c ->
  In c l /\ Course.id c = cid.
Proof. intros H. apply find_some in H. split; [tauto | now apply Z.eqb_eq]. Qed.

Lemma enrolled_existsb (cid : Z) (l : list Course.t) :
  existsb (fun c => Z.eqb (Course.id c) cid) l = true
  <-> exists c, In c l /\ Course.id c = cid.
Proof.
  rewrite existsb_exists. split; intros [c [H E]]; exists c; split;
    try assumption; now apply Z.eqb_eq.
Qed.

Lemma enroll_eq (sid cid : Z) (a : Academy) :
  StudentsService.enrollStudentInCourse sid cid a
  = match findStudentRow sid a with
    | None =>
        (Thrown (NotFoundException ("Student with ID " ++ show sid ++ " not found")), a)
    | Some r =>
        match findCourseRow cid a with
        | None =>
            (Thrown (NotFoundException ("Course with ID " ++ show cid ++ " not found")),
             a)
        | Some c =>
            let loaded := Academic.loadCourses sid a in
            if existsb (fun e => Z.eqb (Course.id e) cid) loaded
            then (Returned (Student.mk r loaded), a)
            else (Returned (Student.mk r (loaded ++ [c])%list),
                  snd (Academic.saveStudent (Student.mk r (loaded ++ [c])%list) a))
        end
    end.
Proof.
  unfold StudentsService.enrollStudentInCourse, bindTx, Academic.findStudent,
    Academic.findCourse, findStudentRow, findCourseRow.
  destruct (find _ (students a)) as [r|]; simpl; [|reflexivity].
  destruct (find _ (courses a)) as [c|]; simpl; [|reflexivity].
  destruct (existsb _ (Academic.loadCourses sid a)); reflexivity.
Qed.

Lemma unenroll_eq (sid cid : Z) (a : Academy) :
  StudentsService.unenrollStudentFromCourse sid cid a
  = match findStudentRow sid a with
    | None =>
        (Thrown (NotFoundException ("Student with ID " ++ show sid ++ " not found")), a)
    | Some r =>
        let loaded := Academic.loadCourses sid a in
        match loaded with
        | [] =>
            (Thrown (NotFoundException
                       ("Student with ID " ++ show sid
                          ++ " is not enrolled in any courses")), a)
        | _ =>
            let st := Student.mk r (filter (fun c => negb (Z.eqb (Course.id c) cid))
                                           loaded) in
            (Returned st, snd (Academic.saveStudent st a))
        end
    end.
Proof.
  unfold StudentsService.unenrollStudentFromCourse, bindTx, Academic.findStudent,
    findStudentRow.
  destruct (find _ (students a)) as [r|]; simpl; [|reflexivity].
  destruct (Academic.loadCourses sid a); reflexivity.
Qed.

Lemma getStudentCourses_eq (sid : Z) (a : Academy) :
  StudentsService.getStudentCourses sid a
  = match findStudentRow sid a with
    | None =>
        (Thrown (NotFoundException ("Student with ID " ++ show sid ++ " not found")), a)
    | Some r => (Returned (Academic.loadCourses sid a), a)
    end.
Proof.
  unfold StudentsService.getStudentCourses, bindTx, Academic.findStudent,
    findStudentRow.
  destruct (find _ (students a)); reflexivity.
Qed.

(** X21.  Enrolling is checked and idempotent.  [enrollStudentInCourse]
    throws NotFoundException for a student id with no row, and for a
    course id with no row, and then changes nothing.  When it returns,
    the student it answers with lists a course of that id, and a second
    call with the same ids returns as well and leaves the tables exactly
    as the first call left them. *)
Theorem X21_enrolment_is_checked_and_idempotent :
  forall (a : Academy) (sid cid : Z),
    (findStudentRow sid a = None ->
     StudentsService.enrollStudentInCourse sid cid a
     = (Thrown (NotFoundException ("Student with ID " ++ show sid ++ " not found")),
        a))
    /\ (forall r,
           findStudentRow sid a = Some r ->
           findCourseRow cid a = None ->
           StudentsService.enrollStudentInCourse sid cid a
           = (Thrown (NotFoundException
                        ("Course with ID " ++ show cid ++ " not found")), a))
    /\ (forall s1 a1,
           StudentsService.enrollStudentInCourse sid cid a = (Returned s1, a1) ->
           (exists c, In c (Student.courses s1) /\ Course.id c = cid)
           /\ exists s2,
               StudentsService.enrollStudentInCourse sid cid a1 = (Returned s2, a1)).
Proof.
  intros a sid cid. split; [|split].
  - intros H. rewrite enroll_eq. now rewrite H.
  - intros r Hr Hc. rewrite enroll_eq. now rewrite Hr, Hc.
  - intros s1 a1 H. rewrite enroll_eq in H.
    destruct (findStudentRow sid a) as [r|] eqn:Hr; [|discriminate].
    destruct (findCourseRow cid a) as [c|] eqn:Hc; [|discriminate].
    cbv zeta in H.
    destruct (existsb _ (Academic.loadCourses sid a)) eqn:He.
    + injection H as <- <-. split.
      * simpl. now apply enrolled_existsb.
      * eexists. rewrite enroll_eq, Hr, Hc. cbv zeta. rewrite He. reflexivity.
    + set (st := Student.mk r (Academic.loadCourses sid a ++ [c])%list) in H.
      set (a2 := snd (Academic.saveStudent st a)) in H.
      injection H as <- <-.
      destruct (find_course_some _ _ _ Hc) as [Hin Hid].
      split.
      * exists c. split; [|exact Hid]. simpl. apply in_or_app. right. now left.
      * pose proof (find_student_id _ _ _ Hr) as Hsid.
        assert (Hr' : findStudentRow sid a2 = Some r).
        { unfold findStudentRow, a2. rewrite <- Hsid.
          apply (find_student_saved st a r). simpl. now rewrite Hsid. }
        assert (Hload : In c (Academic.loadCourses sid a2)).
        { unfold a2. rewrite <- Hsid.
          apply (In_loadCourses_saved st a c). split; [exact Hin|].
          simpl. rewrite map_app. apply in_or_app. right. now left. }
        eexists. rewrite enroll_eq, Hr'.
        change (findCourseRow cid a2) with (findCourseRow cid a).
        rewrite Hc. cbv zeta.
        replace (existsb (fun e => Z.eqb (Course.id e) cid)
                   (Academic.loadCourses sid a2))
          with true; [reflexivity|].
        symmetry. apply enrolled_existsb. now exists c.
Qed.

Lemma X21_enrolment_is_checked_and_idempotent_witness :
  (exists c, In c [Campus.algebra] /\ Course.id c = 10)
  /\ exists s2,
      StudentsService.enrollStudentInCourse 1 10 Campus.enrolled
      = (Returned s2, Campus.enrolled).
Proof.
  destruct (X21_enrolment_is_checked_and_idempotent Campus.academy 1 10)
    as [_ [_ H]].
  apply (H (Student.mk Campus.ada [Campus.algebra]) Campus.enrolled).
  reflexivity.
Defined.

(** X22.  What an enrolment changes.  After [enrollStudentInCourse] has
    returned, [getStudentCourses] for the student lists a course of the
    given id and every course it listed before; the courses of every
    other student are read exactly as before, and the course table is
    untouched. *)
Theorem X22_enrolment_adds_one_course_for_one_student :
  forall (a a1 : Academy) (sid cid : Z) (s1 : Student.t),
    StudentsService.enrollStudentInCourse sid cid a = (Returned s1, a1) ->
    (exists l,
        StudentsService.getStudentCourses sid a1 = (Returned l, a1)
        /\ (exists c, In c l /\ Course.id c = cid)
        /\ (forall c, In c (Academic.loadCourses sid a) -> In c l))
    /\ (forall other, other <> sid ->
          Academic.loadCourses other a1 = Academic.loadCourses other a)
    /\ courses a1 = courses a.
Proof.
  intros a a1 sid cid s1 H. rewrite enroll_eq in H.
  destruct (findStudentRow sid a) as [r|] eqn:Hr; [|discriminate].
  destruct (findCourseRow cid a) as [c|] eqn:Hc; [|discriminate].
  cbv zeta in H.
  destruct (existsb _ (Academic.loadCourses sid a)) eqn:He.
  - injection H as <- <-. split; [|split; reflexivity].
    exists (Academic.loadCourses sid a). split; [|split].
    + rewrite getStudentCourses_eq. now rewrite Hr.
    + now apply enrolled_existsb.
    + tauto.
  - set (st := Student.mk r (Academic.loadCourses sid a ++ [c])%list) in H.
    set (a2 := snd (Academic.saveStudent st a)) in H.
    injection H as <- <-.
    destruct (find_course_some _ _ _ Hc) as [Hin Hid].
    pose proof (find_student_id _ _ _ Hr) as Hsid.
    assert (Hload : forall x,
               In x (Academic.loadCourses sid a2)
               <-> In x (courses a)
                   /\ In (Course.id x)
                         (map Course.id (Academic.loadCourses sid a ++ [c])%list)).
    { intros x. unfold a2. rewrite <- Hsid at 1.
      apply (In_loadCourses_saved st a x). }
    split; [|split].
    + exists (Academic.loadCourses sid a2). split; [|split].
      * rewrite getStudentCourses_eq.
        replace (findStudentRow sid a2) with (Some r); [reflexivity|].
        symmetry. unfold findStudentRow, a2. rewrite <- Hsid.
        apply (find_student_saved st a r). simpl. now rewrite Hsid.
      * exists c. split; [|exact Hid]. apply Hload. split; [exact Hin|].
        rewrite map_app. apply in_or_app. right. now left.
      * intros x Hx. apply Hload. split.
        -- now apply In_loadCourses in Hx.
        -- rewrite map_app. apply in_or_app. left. now apply in_map.
    + intros other Hne. unfold a2.
      apply (loadCourses_saved_other st a other). simpl. congruence.
    + reflexivity.
Qed.

Lemma X22_enrolment_adds_one_course_for_one_student_witness :
  exists l,
    StudentsService.getStudentCourses 1 Campus.enrolled = (Returned l, Campus.enrolled)
    /\ (exists c, In c l /\ Course.id c = 10)
    /\ (forall c, In c (Academic.loadCourses 1 Campus.academy) -> In c l).
Proof.
  apply (proj1 (X22_enrolment_adds_one_course_for_one_student Campus.academy
                  Campus.enrolled 1 10 (Student.mk Campus.ada [Campus.algebra])
                  eq_refl)).
Defined.

(** X23.  Unenrolling.  For a student with no course at all
    [unenrollStudentFromCourse] throws NotFoundException `... is not
    enrolled in any courses` and changes nothing.  For a student with at
    least one course it returns, whether or not the student is enrolled in
    the course named: afterwards the student's courses are those listed
    before whose id is not the one named, and the courses of every other
    student are read exactly as before. *)
Theorem X23_unenrolment_removes_one_course_or_nothing :
  forall (a : Academy) (sid cid : Z) (r : Student.row),
    findStudentRow sid a = Some r ->
    (Academic.loadCourses sid a = [] ->
     StudentsService.unenrollStudentFromCourse sid cid a
     = (Thrown (NotFoundException
                  ("Student with ID " ++ show sid
                     ++ " is not enrolled in any courses")), a))
    /\ (Academic.loadCourses sid a <> [] ->
        exists s1 a1,
          StudentsService.unenrollStudentFromCourse sid cid a = (Returned s1, a1)
          /\ (forall c,
                 In c (Academic.loadCourses sid a1)
                 <-> In c (Academic.loadCourses sid a) /\ Course.id c <> cid)
          /\ (forall other, other <> sid ->
                Academic.loadCourses other a1 = Academic.loadCourses other a)).
Proof.
  intros a sid cid r Hr. split.
  - intros Hnil. rewrite unenroll_eq, Hr. cbv zeta. now rewrite Hnil.
  - intros Hne.
    set (st := Student.mk r (filter (fun c => negb (Z.eqb (Course.id c) cid))
                                    (Academic.loadCourses sid a))).
    exists st, (snd (Academic.saveStudent st a)).
    pose proof (find_student_id _ _ _ Hr) as Hsid.
    split; [|split].
    + rewrite unenroll_eq, Hr. cbv zeta.
      destruct (Academic.loadCourses sid a) eqn:E; [contradiction | reflexivity].
    + intros c.
      pose proof (In_loadCourses_saved st a c) as Hl.
      change (Student.id (Student.columns st)) with (Student.id r) in Hl.
      rewrite Hsid in Hl. rewrite Hl. clear Hl.
      cbn [st Student.courses]. rewrite in_map_iff. split.
      * intros [Hc [x [Ex Hx]]]. apply filter_In in Hx. destruct Hx as [Hx Hf].
        apply negb_true_iff, Z.eqb_neq in Hf. split; [|congruence].
        apply In_loadCourses. apply In_loadCourses in Hx.
        split; [exact Hc|]. rewrite <- Ex. tauto.
      * intros [Hc Hf]. split; [now apply In_loadCourses in Hc|].
        exists c. split; [reflexivity|]. apply filter_In. split; [exact Hc|].
        now apply negb_true_iff, Z.eqb_neq.
    + intros other Hother.
      apply (loadCourses_saved_other st a other). simpl. congruence.
Qed.

(** Ada, enrolled in algebra only, is unenrolled from logic. *)
Lemma X23_unenrolment_removes_one_course_or_nothing_witness :
  exists s1 a1,
    StudentsService.unenrollStudentFromCourse 1 11 Campus.enrolled = (Returned s1, a1)
    /\ (forall c,
           In c (Academic.loadCourses 1 a1)
           <-> In c (Academic.loadCourses 1 Campus.enrolled) /\ Course.id c <> 11)
    /\ (forall other, other <> 1 ->
          Academic.loadCourses other a1 = Academic.loadCourses other Campus.enrolled).
Proof.
  apply (proj2 (X23_unenrolment_removes_one_course_or_nothing Campus.enrolled 1 11
                  Campus.ada eq_refl)).
  discriminate.
Defined.

Lemma update_courses_eq (sid : Z) (ids : list Z) (a : Academy) :
  StudentsService.updateStudentCourses sid ids a
  = match findStudentRow sid a with
    | None =>
        (Thrown (NotFoundException ("Student with ID " ++ show sid ++ " not found")), a)
    | Some r =>
        let found := filter (fun c => existsb (Z.eqb (Course.id c)) ids) (courses a) in
        if Nat.eqb (List.length found) (List.length ids)
        then (Returned (Student.mk r found),
              snd (Academic.saveStudent (Student.mk r found) a))
        else (Thrown (NotFoundException
                        ("Courses with IDs "
                           ++ StudentsService.joinIds
                                (filter (fun id => negb (existsb (Z.eqb id)
                                                           (map Course.id found)))
                                        ids)
                           ++ " not found")), a)
    end.
Proof.
  unfold StudentsService.updateStudentCourses, bindTx, Academic.findStudent,
    Academic.findCoursesIn, findStudentRow.
  destruct (find _ (students a)) as [r|]; simpl; [|reflexivity].
  destruct (Nat.eqb _ (List.length ids)); reflexivity.
Qed.

Section Counting.
Variable table : list Course.t.
Hypothesis primary_key : NoDup (map Course.id table).
Variable ids : list Z.

Let found := filter (fun c => existsb (Z.eqb (Course.id c)) ids) table.
Let present (i : Z) : bool := existsb (Z.eqb i) (map Course.id table).

Lemma NoDup_map_filter (p : Course.t -> bool) (l : list Course.t) :
  NoDup (map Course.id l) -> NoDup (map Course.id (filter p l)).
Proof.
  induction l as [|c l IH]; simpl; intros H; [constructor|].
  inversion H as [|x xs Hnot Hnd]; subst.
  destruct (p c); simpl; [|now apply IH].
  constructor; [|now apply IH].
  intros Hin. apply Hnot. apply in_map_iff in Hin. destruct Hin as [y [E Hy]].
  apply filter_In in Hy. rewrite <- E. apply in_map. tauto.
Qed.

Lemma In_found_ids (x : Z) :
  In x (map Course.id found) <-> In x ids /\ In x (map Course.id table).
Proof.
  unfold found. rewrite !in_map_iff. split.
  - intros [c [E Hc]]. apply filter_In in Hc. destruct Hc as [Hc Hp].
    rewrite existsb_exists in Hp. destruct Hp as [y [Hy Ey]].
    apply Z.eqb_eq in Ey. subst. split; [congruence|]. now exists c.
  - intros [Hx [c [E Hc]]]. exists c. split; [exact E|].
    apply filter_In. split; [exact Hc|]. rewrite existsb_exists.
    exists x. split; [exact Hx|]. subst. apply Z.eqb_refl.
Qed.

Lemma length_found :
  List.length found = List.length (filter present (nodup Z.eq_dec ids)).
Proof.
  rewrite <- (length_map Course.id found). apply Permutation_length.
  apply NoDup_Permutation.
  - unfold found. now apply NoDup_map_filter.
  - apply NoDup_filter, NoDup_nodup.
  - intros x. rewrite In_found_ids, filter_In, nodup_In. unfold present.
    now rewrite existsb_Zeqb_In.
Qed.

Lemma nodup_length_le (l : list Z) :
  (List.length (nodup Z.eq_dec l) <= List.length l)%nat.
Proof.
  induction l as [|x l IH]; simpl; [lia|].
  destruct (in_dec Z.eq_dec x l); simpl; lia.
Qed.

Lemma nodup_length_eq (l : list Z) :
  List.length (nodup Z.eq_dec l) = List.length l -> NoDup l.
Proof.
  induction l as [|x l IH]; simpl; intros H; [constructor|].
  pose proof (nodup_length_le l).
  destruct (in_dec Z.eq_dec x l); simpl in H; [lia|].
  constructor; [assumption | apply IH; lia].
Qed.

Lemma filter_all (p : Z -> bool) (l : list Z) :
  (forall x, In x l -> p x = true) -> filter p l = l.
Proof.
  induction l as [|x l IH]; simpl; intros H; [reflexivity|].
  rewrite (H x (or_introl eq_refl)), IH; [reflexivity|].
  intros y Hy. apply H. now right.
Qed.

Lemma missing_nil_iff :
  filter (fun i => negb (present i)) ids = [] <-> forall i, In i ids -> present i = true.
Proof.
  split.
  - intros H i Hi. destruct (present i) eqn:E; [reflexivity|].
    assert (Hin : In i (filter (fun i => negb (present i)) ids)).
    { apply filter_In. split; [exact Hi | now rewrite E]. }
    rewrite H in Hin. contradiction.
  - intros H. induction ids as [|x l IH]; simpl; [reflexivity|].
    rewrite (H x (or_introl eq_refl)). simpl. apply IH.
    intros y Hy. apply H. now right.
Qed.

(** With unique course ids, as many rows are found as ids were given
    exactly when the ids are distinct and each has a row. *)
Lemma lengths_agree_iff :
  Nat.eqb (List.length found) (List.length ids) = true
  <-> NoDup ids /\ filter (fun i => negb (present i)) ids = [].
Proof.
  rewrite Nat.eqb_eq, length_found, missing_nil_iff. split.
  - intros H.
    pose proof (filter_length_le present (nodup Z.eq_dec ids)) as H1.
    pose proof (nodup_length_le ids) as H2.
    assert (Hnd : NoDup ids) by (apply nodup_length_eq; lia).
    split; [exact Hnd|].
    rewrite (nodup_fixed_point Z.eq_dec Hnd) in H.
    apply filter_length_forallb in H. rewrite forallb_forall in H. exact H.
  - intros [Hnd Hall]. rewrite (nodup_fixed_point Z.eq_dec Hnd).
    now rewrite filter_all.
Qed.

Lemma missing_of_found :
  filter (fun id => negb (existsb (Z.eqb id) (map Course.id found))) ids
  = filter (fun i => negb (present i)) ids.
Proof.
  apply filter_ext_in. intros x Hx. f_equal. unfold present.
  destruct (existsb (Z.eqb x) (map Course.id table)) eqn:E.
  - apply existsb_Zeqb_In. apply In_found_ids. split; [exact Hx|].
    now apply existsb_Zeqb_In.
  - destruct (existsb (Z.eqb x) (map Course.id found)) eqn:E'; [|reflexivity].
    apply existsb_Zeqb_In, In_found_ids in E'. destruct E' as [_ E'].
    apply existsb_Zeqb_In in E'. congruence.
Qed.
End Counting.

(** X24.  Replacing a student's courses.  Let the course ids of the table
    be unique and the student exist, and call missing the ids of
    [courseIds] that no course has.  [updateStudentCourses] succeeds
    exactly when the ids are distinct and none is missing, and then the
    student's courses are the courses whose id is in [courseIds], other
    students being read as before.  Otherwise it throws NotFoundException
    `Courses with IDs <missing, comma separated> not found` and changes
    nothing; when an id is merely repeated and none is missing, the list
    in that message is empty. *)
Theorem X24_replacing_courses_needs_distinct_known_ids :
  forall (a : Academy) (sid : Z) (courseIds : list Z) (r : Student.row),
    findStudentRow sid a = Some r ->
    NoDup (map Course.id (courses a)) ->
    let missing :=
      filter (fun i => negb (existsb (Z.eqb i) (map Course.id (courses a))))
             courseIds in
    (NoDup courseIds -> missing = [] ->
     exists s1 a1,
       StudentsService.updateStudentCourses sid courseIds a = (Returned s1, a1)
       /\ (forall c,
              In c (Academic.loadCourses sid a1)
              <-> In c (courses a) /\ In (Course.id c) courseIds)
       /\ (forall other, other <> sid ->
             Academic.loadCourses other a1 = Academic.loadCourses other a))
    /\ (~ NoDup courseIds \/ missing <> [] ->
        StudentsService.updateStudentCourses sid courseIds a
        = (Thrown (NotFoundException
                     ("Courses with IDs " ++ StudentsService.joinIds missing
                                          ++ " not found")), a))
    /\ (~ NoDup courseIds -> missing = [] ->
        StudentsService.updateStudentCourses sid courseIds a
        = (Thrown (NotFoundException "Courses with IDs  not found"), a)).
Proof.
  intros a sid courseIds r Hr Hpk missing.
  pose proof (lengths_agree_iff (courses a) Hpk courseIds) as Hlen.
  pose proof (missing_of_found (courses a) courseIds) as Hmiss.
  cbv zeta in Hlen, Hmiss. fold missing in Hlen, Hmiss.
  assert (Hthrow : ~ NoDup courseIds \/ missing <> [] ->
                   StudentsService.updateStudentCourses sid courseIds a
                   = (Thrown (NotFoundException
                                ("Courses with IDs " ++ StudentsService.joinIds missing
                                                     ++ " not found")), a)).
  { intros Hbad. rewrite update_courses_eq, Hr. cbv zeta.
    destruct (Nat.eqb _ (List.length courseIds)) eqn:E.
    - destruct Hlen as [Hlen _]. specialize (Hlen eq_refl). tauto.
    - now rewrite Hmiss. }
  split; [|split].
  - intros Hnd Hnone.
    set (found := filter (fun c => existsb (Z.eqb (Course.id c)) courseIds)
                         (courses a)).
    set (st := Student.mk r found).
    exists st, (snd (Academic.saveStudent st a)).
    pose proof (find_student_id _ _ _ Hr) as Hsid.
    split; [|split].
    + rewrite update_courses_eq, Hr. cbv zeta. fold found.
      replace (Nat.eqb (List.length found) (List.length courseIds)) with true;
        [reflexivity|].
      symmetry. apply Hlen. now split.
    + intros c.
      pose proof (In_loadCourses_saved st a c) as Hl.
      change (Student.id (Student.columns st)) with (Student.id r) in Hl.
      rewrite Hsid in Hl. rewrite Hl. clear Hl.
      cbn [st Student.courses]. unfold found.
      rewrite (In_found_ids (courses a) courseIds). split.
      * tauto.
      * intros [Hc Hi]. repeat split; try assumption. now apply in_map.
    + intros other Hother.
      apply (loadCourses_saved_other st a other). simpl. congruence.
  - exact Hthrow.
  - intros Hdup Hnone. rewrite Hthrow by now left. now rewrite Hnone.
Qed.

(** Algebra named twice. *)
Lemma X24_replacing_courses_needs_distinct_known_ids_witness :
  StudentsService.updateStudentCourses 1 [10; 10] Campus.academy
  = (Thrown (NotFoundException "Courses with IDs  not found"), Campus.academy).
Proof.
  destruct (X24_replacing_courses_needs_distinct_known_ids Campus.academy 1 [10; 10]
              Campus.ada eq_refl) as [_ [_ H]].
  - simpl. repeat constructor; simpl; intuition discriminate.
  - apply H; [|reflexivity].
    intros Hnd. inversion Hnd as [|x l Hnot _]. apply Hnot. now left.
Defined.
